(** * Perception-action loop of the game agent: a shallow embedding

    The development follows the Python sources file by file:

    - [actions]        : game_agent/actions.py        (intent buffer, flush, release_all)
    - [simple_match]   : 2dgametest/simple_match.py   (tiered template tracker)
    - [game_state]     : game_agent/game_state.py     (shared perception store)
    - [tracker_service]: game_agent/tracker_service.py (publishing loop body)
    - [script_runner]  : game_agent/script_runner.py  (frame loops)

    and then goes on with properties of whole runs and of the functions
    around these:

    - [actions_device]  : the device calls of actions.py against the device
    - [runner_facts]    : whole runs of the two loops of script_runner.py
    - [game_state_reads]: single records, the player and the export of
                          game_state.py
    - [tracker_rules]   : construction, settings, regions and preview frame of
                          simple_match.py
    - [tracking_loop]   : the counters of run_tracking_loop_cv in
                          simple_match.py
    - [service_facts]   : what a cycle of tracker_service.py publishes, and the
                          set-up from the command line
    - [dodge_enemy]     : game_agent/test_scripts/dodge_enemy.py, one turn of
                          the whole loop
    - [combat_learner]  : the fight loop of game_agent/combat_learner.py

    Python floats are IEEE binary64 values, embedded as Rocq's primitive
    floats; Python ints are [Z]; sets and dicts are stdpp's [gset] and [gmap];
    exceptions are results of a sum type.  External libraries (pydirectinput,
    OpenCV, mss) are not part of the repository: device calls are recorded as
    events, image operations are the methods of a class ([simple_match.Vision])
    the tracker is parameterised by. *)

From Stdlib Require Import ZArith Floats.PrimFloat.
From Stdlib Require Floats.FloatOps Floats.SpecFloat.
From stdpp Require Import gmap strings list.

(* Decimal literals such as 0.9 denote the nearest binary64 value, as in
   Python. *)
Set Warnings "-inexact-float,-clear-no-such-hyp".

Open Scope Z_scope.

(** ** Python values shared by the modules *)

Module py.

(** Exceptions, by what the handlers of the sources distinguish:
    [except Exception] catches every [Exception] instance,
    [except KeyboardInterrupt] only that one; [SystemExit] and the like derive
    from [BaseException] alone.  The named classes are those the embedded code
    raises itself; an exception a policy raises is [Exception] with its
    message, whatever its class below [Exception], or [KeyboardInterrupt], or
    [BaseException] for the rest. *)
Inductive exn :=
| Exception (msg : string)
| AssertionError
| IndexError
| ZeroDivisionError
| AttributeError
| ValueError
| OverflowError
| FileNotFoundError (msg : string)
| KeyboardInterrupt
| BaseException (msg : string).

(** [isinstance(e, Exception)] *)
Definition is_Exception (e : exn) : bool :=
  match e with
  | KeyboardInterrupt | BaseException _ => false
  | _ => true
  end.

(** [str(e)] as the runner's f-string prints it.  (The message texts of the
    exceptions the interpreter raises are not kept.) *)
Definition str (e : exn) : string :=
  match e with
  | Exception m | FileNotFoundError m | BaseException m => m
  | _ => ""
  end.

Inductive result (A : Type) :=
| Ok (a : A)
| Raise (e : exn).
Arguments Ok {A} a.
Arguments Raise {A} e.

#[global] Instance result_ret : MRet result := fun A a => Ok a.
#[global] Instance result_bind : MBind result := fun A B k m =>
  match m with
  | Ok a => k a
  | Raise e => Raise e
  end.

(** [float(n)] for an int, also the conversion [n * f] applies to its int
    operand: the nearest binary64 value, [OverflowError] beyond the range. *)
Definition float_of_int (n : Z) : result float :=
  let f := FloatOps.SF2Prim
             (SpecFloat.binary_normalize FloatOps.prec FloatOps.emax n 0 false) in
  if is_infinity f then Raise OverflowError else Ok f.

(** [int(f)]: truncation towards zero; [ValueError] on nan, [OverflowError]
    on an infinity. *)
Definition int (f : float) : result Z :=
  match FloatOps.Prim2SF f with
  | SpecFloat.S754_zero _ => Ok 0
  | SpecFloat.S754_finite s m e =>
      let a := if 0 <=? e then Z.pos m * 2 ^ e else Z.pos m / 2 ^ (- e) in
      Ok (if s then - a else a)
  | SpecFloat.S754_infinity _ => Raise OverflowError
  | SpecFloat.S754_nan => Raise ValueError
  end.

(** [a / b] on floats. *)
Definition truediv (a b : float) : result float :=
  if PrimFloat.eqb b 0 then Raise ZeroDivisionError else Ok (a / b)%float.

(** [n * f] and [n / f] with an int left operand. *)
Definition int_mul_float (n : Z) (f : float) : result float :=
  fn ← float_of_int n; mret (fn * f)%float.

Definition int_div_float (n : Z) (f : float) : result float :=
  fn ← float_of_int n; truediv fn f.

(** [f / n] with an int right operand. *)
Definition float_div_int (f : float) (n : Z) : result float :=
  fn ← float_of_int n; truediv f fn.

(** [l[start:stop]] with Python's treatment of negative and out-of-range
    bounds. *)
Definition slice_bound (len i : Z) : Z :=
  if i <? 0 then Z.max 0 (i + len) else Z.min i len.

Definition slice {A} (l : list A) (start stop : Z) : list A :=
  let len := Z.of_nat (length l) in
  let a := slice_bound len start in
  let b := slice_bound len stop in
  take (Z.to_nat (b - a)) (drop (Z.to_nat a) l).

End py.

(** ** game_agent/actions.py *)

Module actions.

(** Calls into pydirectinput and [time.sleep], in the order they are made. *)
Inductive dev_event :=
| keyDown (key : string)
| keyUp (key : string)
| press (key : string)
| moveTo (x y : Z)
| mouseDown
| mouseUp
| sleep (secs : float).

Record Actions := mkActions {
  _held_keys : gset string;
  _mouse_is_down : bool;
  _desired_keys : gset string;
  _mouse_target : option (Z * Z);
  _want_attack : bool;
  _queued_dashes : list string
}.

(** [Actions.__init__] *)
Definition __init__ : Actions :=
  mkActions ∅ false ∅ None false [].

(** [self._desired_keys.add(k)] *)
Definition add_desired (k : string) (self : Actions) : Actions :=
  mkActions (_held_keys self) (_mouse_is_down self)
            ({[k]} ∪ _desired_keys self)
            (_mouse_target self) (_want_attack self) (_queued_dashes self).

Definition move_left : Actions -> Actions := add_desired "a".
Definition move_right : Actions -> Actions := add_desired "d".
Definition fly_up : Actions -> Actions := add_desired "space".
Definition move_down : Actions -> Actions := add_desired "s".
Definition move_down_fast : Actions -> Actions := add_desired "b".

(** [attack_at(x, y)], for coordinates that are ints already ([int(x)] is
    [x]). *)
Definition attack_at (x y : Z) (self : Actions) : Actions :=
  mkActions (_held_keys self) (_mouse_is_down self) (_desired_keys self)
            (Some (x, y)) true (_queued_dashes self).

(** [self._queued_dashes.append(direction)] *)
Definition append_dash (direction : string) (self : Actions) : Actions :=
  mkActions (_held_keys self) (_mouse_is_down self) (_desired_keys self)
            (_mouse_target self) (_want_attack self)
            (_queued_dashes self ++ [direction]).

Definition dash_left : Actions -> Actions := append_dash "left".
Definition dash_right : Actions -> Actions := append_dash "right".

(** [key = 'a' if direction == 'left' else 'd'] *)
Definition dash_key (direction : string) : string :=
  if decide (direction = "left") then "a" else "d".

(** Step 1 of [flush]: the queued dash.  Returns the held set after the
    optional [discard] and the device calls made. *)
Definition flush_dash (held : gset string) (dashes : list string)
  : gset string * list dev_event :=
  match dashes with
  | [] => (held, [])
  | direction :: _ =>
      let key := dash_key direction in
      let '(held1, up) :=
        if decide (key ∈ held) then (held ∖ {[key]}, [keyUp key])
        else (held, []) in
      (held1, up ++ [press key; sleep 0.03%float; press key])
  end.

(** Step 2 of [flush]: the two [for] loops over the set differences.  A Python
    set is iterated in an unspecified order; [elements] fixes one. *)
Definition flush_keys (held desired : gset string) : list dev_event :=
  let keys_to_release := held ∖ desired in
  let keys_to_press := desired ∖ held in
  (keyUp <$> elements keys_to_release) ++ (keyDown <$> elements keys_to_press).

(** Step 3 of [flush]: [if self._mouse_target:] (a tuple is truthy). *)
Definition flush_aim (target : option (Z * Z)) : list dev_event :=
  match target with
  | Some (x, y) => [moveTo x y]
  | None => []
  end.

(** Step 4 of [flush]: the mouse button. *)
Definition flush_button (want down : bool) : bool * list dev_event :=
  if want && negb down then (true, [mouseDown])
  else if negb want && down then (false, [mouseUp])
  else (down, []).

(** [flush]: the four steps in order, then the reset of the per-frame
    fields.  The new held set is a copy of the desired one
    ([set(self._desired_keys)]), so clearing the desired keys leaves it. *)
Definition flush (self : Actions) : Actions * list dev_event :=
  let '(held1, ev_dash) := flush_dash (_held_keys self) (_queued_dashes self) in
  let ev_keys := flush_keys held1 (_desired_keys self) in
  let held2 := _desired_keys self in
  let ev_aim := flush_aim (_mouse_target self) in
  let '(down, ev_btn) := flush_button (_want_attack self) (_mouse_is_down self) in
  (mkActions held2 down ∅ None false [],
   ev_dash ++ ev_keys ++ ev_aim ++ ev_btn).

(** [release_all]: a [keyUp] per held key, [mouseUp] if the button is down;
    the per-frame fields are left as they are. *)
Definition release_all (self : Actions) : Actions * list dev_event :=
  let ev_keys := keyUp <$> elements (_held_keys self) in
  let ev_btn := if _mouse_is_down self then [mouseUp] else [] in
  (mkActions ∅ false (_desired_keys self) (_mouse_target self)
             (_want_attack self) (_queued_dashes self),
   ev_keys ++ ev_btn).

(** The bookkeeping while [flush] runs: the per-frame fields are as the
    policy left them (they are reset in the last step) and [_mouse_is_down]
    is as before; only [_held_keys] is rewritten on the way. *)
Definition during_flush (self : Actions) (held : gset string) : Actions :=
  mkActions held (_mouse_is_down self) (_desired_keys self)
            (_mouse_target self) (_want_attack self) (_queued_dashes self).

(** The device calls of [flush], each with the bookkeeping at the moment the
    call is made: [self._held_keys.discard(key)] follows the dash's [keyUp],
    [self._held_keys = set(self._desired_keys)] follows both key loops, and
    [self._mouse_is_down] is written after [mouseDown()] / [mouseUp()]. *)
Definition flush_trace (self : Actions) : list (dev_event * Actions) :=
  let held := _held_keys self in
  let desired := _desired_keys self in
  let '(held1, ev_dash) := flush_dash held (_queued_dashes self) in
  ((fun e => (e, during_flush self
                   match e with keyUp _ => held | _ => held1 end)) <$> ev_dash)
  ++ ((fun e => (e, during_flush self held1)) <$> flush_keys held1 desired)
  ++ ((fun e => (e, during_flush self desired))
        <$> flush_aim (_mouse_target self)
            ++ (flush_button (_want_attack self) (_mouse_is_down self)).2).

(** [flush] left by an exception that is raised inside its [n]-th device
    call (counted from 0) once that call has acted on the device: Ctrl+C
    while the call pauses after sending its input.  The statements after the
    call are not run, so the bookkeeping is the one of that moment.  [None]:
    [flush] makes no such call. *)
Definition flush_cut (n : nat) (self : Actions)
  : option (Actions * list dev_event) :=
  (fun c => (c.2, (take (S n) (flush_trace self)).*1)) <$> flush_trace self !! n.

(** The script-facing methods, as data: what a policy may call in a frame. *)
Inductive intent :=
| MoveLeft | MoveRight | FlyUp | MoveDown | MoveDownFast
| AttackAt (x y : Z)
| DashLeft | DashRight.

Definition call (c : intent) : Actions -> Actions :=
  match c with
  | MoveLeft => move_left
  | MoveRight => move_right
  | FlyUp => fly_up
  | MoveDown => move_down
  | MoveDownFast => move_down_fast
  | AttackAt x y => attack_at x y
  | DashLeft => dash_left
  | DashRight => dash_right
  end.

(** A policy's calls of one frame, applied in order. *)
Definition declare (calls : list intent) (self : Actions) : Actions :=
  foldl (fun a c => call c a) self calls.

(** One frame: the declarations, then the runner's [flush]. *)
Definition frame (calls : list intent) (self : Actions)
  : Actions * list dev_event :=
  flush (declare calls self).

(** Consecutive frames with nothing else in between; the device calls are
    kept per frame. *)
Fixpoint frames (fs : list (list intent)) (self : Actions)
  : Actions * list (list dev_event) :=
  match fs with
  | [] => (self, [])
  | f :: rest =>
      let '(s1, ev) := frame f self in
      let '(s2, evs) := frames rest s1 in
      (s2, ev :: evs)
  end.

(** The key a device call acts on, if any. *)
Definition event_key (e : dev_event) : option string :=
  match e with
  | keyDown k | keyUp k | press k => Some k
  | _ => None
  end.

(** The device calls of a trace that act on key [k]. *)
Definition events_on (k : string) (evs : list dev_event) : list dev_event :=
  filter (fun e => event_key e = Some k) evs.

(** A frame declares [k] desired / queues a dash on [k]. *)
Definition declares (k : string) (calls : list intent) : Prop :=
  k ∈ _desired_keys (declare calls __init__).

Definition dashes_on (k : string) (calls : list intent) : Prop :=
  k ∈ dash_key <$> _queued_dashes (declare calls __init__).

#[global] Instance declares_dec k calls : Decision (declares k calls).
Proof. unfold declares. apply _. Defined.

#[global] Instance dashes_on_dec k calls : Decision (dashes_on k calls).
Proof. unfold dashes_on. apply _. Defined.

(** The per-frame fields are empty: the state after [__init__] or [flush]. *)
Definition intent_clear (self : Actions) : Prop :=
  _desired_keys self = ∅ /\ _mouse_target self = None /\
  _want_attack self = false /\ _queued_dashes self = [].

(** [press] and the pause between them: the parts of a double-tap. *)
Definition is_tap (e : dev_event) : bool :=
  match e with
  | press _ | sleep _ => true
  | _ => false
  end.

Definition set_dashes (dashes : list string) (self : Actions) : Actions :=
  mkActions (_held_keys self) (_mouse_is_down self) (_desired_keys self)
            (_mouse_target self) (_want_attack self) dashes.

(** *** Properties of the declarations *)

Lemma declare_held calls self :
  _held_keys (declare calls self) = _held_keys self /\
  _mouse_is_down (declare calls self) = _mouse_is_down self.
Proof.
  revert self. induction calls as [|c calls IH]; intros self; [done|].
  change (declare (c :: calls) self) with (declare calls (call c self)).
  destruct (IH (call c self)) as [-> ->]. by destruct c.
Qed.

(** What a single call adds to the per-frame fields. *)
Definition intent_keys (c : intent) : gset string :=
  _desired_keys (call c __init__).

Definition intent_dashes (c : intent) : list string :=
  _queued_dashes (call c __init__).

Lemma call_desired c self :
  _desired_keys (call c self) = intent_keys c ∪ _desired_keys self.
Proof.
  destruct c; unfold intent_keys, call, move_left, move_right, fly_up,
    move_down, move_down_fast, add_desired, attack_at, dash_left, dash_right,
    append_dash, __init__; cbn [_desired_keys]; set_solver.
Qed.

Lemma call_dashes c self :
  _queued_dashes (call c self) = _queued_dashes self ++ intent_dashes c.
Proof.
  destruct c; unfold intent_dashes, call, move_left, move_right, fly_up,
    move_down, move_down_fast, add_desired, attack_at, dash_left, dash_right,
    append_dash, __init__; cbn [_queued_dashes app]; by rewrite ?app_nil_r.
Qed.

Lemma declare_desired calls self :
  _desired_keys (declare calls self)
  = _desired_keys (declare calls __init__) ∪ _desired_keys self.
Proof.
  revert self. unfold declare.
  induction calls as [|c calls IH] using rev_ind; intros self.
  - cbn [foldl]. unfold __init__; cbn [_desired_keys]. set_solver.
  - rewrite !foldl_snoc, !call_desired, IH. set_solver.
Qed.

Lemma declare_dashes calls self :
  _queued_dashes (declare calls self)
  = _queued_dashes self ++ _queued_dashes (declare calls __init__).
Proof.
  revert self. unfold declare.
  induction calls as [|c calls IH] using rev_ind; intros self.
  - cbn [foldl]. unfold __init__; cbn [_queued_dashes]. by rewrite app_nil_r.
  - rewrite !foldl_snoc, !call_dashes, IH. by rewrite app_assoc.
Qed.

(** *** Device calls on one key *)

Lemma events_on_app k ev1 ev2 :
  events_on k (ev1 ++ ev2) = events_on k ev1 ++ events_on k ev2.
Proof. apply filter_app. Qed.

Lemma events_on_keys (mk : string -> dev_event) k (l : list string) :
  (forall x, event_key (mk x) = Some x) -> NoDup l ->
  events_on k (mk <$> l) = if decide (k ∈ l) then [mk k] else [].
Proof.
  intros Hmk. induction 1 as [|x l Hx Hnd IH]; [done|].
  unfold events_on in *. cbn [fmap list_fmap]. rewrite filter_cons, IH, Hmk.
  destruct (decide (Some x = Some k)) as [[= ->]|Hne].
  - rewrite (decide_False (P := k ∈ l)) by done.
    by rewrite decide_True by set_solver.
  - destruct (decide (k ∈ l)) as [Hin|Hin].
    + by rewrite decide_True by set_solver.
    + rewrite decide_False; [done|]. intros [->|?]%elem_of_cons; congruence.
Qed.

Lemma events_on_set (mk : string -> dev_event) k (s : gset string) :
  (forall x, event_key (mk x) = Some x) ->
  events_on k (mk <$> elements s) = if decide (k ∈ s) then [mk k] else [].
Proof.
  intros Hmk. rewrite (events_on_keys mk k _ Hmk (NoDup_elements s)).
  destruct (decide (k ∈ s)).
  - by rewrite decide_True by set_solver.
  - by rewrite decide_False by set_solver.
Qed.

Lemma events_on_flush_keys k held desired :
  events_on k (flush_keys held desired) =
    if decide (k ∈ held)
    then (if decide (k ∈ desired) then [] else [keyUp k])
    else (if decide (k ∈ desired) then [keyDown k] else []).
Proof.
  unfold flush_keys. rewrite events_on_app, !events_on_set by done.
  repeat case_decide; set_solver.
Qed.

Lemma events_on_flush_aim k target : events_on k (flush_aim target) = [].
Proof. by destruct target as [[??]|]. Qed.

Lemma events_on_flush_button k want down :
  events_on k (flush_button want down).2 = [].
Proof. by destruct want, down. Qed.

Lemma flush_dash_other k held dashes :
  k ∉ dash_key <$> dashes ->
  events_on k (flush_dash held dashes).2 = [] /\
  (k ∈ (flush_dash held dashes).1 <-> k ∈ held).
Proof.
  destruct dashes as [|d ds]; [done|]. cbn [fmap list_fmap flush_dash].
  intros Hk. assert (dash_key d ≠ k) as Hne by set_solver.
  unfold events_on. case_decide; cbn.
  - rewrite !decide_False by congruence. split; [done|set_solver].
  - rewrite !decide_False by congruence. done.
Qed.

(** [flush] by components. *)
Lemma flush_events self :
  (flush self).2 =
    (flush_dash (_held_keys self) (_queued_dashes self)).2
    ++ flush_keys (flush_dash (_held_keys self) (_queued_dashes self)).1
                  (_desired_keys self)
    ++ flush_aim (_mouse_target self)
    ++ (flush_button (_want_attack self) (_mouse_is_down self)).2.
Proof. unfold flush. by destruct (flush_dash _ _), (flush_button _ _). Qed.

Lemma calls_of_trace (g : dev_event -> Actions) (l : list dev_event) :
  ((fun e => (e, g e)) <$> l).*1 = l.
Proof. induction l as [|e l IH]; [done|]. cbn. by f_equal. Qed.

(** The calls of [flush_trace] are those of [flush]. *)
Lemma flush_trace_events self : (flush_trace self).*1 = (flush self).2.
Proof.
  rewrite flush_events. unfold flush_trace.
  destruct (flush_dash _ _) as [held1 ev_dash]. cbn [fst snd].
  by rewrite !fmap_app, !calls_of_trace.
Qed.

Lemma flush_state self :
  (flush self).1 =
    mkActions (_desired_keys self)
              (flush_button (_want_attack self) (_mouse_is_down self)).1
              ∅ None false [].
Proof. unfold flush. by destruct (flush_dash _ _), (flush_button _ _). Qed.

Lemma flush_clear self : intent_clear (flush self).1.
Proof. by rewrite flush_state. Qed.

(** What one frame does to key [k] when no dash is queued on it. *)
Lemma frame_events_on k calls self :
  intent_clear self -> ¬ dashes_on k calls ->
  events_on k (frame calls self).2 =
    (if decide (k ∈ _held_keys self)
     then (if decide (declares k calls) then [] else [keyUp k])
     else (if decide (declares k calls) then [keyDown k] else []))
  /\ (k ∈ _held_keys (frame calls self).1 <-> declares k calls)
  /\ intent_clear (frame calls self).1.
Proof.
  intros (Hd & _ & _ & Hq) Hno. unfold frame.
  pose proof (declare_desired calls self) as Hdd. rewrite Hd in Hdd.
  split; [|split; [|apply flush_clear]].
  - rewrite flush_events.
    pose proof (declare_dashes calls self) as Hdq.
    rewrite Hq in Hdq. cbn [app] in Hdq.
    destruct (declare_held calls self) as [Hh Hm]. rewrite Hdq, Hh.
    destruct (flush_dash_other k (_held_keys self) _ Hno) as [He Hin].
    rewrite !events_on_app, He, events_on_flush_keys, events_on_flush_aim,
      events_on_flush_button, !app_nil_r.
    unfold declares. rewrite Hdd. cbn [app].
    repeat case_decide; set_solver.
  - rewrite flush_state. cbn [_held_keys]. unfold declares.
    rewrite Hdd. set_solver.
Qed.

Lemma frames_cons f fs self :
  frames (f :: fs) self =
    ((frames fs (frame f self).1).1,
     (frame f self).2 :: (frames fs (frame f self).1).2).
Proof. cbn [frames]. by destruct (frame f self), (frames fs _). Qed.

(** Frames that keep declaring a held key make no device call on it. *)
Lemma frames_hold k mid omit self :
  intent_clear self -> k ∈ _held_keys self ->
  Forall (fun f => declares k f /\ ¬ dashes_on k f) mid ->
  ¬ declares k omit -> ¬ dashes_on k omit ->
  exists ev_mid ev_omit,
    (frames (mid ++ [omit]) self).2 = ev_mid ++ [ev_omit] /\
    length ev_mid = length mid /\
    Forall (fun ev => events_on k ev = []) ev_mid /\
    events_on k ev_omit = [keyUp k].
Proof.
  intros Hc Hh Hmid Hno Hnd. revert self Hc Hh.
  induction Hmid as [|f mid [Hf Hfd] _ IH]; intros self Hc Hh.
  - exists [], (frame omit self).2. cbn [app]. rewrite frames_cons.
    destruct (frame_events_on k omit self Hc Hnd) as (He & _ & _).
    rewrite He, decide_True, decide_False by done. by cbn.
  - destruct (frame_events_on k f self Hc Hfd) as (He & Hin & Hc1).
    destruct (IH _ Hc1 (proj2 Hin Hf)) as (ev_mid & ev_omit & E & L & F & U).
    exists ((frame f self).2 :: ev_mid), ev_omit.
    rewrite <- app_comm_cons, frames_cons. cbn [snd]. rewrite E.
    repeat split; [by cbn; rewrite L| |done].
    constructor; [|done]. rewrite He. by rewrite !decide_True.
Qed.

(** C2. Over consecutive flushes, with no dash queued on [k] and no
    [release_all] in between: a key [k] that is not held, declared desired on
    every frame of a run ([first], then [mid]) and omitted on the next frame
    ([omit]), gets exactly one [keyDown] (in the run's first flush), no device
    call at all in the later flushes of the run, and exactly one [keyUp] (in
    the flush of the first frame that omits it). *)
Theorem hold_is_one_press_one_release
  (k : string) (self : Actions)
  (first : list intent) (mid : list (list intent)) (omit : list intent) :
  intent_clear self -> k ∉ _held_keys self ->
  Forall (fun f => declares k f /\ ¬ dashes_on k f) (first :: mid) ->
  ¬ declares k omit -> ¬ dashes_on k omit ->
  exists ev_first ev_mid ev_omit,
    (frames (first :: mid ++ [omit]) self).2 = ev_first :: ev_mid ++ [ev_omit] /\
    length ev_mid = length mid /\
    events_on k ev_first = [keyDown k] /\
    Forall (fun ev => events_on k ev = []) ev_mid /\
    events_on k ev_omit = [keyUp k].
Proof.
  intros Hc Hh Hrun Hno Hnd.
  apply Forall_cons in Hrun as [[Hf Hfd] Hmid].
  destruct (frame_events_on k first self Hc Hfd) as (He & Hin & Hc1).
  destruct (frames_hold k mid omit _ Hc1 (proj2 Hin Hf) Hmid Hno Hnd)
    as (ev_mid & ev_omit & E & L & F & U).
  exists (frame first self).2, ev_mid, ev_omit.
  rewrite frames_cons. cbn [snd]. rewrite E.
  repeat split; try done.
  rewrite He. rewrite decide_False by done. by rewrite decide_True.
Qed.

(** Three frames holding "a" next to other intents, then a frame without it. *)
Lemma hold_is_one_press_one_release_witness :
  exists ev_first ev_mid ev_omit,
    (frames ([MoveLeft; AttackAt 800 400]
               :: [[MoveLeft; DashRight]; [FlyUp; MoveLeft]] ++ [[FlyUp]])
            __init__).2
      = ev_first :: ev_mid ++ [ev_omit] /\
    length ev_mid = length [[MoveLeft; DashRight]; [FlyUp; MoveLeft]] /\
    events_on "a" ev_first = [keyDown "a"] /\
    Forall (fun ev => events_on "a" ev = []) ev_mid /\
    events_on "a" ev_omit = [keyUp "a"].
Proof.
  apply (hold_is_one_press_one_release "a" __init__).
  - done.
  - compute_done.
  - repeat constructor; compute_done.
  - compute_done.
  - compute_done.
Defined.

(** *** The dash step *)

Lemma is_tap_keys (mk : string -> dev_event) (l : list string) :
  (forall x, is_tap (mk x) = false) -> filter is_tap (mk <$> l) = [].
Proof.
  intros Hmk. induction l as [|x l IH]; [done|].
  cbn [fmap list_fmap]. rewrite filter_cons, IH.
  case_decide as Htap; [|done]. by rewrite Hmk in Htap.
Qed.

Lemma is_tap_flush_keys held desired :
  filter is_tap (flush_keys held desired) = [].
Proof. unfold flush_keys. by rewrite filter_app, !is_tap_keys. Qed.

Lemma is_tap_flush_aim target : filter is_tap (flush_aim target) = [].
Proof. by destruct target as [[??]|]. Qed.

Lemma is_tap_flush_button want down :
  filter is_tap (flush_button want down).2 = [].
Proof. by destruct want, down. Qed.

(** C3. When the dash queue of a frame is not empty, [flush] performs one
    double-tap, for the first queued direction: a [keyUp] of that movement key
    first if it is in the held set, then press, the fixed 0.03 s pause, press.
    Nothing else in the flush is a press or a pause, the dashes queued behind
    the first change nothing ([flush] acts as on the one-element queue), and
    the queue is empty afterwards. *)
Theorem flush_runs_first_dash_only
  (self : Actions) (direction : string) (others : list string) :
  _queued_dashes self = direction :: others ->
  let key := dash_key direction in
  (exists rest,
      (flush self).2 =
        (if decide (key ∈ _held_keys self) then [keyUp key] else [])
        ++ [press key; sleep 0.03; press key] ++ rest
      /\ filter is_tap rest = [])
  /\ filter is_tap (flush self).2 = [press key; sleep 0.03; press key]
  /\ flush self = flush (set_dashes [direction] self)
  /\ _queued_dashes (flush self).1 = [].
Proof.
  intros Hq key. split; [|split; [|split]].
  - exists (flush_keys (flush_dash (_held_keys self) (_queued_dashes self)).1
                       (_desired_keys self)
            ++ flush_aim (_mouse_target self)
            ++ (flush_button (_want_attack self) (_mouse_is_down self)).2).
    split.
    + rewrite flush_events, Hq. cbn [flush_dash]. fold key.
      destruct (decide (key ∈ _held_keys self)); cbn [fst snd];
        rewrite <- !app_assoc; reflexivity.
    + by rewrite !filter_app, is_tap_flush_keys, is_tap_flush_aim,
        is_tap_flush_button.
  - rewrite flush_events, Hq. cbn [flush_dash]. fold key.
    rewrite !filter_app, is_tap_flush_keys, is_tap_flush_aim,
      is_tap_flush_button, !app_nil_r.
    by destruct (decide (key ∈ _held_keys self)).
  - unfold flush, set_dashes. cbn [_held_keys _queued_dashes _desired_keys
      _mouse_target _want_attack _mouse_is_down]. by rewrite Hq.
  - by rewrite flush_state.
Qed.

(** A frame that holds "a", then queues a left and a right dash. *)
Lemma flush_runs_first_dash_only_witness :
  let self := declare [DashLeft; DashRight] (frame [MoveLeft] __init__).1 in
  (exists rest,
      (flush self).2 =
        (if decide ("a" ∈ _held_keys self) then [keyUp "a"] else [])
        ++ [press "a"; sleep 0.03; press "a"] ++ rest
      /\ filter is_tap rest = [])
  /\ filter is_tap (flush self).2 = [press "a"; sleep 0.03; press "a"]
  /\ flush self = flush (set_dashes ["left"] self)
  /\ _queued_dashes (flush self).1 = [].
Proof.
  intros self.
  apply (flush_runs_first_dash_only self "left" ["right"]).
  reflexivity.
Defined.

(** The same frame, evaluated: the held key is released before the
    double-tap, and the right dash leaves no trace. *)
Example flush_two_dashes :
  (flush (declare [DashLeft; DashRight] (frame [MoveLeft] __init__).1)).2
  = [keyUp "a"; press "a"; sleep 0.03; press "a"].
Proof. vm_compute. reflexivity. Qed.

End actions.

(** ** 2dgametest/simple_match.py *)

Module simple_match.

(** A numpy image: rows of pixels, a pixel being its channel values (one for
    a grayscale image). *)
Definition ndarray := list (list (list Z)).

(** [a.shape[0]] and [a.shape[1]] *)
Definition shape0 (a : ndarray) : Z := Z.of_nat (length a).
Definition shape1 (a : ndarray) : Z :=
  match a with
  | [] => 0
  | row :: _ => Z.of_nat (length row)
  end.

(** [a[y0:y1, x0:x1]] *)
Definition slice2 (a : ndarray) (y0 y1 x0 x1 : Z) : ndarray :=
  (fun row => py.slice row x0 x1) <$> py.slice a y0 y1.

Inductive tm_method :=
| TM_SQDIFF | TM_SQDIFF_NORMED | TM_CCORR | TM_CCORR_NORMED
| TM_CCOEFF | TM_CCOEFF_NORMED.

Inductive color_code := COLOR_BGRA2BGR | COLOR_BGR2GRAY.
Inductive interpolation := INTER_NEAREST | INTER_AREA.

(** What the tracker uses of OpenCV and mss.  [matchTemplate] is only called
    behind the size guards of the source, [resize] with the sizes computed in
    [__init__]; both are taken as total. *)
Class Vision := {
  (** [cv.imread(path, cv.IMREAD_COLOR)], [None] when the file cannot be read *)
  imread : string -> option ndarray;
  cvtColor : ndarray -> color_code -> ndarray;
  resize : ndarray -> Z * Z -> interpolation -> ndarray;
  (** [cv.minMaxLoc(cv.matchTemplate(frame, tpl, method))]:
      (min_val, max_val, min_loc, max_loc), a location being (x, y) *)
  matchTemplate_minMaxLoc :
    ndarray -> ndarray -> tm_method -> float * float * (Z * Z) * (Z * Z);
  (** width and height of [sct.monitors[1]] *)
  monitor : Z * Z;
  (** what the n-th [sct.grab(monitor)] of a tracker returns (BGRA) *)
  sct_grab : nat -> ndarray
}.

Module MatchResult.
Record t := mk {
  id : nat;
  found : bool;
  x : Z;
  y : Z;
  w : Z;
  h : Z;
  score : float;
  method : string
}.
End MatchResult.

Module TemplateState.
Record t := mk {
  id : nat;
  path : string;
  tpl : ndarray;
  tpl_gray : ndarray;
  tpl_small : ndarray;
  w : Z;
  h : Z;
  w_small : Z;
  h_small : Z;
  last_pos : option (Z * Z);
  found : bool
}.
End TemplateState.

Record MultiTemplateTrackerCV := mkTracker {
  confidence : float;
  search_margin : Z;
  method : tm_method;
  use_grayscale : bool;
  downscale_factor : float;
  use_pyramid : bool;
  skip_full_scan : bool;
  (** the mss handle: how many grabs it has served *)
  sct : nat;
  screen_w : Z;
  screen_h : Z;
  screen_w_small : Z;
  screen_h_small : Z;
  templates : list TemplateState.t;
  (** whether a ThreadPoolExecutor was created *)
  executor : bool;
  max_workers : Z;
  _last_frame : option ndarray
}.

(** The four places where [_match_one] calls [_best_match]: on the ROI around
    [last_pos], on the downscaled frame, on the refinement window, on the
    whole frame. *)
Inductive site := ROI | Coarse | Refine | Full.

(** The search tier a call site belongs to, by the [method] tag of the result
    it can produce. *)
Definition tier_tag (s : site) : string :=
  match s with
  | ROI => "Heuristic"
  | Coarse | Refine => "Pyramid"
  | Full => "Full Scan"
  end.

(** One [_best_match] call: where it was made, and its arguments. *)
Record call := mkCall {
  call_site : site;
  call_frame : ndarray;
  call_tpl : ndarray
}.

(** What [find_all] does besides matching, and its [_match_one] calls. *)
Inductive event :=
| ev_grab (n : nat)
| ev_cvtColor (src : ndarray) (code : color_code)
| ev_resize (src : ndarray) (dsize : Z * Z)
| ev_match_one (id : nat) (frame_bgr : ndarray)
               (frame_gray frame_small : option ndarray).

Definition is_grab (e : event) : bool :=
  match e with ev_grab _ => true | _ => false end.

Definition is_resize (e : event) : bool :=
  match e with ev_resize _ _ => true | _ => false end.

Definition is_match_one (e : event) : bool :=
  match e with ev_match_one _ _ _ _ => true | _ => false end.

Definition is_gray (e : event) : bool :=
  match e with ev_cvtColor _ COLOR_BGR2GRAY => true | _ => false end.

Section tracker.
Context `{Vision}.

Definition load_template (downscale_factor : float) (use_grayscale : bool)
    (i : nat) (path : string) : py.result TemplateState.t :=
  match imread path with
  | None => py.Raise (py.FileNotFoundError ("Failed to load template: " +:+ path))
  | Some tpl =>
      let h := shape0 tpl in
      let w := shape1 tpl in
      let tpl_gray := cvtColor tpl COLOR_BGR2GRAY in
      fw ← py.int_mul_float w downscale_factor;
      iw ← py.int fw;
      let w_small := Z.max 1 iw in
      fh ← py.int_mul_float h downscale_factor;
      ih ← py.int fh;
      let h_small := Z.max 1 ih in
      let tpl_small :=
        if use_grayscale then resize tpl_gray (w_small, h_small) INTER_AREA
        else resize tpl (w_small, h_small) INTER_AREA in
      mret (TemplateState.mk i path tpl tpl_gray tpl_small
                             w h w_small h_small None false)
  end.

(** The [for i, path in enumerate(template_paths)] loop, from index [i]. *)
Fixpoint load_templates (downscale_factor : float) (use_grayscale : bool)
    (i : nat) (paths : list string) : py.result (list TemplateState.t) :=
  match paths with
  | [] => mret []
  | path :: rest =>
      t ← load_template downscale_factor use_grayscale i path;
      ts ← load_templates downscale_factor use_grayscale (S i) rest;
      mret (t :: ts)
  end.

Definition __init__ (template_paths : list string) (confidence : float)
    (search_margin max_workers : Z) (method : tm_method)
    (use_grayscale : bool) (downscale_factor : float) (skip_full_scan : bool)
  : py.result MultiTemplateTrackerCV :=
  let use_pyramid := (downscale_factor <? 1.0)%float in
  let skip_full_scan := skip_full_scan && use_pyramid in
  let '(screen_w, screen_h) := monitor in
  fw ← py.int_mul_float screen_w downscale_factor;
  screen_w_small ← py.int fw;
  fh ← py.int_mul_float screen_h downscale_factor;
  screen_h_small ← py.int fh;
  templates ← load_templates downscale_factor use_grayscale 0 template_paths;
  mret (mkTracker confidence search_margin method use_grayscale
                  downscale_factor use_pyramid skip_full_scan 0
                  screen_w screen_h screen_w_small screen_h_small
                  templates (0 <? max_workers) max_workers None).

Definition _best_match (frame tpl : ndarray) (method : tm_method)
  : float * Z * Z :=
  let '(min_val, max_val, min_loc, max_loc) :=
    matchTemplate_minMaxLoc frame tpl method in
  match method with
  | TM_SQDIFF | TM_SQDIFF_NORMED =>
      let score := (1.0 - min_val)%float in
      let '(x, y) := min_loc in
      (score, x, y)
  | _ =>
      let score := max_val in
      let '(x, y) := max_loc in
      (score, x, y)
  end.

(** Tier 1 of [_match_one]: the ROI around [last_pos], at full resolution. *)
Definition tier_roi (self : MultiTemplateTrackerCV) (t : TemplateState.t)
    (frame tpl : ndarray) : option MatchResult.t * list call :=
  let w := TemplateState.w t in
  let h := TemplateState.h t in
  match TemplateState.last_pos t with
  | Some (lx, ly) =>
      let roi_x := Z.max 0 (lx - search_margin self) in
      let roi_y := Z.max 0 (ly - search_margin self) in
      let roi_w := Z.min (search_margin self * 2 + w) (screen_w self - roi_x) in
      let roi_h := Z.min (search_margin self * 2 + h) (screen_h self - roi_y) in
      if (w <=? roi_w) && (h <=? roi_h) then
        let roi := slice2 frame roi_y (roi_y + roi_h) roi_x (roi_x + roi_w) in
        let '(score, x, y) := _best_match roi tpl (method self) in
        (if (confidence self <=? score)%float
         then Some (MatchResult.mk (TemplateState.id t) true
                                   (roi_x + x) (roi_y + y) w h score "Heuristic")
         else None,
         [mkCall ROI roi tpl])
      else (None, [])
  | None => (None, [])
  end.

(** Steps 2 and 3 of the pyramid tier, up to the refinement margin: the
    arithmetic that can raise. *)
Definition pyramid_rescale (self : MultiTemplateTrackerCV) (x_small y_small : Z)
  : py.result (Z * Z * Z) :=
  scale ← py.truediv 1.0 (downscale_factor self);
  fx ← py.int_mul_float x_small scale;
  x_full ← py.int fx;
  fy ← py.int_mul_float y_small scale;
  y_full ← py.int fy;
  q ← py.int_div_float 50 (downscale_factor self);
  m ← py.int q;
  mret (x_full, y_full, Z.max 20 m).

(** Tier 2 of [_match_one]: coarse match on the downscaled frame, then a
    full-resolution match in the refinement window. *)
Definition tier_pyramid (self : MultiTemplateTrackerCV) (t : TemplateState.t)
    (frame tpl : ndarray) (frame_small : option ndarray)
  : py.result (option MatchResult.t) * list call :=
  let w := TemplateState.w t in
  let h := TemplateState.h t in
  match use_pyramid self, frame_small with
  | true, Some frame_small =>
      if (TemplateState.w_small t <=? shape1 frame_small)
         && (TemplateState.h_small t <=? shape0 frame_small) then
        let '(score_small, x_small, y_small) :=
          _best_match frame_small (TemplateState.tpl_small t) (method self) in
        let coarse := mkCall Coarse frame_small (TemplateState.tpl_small t) in
        if (confidence self * 0.9 <=? score_small)%float then
          match pyramid_rescale self x_small y_small with
          | py.Raise e => (py.Raise e, [coarse])
          | py.Ok (x_full, y_full, refine_margin) =>
              let roi_x := Z.max 0 (x_full - refine_margin) in
              let roi_y := Z.max 0 (y_full - refine_margin) in
              let roi_w := Z.min (w + refine_margin * 2) (screen_w self - roi_x) in
              let roi_h := Z.min (h + refine_margin * 2) (screen_h self - roi_y) in
              if (w <=? roi_w) && (h <=? roi_h) then
                let roi :=
                  slice2 frame roi_y (roi_y + roi_h) roi_x (roi_x + roi_w) in
                let '(score, x, y) := _best_match roi tpl (method self) in
                (py.Ok (if (confidence self <=? score)%float
                        then Some (MatchResult.mk (TemplateState.id t) true
                                     (roi_x + x) (roi_y + y) w h score "Pyramid")
                        else None),
                 [coarse; mkCall Refine roi tpl])
              else (py.Ok None, [coarse])
          end
        else (py.Ok None, [coarse])
      else (py.Ok None, [])
  | _, _ => (py.Ok None, [])
  end.

(** Tier 3 of [_match_one]: the whole frame at full resolution. *)
Definition tier_full (self : MultiTemplateTrackerCV) (t : TemplateState.t)
    (frame tpl : ndarray) : option MatchResult.t * list call :=
  let w := TemplateState.w t in
  let h := TemplateState.h t in
  if negb (skip_full_scan self) then
    if (w <=? shape1 frame) && (h <=? shape0 frame) then
      let '(score, x, y) := _best_match frame tpl (method self) in
      (if (confidence self <=? score)%float
       then Some (MatchResult.mk (TemplateState.id t) true x y w h score "Full Scan")
       else None,
       [mkCall Full frame tpl])
    else (None, [])
  else (None, []).

Definition not_found (t : TemplateState.t) : MatchResult.t :=
  MatchResult.mk (TemplateState.id t) false 0 0
                 (TemplateState.w t) (TemplateState.h t) 0.0 "Not Found".

(** [_match_one], with the [_best_match] calls it made, in order.  Each
    [return] of the source ends the search: the later tiers are only reached
    through the [None] branches. *)
Definition _match_one (self : MultiTemplateTrackerCV) (t : TemplateState.t)
    (frame_bgr : ndarray) (frame_gray frame_small : option ndarray)
  : py.result MatchResult.t * list call :=
  let picked :=
    if use_grayscale self
    then (frame_gray, TemplateState.tpl_gray t)
    else (Some frame_bgr, TemplateState.tpl t) in
  match picked with
  | (None, _) => (py.Raise py.AssertionError, [])
  | (Some frame, tpl) =>
      match tier_roi self t frame tpl with
      | (Some r, log1) => (py.Ok r, log1)
      | (None, log1) =>
          match tier_pyramid self t frame tpl frame_small with
          | (py.Raise e, log2) => (py.Raise e, log1 ++ log2)
          | (py.Ok (Some r), log2) => (py.Ok r, log1 ++ log2)
          | (py.Ok None, log2) =>
              match tier_full self t frame tpl with
              | (Some r, log3) => (py.Ok r, log1 ++ log2 ++ log3)
              | (None, log3) => (py.Ok (not_found t), log1 ++ log2 ++ log3)
              end
          end
      end
  end.

(** [_grab_frame_bgr]: the frame, and the handle after the grab. *)
Definition _grab_frame_bgr (self : MultiTemplateTrackerCV)
  : ndarray * nat * list event :=
  let frame := sct_grab (sct self) in
  let frame_bgr := cvtColor frame COLOR_BGRA2BGR in
  (frame_bgr, S (sct self),
   [ev_grab (sct self); ev_cvtColor frame COLOR_BGRA2BGR]).

(** The list comprehension over [self.templates]: a raising [_match_one]
    ends it. *)
Fixpoint match_sequential (self : MultiTemplateTrackerCV)
    (frame_bgr : ndarray) (frame_gray frame_small : option ndarray)
    (ts : list TemplateState.t) : py.result (list MatchResult.t) * list event :=
  match ts with
  | [] => (py.Ok [], [])
  | t :: rest =>
      let ev := ev_match_one (TemplateState.id t) frame_bgr frame_gray frame_small in
      match (_match_one self t frame_bgr frame_gray frame_small).1 with
      | py.Raise e => (py.Raise e, [ev])
      | py.Ok r =>
          let '(rs, evs) :=
            match_sequential self frame_bgr frame_gray frame_small rest in
          (r' ← rs; mret (r :: r'), ev :: evs)
      end
  end.

(** [[f.result() for f in futures]]: the first future that raised ends the
    comprehension with its exception. *)
Fixpoint read_futures {A} (futures : list (py.result A)) : py.result (list A) :=
  match futures with
  | [] => py.Ok []
  | f :: rest => r ← f; rs ← read_futures rest; mret (r :: rs)
  end.

(** The executor branch: every template is submitted, then the futures are
    read in order. *)
Definition match_submitted (self : MultiTemplateTrackerCV)
    (frame_bgr : ndarray) (frame_gray frame_small : option ndarray)
    (ts : list TemplateState.t) : py.result (list MatchResult.t) * list event :=
  let futures :=
    (fun t => (_match_one self t frame_bgr frame_gray frame_small).1) <$> ts in
  (read_futures futures,
   (fun t => ev_match_one (TemplateState.id t) frame_bgr frame_gray frame_small)
     <$> ts).

Definition set_last (t : TemplateState.t) (last_pos : option (Z * Z))
    (found : bool) : TemplateState.t :=
  TemplateState.mk (TemplateState.id t) (TemplateState.path t)
    (TemplateState.tpl t) (TemplateState.tpl_gray t) (TemplateState.tpl_small t)
    (TemplateState.w t) (TemplateState.h t)
    (TemplateState.w_small t) (TemplateState.h_small t) last_pos found.

(** The body of the [for r in results] loop: the state of [templates[r.id]]
    after it. *)
Definition update_state (t : TemplateState.t) (r : MatchResult.t)
  : TemplateState.t :=
  if MatchResult.found r
  then set_last t (Some (MatchResult.x r, MatchResult.y r)) true
  else set_last t None false.

(** The [for r in results] loop.  [self.templates[r.id]] raises [IndexError]
    out of range; the templates updated before that stay updated. *)
Fixpoint update_states (ts : list TemplateState.t) (results : list MatchResult.t)
  : list TemplateState.t * option py.exn :=
  match results with
  | [] => (ts, None)
  | r :: rest =>
      match ts !! MatchResult.id r with
      | None => (ts, Some py.IndexError)
      | Some t =>
          update_states (<[MatchResult.id r := update_state t r]> ts) rest
      end
  end.

Definition set_cycle (self : MultiTemplateTrackerCV) (sct' : nat)
    (ts : list TemplateState.t) (frame : ndarray) : MultiTemplateTrackerCV :=
  mkTracker (confidence self) (search_margin self) (method self)
            (use_grayscale self) (downscale_factor self) (use_pyramid self)
            (skip_full_scan self) sct'
            (screen_w self) (screen_h self)
            (screen_w_small self) (screen_h_small self)
            ts (executor self) (max_workers self) (Some frame).

(** The frames of a cycle: the grabbed one, its grayscale conversion and its
    downscaled copy. *)
Definition cycle_frames (self : MultiTemplateTrackerCV)
  : ndarray * option ndarray * option ndarray * nat * list event :=
  let '(frame_bgr, sct', ev_cap) := _grab_frame_bgr self in
  let '(frame_gray, ev_gray) :=
    if use_grayscale self
    then (Some (cvtColor frame_bgr COLOR_BGR2GRAY),
          [ev_cvtColor frame_bgr COLOR_BGR2GRAY])
    else (None, []) in
  let dsize := (screen_w_small self, screen_h_small self) in
  let '(frame_small, ev_small) :=
    if use_pyramid self then
      match frame_gray with
      | Some g => (Some (resize g dsize INTER_NEAREST), [ev_resize g dsize])
      | None =>
          (Some (resize frame_bgr dsize INTER_NEAREST),
           [ev_resize frame_bgr dsize])
      end
    else (None, []) in
  (frame_bgr, frame_gray, frame_small, sct', ev_cap ++ ev_gray ++ ev_small).

(** [find_all]: the tracker afterwards, the results or the exception, and the
    events.  A raising [_match_one] leaves the per-template state as it was. *)
Definition find_all (self : MultiTemplateTrackerCV)
  : MultiTemplateTrackerCV * py.result (list MatchResult.t) * list event :=
  let '(frame_bgr, frame_gray, frame_small, sct', ev_frames) :=
    cycle_frames self in
  let '(results, ev_match) :=
    if executor self
    then match_submitted self frame_bgr frame_gray frame_small (templates self)
    else match_sequential self frame_bgr frame_gray frame_small (templates self) in
  match results with
  | py.Raise e =>
      (set_cycle self sct' (templates self) frame_bgr, py.Raise e,
       ev_frames ++ ev_match)
  | py.Ok rs =>
      let '(ts, raised) := update_states (templates self) rs in
      (set_cycle self sct' ts frame_bgr,
       match raised with
       | Some e => py.Raise e
       | None => py.Ok rs
       end,
       ev_frames ++ ev_match)
  end.

(** The score [_best_match] returned for a call. *)
Definition call_score (self : MultiTemplateTrackerCV) (c : call) : float :=
  (_best_match (call_frame c) (call_tpl c) (method self)).1.1.

(** A call that ends the search: a full-resolution match (the coarse match
    only gates the refinement) whose score reaches the confidence. *)
Definition wins (self : MultiTemplateTrackerCV) (c : call) : Prop :=
  call_site c ≠ Coarse /\ (confidence self <=? call_score self c)%float = true.

(** What a tier hands back: a found result produced by its last call, the
    only winning one; or nothing, no call having won. *)
Definition tier_outcome (self : MultiTemplateTrackerCV)
    (o : option MatchResult.t) (log : list call) : Prop :=
  match o with
  | Some r =>
      MatchResult.found r = true /\
      exists pre c, log = pre ++ [c] /\ wins self c /\
        MatchResult.method r = tier_tag (call_site c) /\
        Forall (fun c' => ¬ wins self c') pre
  | None => Forall (fun c' => ¬ wins self c') log
  end.

(** The template ids are the list positions, as [enumerate] assigns them. *)
Definition ids_ok (ts : list TemplateState.t) : Prop :=
  forall i t, ts !! i = Some t -> TemplateState.id t = i.

End tracker.

#[global] Instance site_eq_dec : EqDecision site.
Proof. solve_decision. Defined.

(** *** A small screen for examples

    A 6x4 one-channel screen; templates are single pixels, read from files
    named after the pixel value; matching is exact: score 1 at the first
    position (row by row) showing the template pixel, score 0 at (0, 0) when
    there is none.  [resize] samples nearest neighbours. *)
Module screen6x4.

Definition blank : ndarray := replicate 4 (replicate 6 [0]).

(** The screen with pixel value [v] at column [x], row [y]. *)
Definition dot (v x y : Z) : ndarray :=
  <[Z.to_nat y := <[Z.to_nat x := [v]]> (replicate 6 [0])]> blank.

Definition pixel_at (a : ndarray) (x y : Z) : list Z :=
  default [] (row ← a !! Z.to_nat y; row !! Z.to_nat x).

Definition nearest (a : ndarray) (dsize : Z * Z) : ndarray :=
  let '(w, h) := dsize in
  (fun y => (fun x => pixel_at a (Z.of_nat x * shape1 a / w)
                                 (Z.of_nat y * shape0 a / h))
              <$> seq 0 (Z.to_nat w))
    <$> seq 0 (Z.to_nat h).

Fixpoint find_in_row (p : list Z) (row : list (list Z)) (x : Z) : option Z :=
  match row with
  | [] => None
  | q :: rest => if decide (p = q) then Some x else find_in_row p rest (x + 1)
  end.

Fixpoint find_pixel (p : list Z) (a : ndarray) (y : Z) : option (Z * Z) :=
  match a with
  | [] => None
  | row :: rest =>
      match find_in_row p row 0 with
      | Some x => Some (x, y)
      | None => find_pixel p rest (y + 1)
      end
  end.

Definition exact_match (frame tpl : ndarray) (m : tm_method)
  : float * float * (Z * Z) * (Z * Z) :=
  match find_pixel (pixel_at tpl 0 0) frame 0 with
  | Some loc => (0.0%float, 1.0%float, (0, 0), loc)
  | None => (0.0%float, 0.0%float, (0, 0), (0, 0))
  end.

(** The screen shows pixel 7 at (4, 2), then at (5, 2), then nothing. *)
Definition shows (n : nat) : ndarray :=
  match n with
  | O => dot 7 4 2
  | S O => dot 7 5 2
  | _ => blank
  end.

Definition vision : Vision := {|
  imread path :=
    if decide (path = "slime.png") then Some [[[7]]]
    else if decide (path = "bat.png") then Some [[[9]]]
    else None;
  cvtColor a _ := a;
  resize a dsize _ := nearest a dsize;
  matchTemplate_minMaxLoc := exact_match;
  monitor := (6, 4);
  sct_grab := shows
|}.

(** A tracker on one template, pyramid enabled, no thread pool. *)
Definition tracker0 : py.result MultiTemplateTrackerCV :=
  __init__ (H := vision) ["slime.png"] 0.85 1 0 TM_CCOEFF_NORMED true 0.5 true.

(** The tracker after [n] cycles on this screen. *)
Definition after (n : nat) : MultiTemplateTrackerCV :=
  let idle := mkTracker 0 0 TM_CCOEFF_NORMED false 0 false false 0
                        0 0 0 0 [] false 0 None in
  Nat.iter n (fun self => (find_all (H := vision) self).1.1)
           (match tracker0 with py.Ok self => self | py.Raise _ => idle end).

End screen6x4.

Section tracker_facts.
Context `{Vision}.

(** *** The tiers of [_match_one] *)

Ltac sublist_tac :=
  cbn [fmap list_fmap call_site app];
  repeat first [apply sublist_nil | apply sublist_skip | apply sublist_cons].

Lemma tier_roi_outcome self t frame tpl o log :
  tier_roi self t frame tpl = (o, log) ->
  tier_outcome self o log /\
  sublist (call_site <$> log) [ROI] /\
  (log ≠ [] -> TemplateState.last_pos t ≠ None).
Proof.
  unfold tier_roi. destruct (TemplateState.last_pos t) as [[lx ly]|].
  2: { intros [= <- <-]. split; [apply Forall_nil_2|split; [sublist_tac|done]]. }
  destruct (_ && _).
  2: { intros [= <- <-]. split; [apply Forall_nil_2|split; [sublist_tac|done]]. }
  destruct (_best_match _ _ _) as [[score x] y] eqn:Eb.
  destruct (confidence self <=? score)%float eqn:Es; intros [= <- <-].
  - split; [|split; [sublist_tac|done]].
    split; [done|]. eexists [], _. repeat split; try done.
    unfold call_score. cbn. by rewrite Eb.
  - split; [|split; [sublist_tac|done]].
    constructor; [|constructor]. intros [_ Hw]. unfold call_score in Hw.
    cbn in Hw. rewrite Eb in Hw. cbn in Hw. congruence.
Qed.

Lemma tier_full_outcome self t frame tpl o log :
  tier_full self t frame tpl = (o, log) ->
  tier_outcome self o log /\
  sublist (call_site <$> log) [Full] /\
  (log ≠ [] -> skip_full_scan self = false).
Proof.
  unfold tier_full. destruct (skip_full_scan self); cbn [negb].
  { intros [= <- <-]. split; [apply Forall_nil_2|split; [sublist_tac|done]]. }
  destruct (_ && _).
  2: { intros [= <- <-]. split; [apply Forall_nil_2|split; [sublist_tac|done]]. }
  destruct (_best_match _ _ _) as [[score x] y] eqn:Eb.
  destruct (confidence self <=? score)%float eqn:Es; intros [= <- <-].
  - split; [|split; [sublist_tac|done]].
    split; [done|]. eexists [], _. repeat split; try done.
    unfold call_score. cbn. by rewrite Eb.
  - split; [|split; [sublist_tac|done]].
    constructor; [|constructor]. intros [_ Hw]. unfold call_score in Hw.
    cbn in Hw. rewrite Eb in Hw. cbn in Hw. congruence.
Qed.

Lemma tier_pyramid_outcome self t frame tpl frame_small res log :
  tier_pyramid self t frame tpl frame_small = (res, log) ->
  match res with
  | py.Ok o => tier_outcome self o log
  | py.Raise _ => Forall (fun c' => ¬ wins self c') log
  end /\
  sublist (call_site <$> log) [Coarse; Refine] /\
  (log ≠ [] -> use_pyramid self = true).
Proof.
  assert (forall c, call_site c = Coarse -> ¬ wins self c) as Hcoarse.
  { intros c Hc [Hne _]. done. }
  unfold tier_pyramid.
  destruct (use_pyramid self), frame_small as [small|];
    try (intros [= <- <-]; split; [apply Forall_nil_2|split; [sublist_tac|done]]).
  destruct (_ && _);
    [|intros [= <- <-]; split; [apply Forall_nil_2|split; [sublist_tac|done]]].
  destruct (_best_match small _ _) as [[score_small x_small] y_small].
  destruct (confidence self * 0.9 <=? score_small)%float.
  2: { intros [= <- <-]. split; [|split; [sublist_tac|done]].
       constructor; [by apply Hcoarse|constructor]. }
  destruct (pyramid_rescale self x_small y_small) as [[[x_full y_full] m]|e].
  2: { intros [= <- <-]. split; [|split; [sublist_tac|done]].
       constructor; [by apply Hcoarse|constructor]. }
  destruct (_ && _).
  2: { intros [= <- <-]. split; [|split; [sublist_tac|done]].
       constructor; [by apply Hcoarse|constructor]. }
  destruct (_best_match _ tpl _) as [[score x] y] eqn:Eb.
  destruct (confidence self <=? score)%float eqn:Es; intros [= <- <-].
  - split; [|split; [sublist_tac|done]].
    split; [done|]. eexists [_], _. repeat split; try done.
    + unfold call_score. cbn. by rewrite Eb.
    + constructor; [by apply Hcoarse|constructor].
  - split; [|split; [sublist_tac|done]].
    constructor; [by apply Hcoarse|]. constructor; [|constructor].
    intros [_ Hw]. unfold call_score in Hw.
    cbn in Hw. rewrite Eb in Hw. cbn in Hw. congruence.
Qed.

(** The tag of a result tells the tier that returned it. *)
Lemma tier_roi_tag self t frame tpl r log :
  tier_roi self t frame tpl = (Some r, log) ->
  MatchResult.method r = "Heuristic" /\
  MatchResult.id r = TemplateState.id t.
Proof.
  unfold tier_roi. destruct (TemplateState.last_pos t) as [[lx ly]|]; [|done].
  destruct (_ && _); [|done].
  destruct (_best_match _ _ _) as [[score x] y].
  destruct (confidence self <=? score)%float; [|done]. by intros [= <- <-].
Qed.

Lemma tier_full_tag self t frame tpl r log :
  tier_full self t frame tpl = (Some r, log) ->
  MatchResult.method r = "Full Scan" /\
  MatchResult.id r = TemplateState.id t.
Proof.
  unfold tier_full. destruct (negb _); [|done]. destruct (_ && _); [|done].
  destruct (_best_match _ _ _) as [[score x] y].
  destruct (confidence self <=? score)%float; [|done]. by intros [= <- <-].
Qed.

Lemma tier_outcome_app self pre o log :
  Forall (fun c' => ¬ wins self c') pre ->
  tier_outcome self o log -> tier_outcome self o (pre ++ log).
Proof.
  intros Hpre. destruct o as [r|]; cbn.
  - intros (Hf & p & c & -> & Hw & Hm & Hp). split; [done|].
    exists (pre ++ p), c. rewrite app_assoc.
    split; [done|]. split; [done|]. split; [done|]. by apply Forall_app.
  - intros Hlog. by apply Forall_app.
Qed.

(** *** The search as a walk over attempts

    The claim's reading of [_match_one], written independently of
    [tier_roi], [tier_pyramid] and [tier_full] to be compared with it: the
    tiers contribute, in order, the matches they would try, and the list is
    walked until a match clears the confidence. *)

(** One step of the walk: a [_best_match] call on a window, with the origin
    of the window in the frame; or the exception that the pyramid's rescaling
    raises before its refinement. *)
Inductive attempt :=
| try_match (c : call) (origin : Z * Z)
| try_raise (e : py.exn).

Definition attempt_call (a : attempt) : option call :=
  match a with
  | try_match c _ => Some c
  | try_raise _ => None
  end.

(** The window of [margin] pixels around (x, y) plus the template, cut to
    the screen: origin and size. *)
Definition window (self : MultiTemplateTrackerCV) (t : TemplateState.t)
    (x y margin : Z) : Z * Z * Z * Z :=
  let roi_x := Z.max 0 (x - margin) in
  let roi_y := Z.max 0 (y - margin) in
  (roi_x, roi_y,
   Z.min (TemplateState.w t + margin * 2) (screen_w self - roi_x),
   Z.min (TemplateState.h t + margin * 2) (screen_h self - roi_y)).

(** A match in that window, when the template fits in it. *)
Definition window_attempt (s : site) (self : MultiTemplateTrackerCV)
    (t : TemplateState.t) (frame tpl : ndarray) (x y margin : Z)
  : list attempt :=
  let '(roi_x, roi_y, roi_w, roi_h) := window self t x y margin in
  if (TemplateState.w t <=? roi_w) && (TemplateState.h t <=? roi_h)
  then [try_match
          (mkCall s (slice2 frame roi_y (roi_y + roi_h) roi_x (roi_x + roi_w))
                  tpl)
          (roi_x, roi_y)]
  else [].

(** Heuristic ROI: only when [last_pos] is set. *)
Definition heuristic_attempts (self : MultiTemplateTrackerCV)
    (t : TemplateState.t) (frame tpl : ndarray) : list attempt :=
  match TemplateState.last_pos t with
  | Some (lx, ly) => window_attempt ROI self t frame tpl lx ly (search_margin self)
  | None => []
  end.

(** Pyramid, coarse to fine: only when enabled.  The coarse match on the
    downscaled frame comes first; when its score reaches nine tenths of the
    confidence, the refinement around the rescaled location follows. *)
Definition pyramid_attempts (self : MultiTemplateTrackerCV)
    (t : TemplateState.t) (frame tpl : ndarray) (frame_small : option ndarray)
  : list attempt :=
  match frame_small with
  | Some small =>
      if use_pyramid self
         && (TemplateState.w_small t <=? shape1 small)
         && (TemplateState.h_small t <=? shape0 small)
      then
        let '(score_small, x_small, y_small) :=
          _best_match small (TemplateState.tpl_small t) (method self) in
        try_match (mkCall Coarse small (TemplateState.tpl_small t)) (0, 0)
        :: (if (confidence self * 0.9 <=? score_small)%float
            then match pyramid_rescale self x_small y_small with
                 | py.Raise e => [try_raise e]
                 | py.Ok (x_full, y_full, refine_margin) =>
                     window_attempt Refine self t frame tpl
                                    x_full y_full refine_margin
                 end
            else [])
      else []
  | None => []
  end.

(** Full scan: only when enabled. *)
Definition full_scan_attempts (self : MultiTemplateTrackerCV)
    (t : TemplateState.t) (frame tpl : ndarray) : list attempt :=
  if negb (skip_full_scan self)
     && (TemplateState.w t <=? shape1 frame)
     && (TemplateState.h t <=? shape0 frame)
  then [try_match (mkCall Full frame tpl) (0, 0)]
  else [].

(** The tiers, strictly in order. *)
Definition attempts (self : MultiTemplateTrackerCV) (t : TemplateState.t)
    (frame tpl : ndarray) (frame_small : option ndarray) : list attempt :=
  heuristic_attempts self t frame tpl
  ++ pyramid_attempts self t frame tpl frame_small
  ++ full_scan_attempts self t frame tpl.

(** The walk: the first match at full resolution whose score reaches the
    confidence returns at once, found, located in the frame and tagged with
    its tier; the matches after it are not made.  When the list runs out the
    result is "Not Found".  The second component lists the matches made. *)
Fixpoint first_success (self : MultiTemplateTrackerCV) (t : TemplateState.t)
    (l : list attempt) : py.result MatchResult.t * list call :=
  match l with
  | [] => (py.Ok (not_found t), [])
  | try_raise e :: _ => (py.Raise e, [])
  | try_match c (ox, oy) :: rest =>
      let '(score, x, y) :=
        _best_match (call_frame c) (call_tpl c) (method self) in
      if match call_site c with
         | Coarse => false
         | _ => (confidence self <=? score)%float
         end
      then (py.Ok (MatchResult.mk (TemplateState.id t) true (ox + x) (oy + y)
                     (TemplateState.w t) (TemplateState.h t) score
                     (tier_tag (call_site c))),
            [c])
      else
        let '(res, log) := first_success self t rest in
        (res, c :: log)
  end.

Lemma heuristic_attempts_tier self t frame tpl rest :
  first_success self t (heuristic_attempts self t frame tpl ++ rest) =
  match tier_roi self t frame tpl with
  | (Some r, log1) => (py.Ok r, log1)
  | (None, log1) =>
      let '(res, log) := first_success self t rest in (res, log1 ++ log)
  end.
Proof.
  unfold heuristic_attempts, tier_roi, window_attempt, window.
  destruct (TemplateState.last_pos t) as [[lx ly]|]; cbn [app].
  2: by destruct (first_success self t rest).
  rewrite !(Z.add_comm (search_margin self * 2)).
  destruct (_ && _); cbn [app].
  2: by destruct (first_success self t rest).
  cbn [first_success call_frame call_tpl call_site tier_tag].
  destruct (_best_match _ _ _) as [[score x] y].
  destruct (confidence self <=? score)%float; [done|].
  by destruct (first_success self t rest).
Qed.

Lemma pyramid_attempts_tier self t frame tpl frame_small rest :
  first_success self t (pyramid_attempts self t frame tpl frame_small ++ rest) =
  match tier_pyramid self t frame tpl frame_small with
  | (py.Raise e, log2) => (py.Raise e, log2)
  | (py.Ok (Some r), log2) => (py.Ok r, log2)
  | (py.Ok None, log2) =>
      let '(res, log) := first_success self t rest in (res, log2 ++ log)
  end.
Proof.
  unfold pyramid_attempts, tier_pyramid, window_attempt, window.
  destruct frame_small as [small|], (use_pyramid self); cbn [andb app];
    try by destruct (first_success self t rest).
  destruct (_ && _); cbn [app].
  2: by destruct (first_success self t rest).
  destruct (_best_match small _ _) as [[score_small x_small] y_small] eqn:Es.
  cbn [first_success call_frame call_tpl call_site app]. rewrite Es.
  destruct (confidence self * 0.9 <=? score_small)%float; cbn [app].
  2: by destruct (first_success self t rest).
  destruct (pyramid_rescale self x_small y_small) as [[[x_full y_full] m]|e];
    cbn [app first_success]; [|done].
  destruct (_ && _); cbn [app].
  2: by destruct (first_success self t rest).
  cbn [first_success call_frame call_tpl call_site tier_tag].
  destruct (_best_match _ tpl _) as [[score x] y].
  destruct (confidence self <=? score)%float; [done|].
  by destruct (first_success self t rest).
Qed.

Lemma full_scan_attempts_tier self t frame tpl :
  first_success self t (full_scan_attempts self t frame tpl) =
  match tier_full self t frame tpl with
  | (Some r, log3) => (py.Ok r, log3)
  | (None, log3) => (py.Ok (not_found t), log3)
  end.
Proof.
  unfold full_scan_attempts, tier_full.
  destruct (negb _); cbn [andb]; [|done].
  destruct (_ && _); [|done].
  cbn [first_success call_frame call_tpl call_site tier_tag].
  destruct (_best_match _ _ _) as [[score x] y].
  by destruct (confidence self <=? score)%float.
Qed.

(** A walk that ends "not found" has made every match of the list. *)
Lemma first_success_exhausts self t l r log :
  first_success self t l = (py.Ok r, log) -> MatchResult.found r = false ->
  log = omap attempt_call l.
Proof.
  revert log. induction l as [|[c [ox oy]|e] l IH]; intros log.
  - by intros [= <- <-].
  - change (omap attempt_call (try_match c (ox, oy) :: l))
      with (c :: omap attempt_call l).
    cbn [first_success].
    destruct (_best_match _ _ _) as [[score x] y].
    destruct (match call_site c with Coarse => false | _ => _ end).
    + by intros [= <- <-].
    + destruct (first_success self t l) as [res log']. intros [= -> <-] Hf.
      f_equal. by apply IH.
  - done.
Qed.

(** The calls of [_match_one], in tier order and behind their guards; the
    result comes from the last call, the first that reached the confidence. *)
Lemma match_one_calls_in_order
  (self : MultiTemplateTrackerCV) (t : TemplateState.t)
  (frame_bgr : ndarray) (frame_gray frame_small : option ndarray) :
  let log := (_match_one self t frame_bgr frame_gray frame_small).2 in
  let sites := call_site <$> log in
  sublist sites [ROI; Coarse; Refine; Full]
  /\ (ROI ∈ sites -> TemplateState.last_pos t ≠ None)
  /\ (Coarse ∈ sites \/ Refine ∈ sites -> use_pyramid self = true)
  /\ (Full ∈ sites -> skip_full_scan self = false)
  /\ match (_match_one self t frame_bgr frame_gray frame_small).1 with
     | py.Ok r =>
         if MatchResult.found r
         then exists pre c,
                log = pre ++ [c] /\ wins self c /\
                MatchResult.method r = tier_tag (call_site c) /\
                Forall (fun c' => ¬ wins self c') pre
         else MatchResult.method r = "Not Found" /\
              Forall (fun c' => ¬ wins self c') log
     | py.Raise _ => Forall (fun c' => ¬ wins self c') log
     end.
Proof.
  unfold _match_one.
  destruct (if use_grayscale self then _ else _) as [[frame|] tpl].
  2: { cbn. split; [sublist_tac|]. split; [by intros ?%elem_of_nil|].
       split; [by intros [?%elem_of_nil|?%elem_of_nil]|].
       split; [by intros ?%elem_of_nil|constructor]. }
  destruct (tier_roi self t frame tpl) as [o1 log1] eqn:E1.
  destruct (tier_roi_outcome _ _ _ _ _ _ E1) as (O1 & S1 & L1).
  destruct (tier_pyramid self t frame tpl frame_small) as [res2 log2] eqn:E2.
  destruct (tier_pyramid_outcome _ _ _ _ _ _ _ E2) as (O2 & S2 & L2).
  destruct (tier_full self t frame tpl) as [o3 log3] eqn:E3.
  destruct (tier_full_outcome _ _ _ _ _ _ E3) as (O3 & S3 & L3).
  assert (forall s l, s ∈ call_site <$> l -> l ≠ []) as Hne.
  { intros s l Hs ->. by apply elem_of_nil in Hs. }
  assert (forall s (l : list call) k, s ∈ call_site <$> l ->
            sublist (call_site <$> l) k -> s ∈ k) as Hsub.
  { intros s l k Hs Hk. by eapply elem_of_sublist. }
  assert (sublist (call_site <$> (log1 ++ log2 ++ log3))
                  ([ROI] ++ [Coarse; Refine] ++ [Full])) as S123.
  { rewrite !fmap_app. by repeat apply sublist_app. }
  assert (sublist (call_site <$> (log1 ++ log2))
                  ([ROI] ++ [Coarse; Refine] ++ [Full])) as S12.
  { rewrite !fmap_app. apply sublist_app; [done|].
    rewrite <- (app_nil_r (call_site <$> log2)).
    apply sublist_app; [done|sublist_tac]. }
  assert (sublist (call_site <$> log1)
                  ([ROI] ++ [Coarse; Refine] ++ [Full])) as S1'.
  { rewrite <- (app_nil_r (call_site <$> log1)).
    apply sublist_app; [done|sublist_tac]. }
  assert (forall l2 l3,
            sublist (call_site <$> l2) [Coarse; Refine] ->
            sublist (call_site <$> l3) [Full] ->
            (l2 ≠ [] -> use_pyramid self = true) ->
            (l3 ≠ [] -> skip_full_scan self = false) ->
            (ROI ∈ call_site <$> (log1 ++ l2 ++ l3) ->
             TemplateState.last_pos t ≠ None)
            /\ (Coarse ∈ call_site <$> (log1 ++ l2 ++ l3) \/
                Refine ∈ call_site <$> (log1 ++ l2 ++ l3) ->
                use_pyramid self = true)
            /\ (Full ∈ call_site <$> (log1 ++ l2 ++ l3) ->
                skip_full_scan self = false)) as Hguards.
  { intros l2 l3 Hs2 Hs3 Hl2 Hl3. rewrite !fmap_app.
    split; [|split].
    - intros [Hin|[Hin|Hin]%elem_of_app]%elem_of_app.
      + by eapply L1, Hne.
      + apply (Hsub _ _ _ Hin) in Hs2. set_solver.
      + apply (Hsub _ _ _ Hin) in Hs3. set_solver.
    - intros [[Hin|[Hin|Hin]%elem_of_app]%elem_of_app
             |[Hin|[Hin|Hin]%elem_of_app]%elem_of_app].
      + apply (Hsub _ _ _ Hin) in S1. set_solver.
      + by eapply Hl2, Hne.
      + apply (Hsub _ _ _ Hin) in Hs3. set_solver.
      + apply (Hsub _ _ _ Hin) in S1. set_solver.
      + by eapply Hl2, Hne.
      + apply (Hsub _ _ _ Hin) in Hs3. set_solver.
    - intros [Hin|[Hin|Hin]%elem_of_app]%elem_of_app.
      + apply (Hsub _ _ _ Hin) in S1. set_solver.
      + apply (Hsub _ _ _ Hin) in Hs2. set_solver.
      + by eapply Hl3, Hne. }
  assert (sublist (@nil site) [Coarse; Refine]) as Snil2 by sublist_tac.
  assert (sublist (@nil site) [Full]) as Snil3 by sublist_tac.
  destruct o1 as [r1|]; cbn [fst snd].
  { split; [done|].
    destruct (Hguards [] []) as (G1 & G2 & G3); try done.
    rewrite !app_nil_r in *. split; [done|]. split; [done|]. split; [done|].
    destruct O1 as [-> O1]. done. }
  destruct res2 as [[r2|]|e2]; cbn [fst snd].
  - split; [done|].
    destruct (Hguards log2 []) as (G1 & G2 & G3); try done.
    rewrite !app_nil_r in *. split; [done|]. split; [done|]. split; [done|].
    destruct (tier_outcome_app self log1 _ _ O1 O2) as [-> O12]. done.
  - destruct o3 as [r3|]; cbn [fst snd].
    + split; [done|].
      destruct (Hguards log2 log3) as (G1 & G2 & G3); try done.
      split; [done|]. split; [done|]. split; [done|].
      cbn in O1, O2.
      pose proof (tier_outcome_app self (log1 ++ log2) _ _
                    (proj2 (Forall_app _ _ _) (conj O1 O2)) O3) as [-> O123].
      by rewrite <- app_assoc in O123.
    + split; [done|].
      destruct (Hguards log2 log3) as (G1 & G2 & G3); try done.
      split; [done|]. split; [done|]. split; [done|].
      cbn [not_found MatchResult.found MatchResult.method]. split; [done|].
      cbn in O1, O2, O3. by rewrite !Forall_app.
  - split; [done|].
    destruct (Hguards log2 []) as (G1 & G2 & G3); try done.
    rewrite !app_nil_r in *. split; [done|]. split; [done|]. split; [done|].
    cbn in O1. by rewrite Forall_app.
Qed.

(** [_match_one] is the walk over the attempts of the three tiers. *)
Lemma match_one_walk self t frame_bgr frame_gray frame_small frame tpl :
  (if use_grayscale self
   then (frame_gray, TemplateState.tpl_gray t)
   else (Some frame_bgr, TemplateState.tpl t)) = (Some frame, tpl) ->
  _match_one self t frame_bgr frame_gray frame_small
  = first_success self t (attempts self t frame tpl frame_small).
Proof.
  intros Hp. unfold _match_one, attempts. rewrite Hp.
  rewrite heuristic_attempts_tier.
  destruct (tier_roi self t frame tpl) as [[r1|] log1]; [done|].
  rewrite pyramid_attempts_tier.
  destruct (tier_pyramid self t frame tpl frame_small) as [[[r2|]|e2] log2];
    [done| |done].
  rewrite full_scan_attempts_tier.
  by destruct (tier_full self t frame tpl) as [[r3|] log3].
Qed.

(** C1. [_match_one] makes its [_best_match] calls in tier order, each
    call site at most once: ROI, then coarse and refinement of the pyramid,
    then the full frame.  The ROI is only searched when [last_pos] is set, the
    pyramid only when it is enabled, the full frame only when the full scan is
    not skipped.  A found result comes from the last call made, that call
    reached the confidence and no earlier one did, and the result carries the
    tag of that call's tier: nothing is matched after the first success.  A
    result that is not found is tagged "Not Found", no call having reached the
    confidence.

    And the tiers are tried: on the frame picked by [use_grayscale],
    [_match_one] returns exactly what the walk over the tiers' attempts
    returns ([first_success] on [attempts]: heuristic window when [last_pos]
    is set and the template fits in it, then coarse match and refinement when
    the pyramid is enabled, then the full frame when the full scan is not
    skipped), result and calls made; so a "Not Found" result has made every
    one of these matches.  Without a frame it raises AssertionError and
    matches nothing. *)
Theorem tiers_in_order_first_success_returns
  (self : MultiTemplateTrackerCV) (t : TemplateState.t)
  (frame_bgr : ndarray) (frame_gray frame_small : option ndarray) :
  let log := (_match_one self t frame_bgr frame_gray frame_small).2 in
  let sites := call_site <$> log in
  sublist sites [ROI; Coarse; Refine; Full]
  /\ (ROI ∈ sites -> TemplateState.last_pos t ≠ None)
  /\ (Coarse ∈ sites \/ Refine ∈ sites -> use_pyramid self = true)
  /\ (Full ∈ sites -> skip_full_scan self = false)
  /\ match (_match_one self t frame_bgr frame_gray frame_small).1 with
     | py.Ok r =>
         if MatchResult.found r
         then exists pre c,
                log = pre ++ [c] /\ wins self c /\
                MatchResult.method r = tier_tag (call_site c) /\
                Forall (fun c' => ¬ wins self c') pre
         else MatchResult.method r = "Not Found" /\
              Forall (fun c' => ¬ wins self c') log
     | py.Raise _ => Forall (fun c' => ¬ wins self c') log
     end
  /\ (let tpl := if use_grayscale self
                 then TemplateState.tpl_gray t else TemplateState.tpl t in
      match (if use_grayscale self then frame_gray else Some frame_bgr) with
      | Some frame =>
          _match_one self t frame_bgr frame_gray frame_small
          = first_success self t (attempts self t frame tpl frame_small)
          /\ (forall r,
                (_match_one self t frame_bgr frame_gray frame_small).1
                = py.Ok r ->
                MatchResult.found r = false ->
                log = omap attempt_call (attempts self t frame tpl frame_small))
      | None =>
          _match_one self t frame_bgr frame_gray frame_small
          = (py.Raise py.AssertionError, [])
      end).
Proof.
  intros log sites.
  destruct (match_one_calls_in_order self t frame_bgr frame_gray frame_small)
    as (Hsub & Hroi & Hpyr & Hfull & Hres).
  split; [exact Hsub|]. split; [exact Hroi|]. split; [exact Hpyr|].
  split; [exact Hfull|]. split; [exact Hres|].
  intros tpl.
  destruct (if use_grayscale self then frame_gray else Some frame_bgr)
    as [frame|] eqn:Ef.
  - assert ((if use_grayscale self
             then (frame_gray, TemplateState.tpl_gray t)
             else (Some frame_bgr, TemplateState.tpl t)) = (Some frame, tpl))
      as Hp.
    { subst tpl. destruct (use_grayscale self); congruence. }
    pose proof (match_one_walk self t frame_bgr frame_gray frame_small _ _ Hp)
      as Hwalk.
    split; [exact Hwalk|]. intros r Hr Hnf. subst log. rewrite Hwalk in Hr |- *.
    destruct (first_success self t _) as [res log'] eqn:Ew.
    cbn [fst snd] in *. subst res.
    by apply (first_success_exhausts _ _ _ _ _ Ew).
  - unfold _match_one. destruct (use_grayscale self); [|done]. by subst.
Qed.

(** *** The pyramid tier *)

(** When the pyramid tier hands back a result. *)
Lemma tier_pyramid_accepts self t frame tpl frame_small r :
  (tier_pyramid self t frame tpl frame_small).1 = py.Ok (Some r)
  <->
  exists small,
    use_pyramid self = true /\ frame_small = Some small /\
    (TemplateState.w_small t <=? shape1 small)
      && (TemplateState.h_small t <=? shape0 small) = true /\
    exists score_small x_small y_small x_full y_full refine_margin score x y,
      _best_match small (TemplateState.tpl_small t) (method self)
        = (score_small, x_small, y_small) /\
      (confidence self * 0.9 <=? score_small)%float = true /\
      pyramid_rescale self x_small y_small
        = py.Ok (x_full, y_full, refine_margin) /\
      let w := TemplateState.w t in
      let h := TemplateState.h t in
      let roi_x := Z.max 0 (x_full - refine_margin) in
      let roi_y := Z.max 0 (y_full - refine_margin) in
      let roi_w := Z.min (w + refine_margin * 2) (screen_w self - roi_x) in
      let roi_h := Z.min (h + refine_margin * 2) (screen_h self - roi_y) in
      (w <=? roi_w) && (h <=? roi_h) = true /\
      _best_match (slice2 frame roi_y (roi_y + roi_h) roi_x (roi_x + roi_w))
                  tpl (method self) = (score, x, y) /\
      (confidence self <=? score)%float = true /\
      r = MatchResult.mk (TemplateState.id t) true (roi_x + x) (roi_y + y)
                         w h score "Pyramid".
Proof.
  unfold tier_pyramid. split.
  - destruct (use_pyramid self), frame_small as [small|]; try done.
    destruct (_ && _) eqn:Eg; [|done].
    destruct (_best_match small _ _) as [[score_small x_small] y_small] eqn:Ec.
    destruct (confidence self * 0.9 <=? score_small)%float eqn:Es; [|done].
    destruct (pyramid_rescale self x_small y_small)
      as [[[x_full y_full] m]|e] eqn:Er; [|done].
    cbn beta iota zeta.
    match goal with
    | |- context [if ?b then _ else _] => destruct b eqn:Eg2; [|done]
    end.
    destruct (_best_match _ tpl _) as [[score x] y] eqn:Eb.
    destruct (confidence self <=? score)%float eqn:Es2; cbn [fst]; [|done].
    intros [= <-]. exists small. split; [done|]. split; [done|]. split; [done|].
    exists score_small, x_small, y_small, x_full, y_full, m, score, x, y.
    cbn zeta. by rewrite Eg2, Eb.
  - intros (small & -> & -> & -> & score_small & x_small & y_small & x_full
            & y_full & m & score & x & y & -> & -> & -> & Hrest).
    cbn zeta in Hrest. destruct Hrest as (-> & -> & -> & ->). done.
Qed.


(** *** One cycle of [find_all] *)

Lemma match_one_id self t frame_bgr frame_gray frame_small r :
  (_match_one self t frame_bgr frame_gray frame_small).1 = py.Ok r ->
  MatchResult.id r = TemplateState.id t.
Proof.
  unfold _match_one.
  destruct (if use_grayscale self then _ else _) as [[frame|] tpl]; [|done].
  destruct (tier_roi self t frame tpl) as [[r1|] log1] eqn:E1.
  { intros [= <-]. by apply tier_roi_tag in E1 as [_ E1]. }
  pose proof (tier_pyramid_accepts self t frame tpl frame_small r) as Hacc.
  destruct (tier_pyramid self t frame tpl frame_small)
    as [[[r2|]|e2] log2]; [| |done].
  { intros [= <-].
    destruct (proj1 Hacc eq_refl) as (? & _ & _ & _ & ? & ? & ? & ? & ? & ?
                                      & ? & ? & ? & Hrest).
    cbn zeta in Hrest. by destruct Hrest as (_ & _ & _ & _ & _ & _ & ->). }
  destruct (tier_full self t frame tpl) as [[r3|] log3] eqn:E3.
  - intros [= <-]. by apply tier_full_tag in E3 as [_ E3].
  - by intros [= <-].
Qed.

(** The events of the matching step are [_match_one] calls on the frames it
    was given, one per template when nothing raised, and each result is what
    [_match_one] returns on these frames. *)
Lemma match_sequential_spec self fb fg fs ts :
  let ev t := ev_match_one (TemplateState.id t) fb fg fs in
  (exists n, (match_sequential self fb fg fs ts).2 = ev <$> take n ts) /\
  forall rs, (match_sequential self fb fg fs ts).1 = py.Ok rs ->
    (match_sequential self fb fg fs ts).2 = ev <$> ts /\
    Forall2 (fun t r => (_match_one self t fb fg fs).1 = py.Ok r) ts rs.
Proof.
  intros ev. induction ts as [|t ts [[n IHn] IH]]; cbn [match_sequential].
  { split; [by exists 0%nat|]. by intros rs [= <-]. }
  destruct (_match_one self t fb fg fs).1 as [r|e] eqn:E.
  2: { split; [by exists 1%nat; destruct ts|done]. }
  destruct (match_sequential self fb fg fs ts) as [[rs'|e] evs]; cbn in *.
  - split; [exists (S n); by rewrite IHn|].
    intros rs [= <-]. destruct (IH rs' eq_refl) as [-> HF].
    split; [done|]. by constructor.
  - split; [exists (S n); by rewrite IHn|done].
Qed.

Lemma match_submitted_spec self fb fg fs ts :
  let ev t := ev_match_one (TemplateState.id t) fb fg fs in
  (match_submitted self fb fg fs ts).2 = ev <$> ts /\
  forall rs, (match_submitted self fb fg fs ts).1 = py.Ok rs ->
    Forall2 (fun t r => (_match_one self t fb fg fs).1 = py.Ok r) ts rs.
Proof.
  intros ev. split; [done|]. unfold match_submitted. cbn [fst].
  induction ts as [|t ts IH]; intros rs; cbn.
  { intros [= <-]. constructor. }
  destruct (_match_one self t fb fg fs).1 as [r|e] eqn:E; [|done]. cbn.
  destruct (read_futures _) as [rs'|e]; [|done]. cbn.
  intros [= <-]. constructor; [done|]. by apply IH.
Qed.

(** The [for r in results] loop on results that carry the ids of the templates
    they were computed for. *)
Lemma update_states_zip seen todo rs :
  (forall i t, todo !! i = Some t -> TemplateState.id t = (length seen + i)%nat) ->
  Forall2 (fun t r => MatchResult.id r = TemplateState.id t) todo rs ->
  update_states (seen ++ todo) rs
  = (seen ++ zip_with update_state todo rs, None).
Proof.
  intros Hid HF. revert seen Hid.
  induction HF as [|t r todo rs Hr _ IH]; intros seen Hid; [done|].
  cbn [update_states zip_with].
  assert (MatchResult.id r = length seen) as ->.
  { rewrite Hr, (Hid 0%nat t eq_refl). lia. }
  rewrite list_lookup_middle by done.
  rewrite (insert_app_r_alt seen (t :: todo) (length seen)) by done.
  rewrite Nat.sub_diag. cbn [insert list_insert].
  rewrite (cons_middle _ seen), app_assoc. rewrite IH.
  - by rewrite <- app_assoc.
  - intros i t' Hi. rewrite (Hid (S i) t' Hi), length_app. cbn. lia.
Qed.

Lemma update_state_id t r :
  TemplateState.id (update_state t r) = TemplateState.id t.
Proof. unfold update_state. by destruct (MatchResult.found r). Qed.

Lemma update_state_last_pos t r :
  TemplateState.last_pos (update_state t r)
  = if MatchResult.found r
    then Some (MatchResult.x r, MatchResult.y r) else None.
Proof. unfold update_state. by destruct (MatchResult.found r). Qed.

(** Without a known position the ROI is not searched. *)
Lemma no_last_pos_no_roi self t frame_bgr frame_gray frame_small :
  TemplateState.last_pos t = None ->
  ROI ∉ call_site <$> (_match_one self t frame_bgr frame_gray frame_small).2.
Proof.
  intros Hl. unfold _match_one.
  destruct (if use_grayscale self then _ else _) as [[frame|] tpl];
    [|by intros ?%elem_of_nil].
  unfold tier_roi at 1. rewrite Hl.
  destruct (tier_pyramid self t frame tpl frame_small) as [res2 log2] eqn:E2.
  destruct (tier_pyramid_outcome _ _ _ _ _ _ _ E2) as (_ & S2 & _).
  destruct (tier_full self t frame tpl) as [o3 log3] eqn:E3.
  destruct (tier_full_outcome _ _ _ _ _ _ E3) as (_ & S3 & _).
  assert (ROI ∉ call_site <$> log2) as N2.
  { intros Hin. apply (elem_of_sublist _ _ _ Hin) in S2. set_solver. }
  assert (ROI ∉ call_site <$> log3) as N3.
  { intros Hin. apply (elem_of_sublist _ _ _ Hin) in S3. set_solver. }
  destruct res2 as [[r2|]|e2]; [| destruct o3 |]; cbn [fst snd app];
    rewrite ?fmap_app; set_solver.
Qed.

(** The frames of a cycle and the events of producing them. *)
Lemma cycle_frames_spec self :
  let frame_bgr := cvtColor (sct_grab (sct self)) COLOR_BGRA2BGR in
  let frame_gray :=
    if use_grayscale self
    then Some (cvtColor frame_bgr COLOR_BGR2GRAY) else None in
  let frame_small :=
    if use_pyramid self
    then Some (resize (default frame_bgr frame_gray)
                      (screen_w_small self, screen_h_small self) INTER_NEAREST)
    else None in
  exists evf,
    cycle_frames self = (frame_bgr, frame_gray, frame_small, S (sct self), evf) /\
    filter is_grab evf = [ev_grab (sct self)] /\
    filter is_match_one evf = [] /\
    filter is_gray evf
      = (if use_grayscale self
         then [ev_cvtColor frame_bgr COLOR_BGR2GRAY] else []) /\
    filter is_resize evf
      = (if use_pyramid self
         then [ev_resize (default frame_bgr frame_gray)
                         (screen_w_small self, screen_h_small self)]
         else []).
Proof.
  unfold cycle_frames, _grab_frame_bgr.
  destruct (use_grayscale self), (use_pyramid self); eexists; done.
Qed.

Lemma filter_match_one_events (P : event -> bool) (mk : TemplateState.t -> event)
    (ts : list TemplateState.t) (b : bool) :
  (forall t, P (mk t) = b) ->
  filter P (mk <$> ts) = if b then mk <$> ts else [].
Proof.
  intros HP. induction ts as [|t ts IH]; [by destruct b|].
  cbn [fmap list_fmap]. rewrite filter_cons, IH.
  case_decide as Hd; rewrite HP in Hd; by destruct b.
Qed.

(** The matching step of [find_all], in either mode. *)
Lemma match_all_spec self fb fg fs ts :
  let ev t := ev_match_one (TemplateState.id t) fb fg fs in
  let step :=
    if executor self
    then match_submitted self fb fg fs ts
    else match_sequential self fb fg fs ts in
  (exists n, step.2 = ev <$> take n ts) /\
  forall rs, step.1 = py.Ok rs ->
    step.2 = ev <$> ts /\
    Forall2 (fun t r => (_match_one self t fb fg fs).1 = py.Ok r) ts rs.
Proof.
  intros ev step. unfold step. destruct (executor self).
  - destruct (match_submitted_spec self fb fg fs ts) as [Hev Hrs].
    split; [exists (length ts); by rewrite firstn_all|]. by auto.
  - apply match_sequential_spec.
Qed.

Lemma find_all_unfold self :
  find_all self =
    let '(fb, fg, fs, sct', evf) := cycle_frames self in
    let step :=
      if executor self
      then match_submitted self fb fg fs (templates self)
      else match_sequential self fb fg fs (templates self) in
    (set_cycle self sct'
       match step.1 with
       | py.Ok rs => (update_states (templates self) rs).1
       | py.Raise _ => templates self
       end fb,
     match step.1 with
     | py.Ok rs =>
         match (update_states (templates self) rs).2 with
         | Some e => py.Raise e
         | None => py.Ok rs
         end
     | py.Raise e => py.Raise e
     end,
     evf ++ step.2).
Proof.
  unfold find_all. destruct (cycle_frames self) as [[[[fb fg] fs] sct'] evf].
  cbn zeta.
  destruct (if executor self then _ else _) as [[rs|e] evm]; [|done].
  cbn [fst snd]. by destruct (update_states (templates self) rs).
Qed.

(** Every result of a cycle is the result of [_match_one] for the template
    at its position. *)
Lemma find_all_results self results :
  (find_all self).1.2 = py.Ok results ->
  Forall2 (fun t r => exists fb fg fs, (_match_one self t fb fg fs).1 = py.Ok r)
          (templates self) results.
Proof.
  rewrite find_all_unfold.
  destruct (cycle_frames self) as [[[[fb fg] fs] sct'] evf]. cbn zeta.
  destruct (match_all_spec self fb fg fs (templates self)) as [_ Hall].
  set (step := if executor self then _ else _) in *. cbn [fst snd].
  destruct step.1 as [rs|e]; [|done].
  destruct (Hall rs eq_refl) as [_ HF].
  destruct (update_states (templates self) rs).2; [done|].
  intros [= <-]. eapply Forall2_impl; [exact HF|].
  intros t r Hm. by exists fb, fg, fs.
Qed.

(** C4. A [find_all] cycle grabs the screen exactly once.  Every
    [_match_one] call of the cycle is handed the same three frames: the
    grabbed one, its one grayscale conversion, and the one downscaled copy
    (made at most once per cycle, and only with the pyramid enabled).  When
    the cycle returns results, every template was matched exactly once, on
    these frames. *)
Theorem one_capture_shared_by_all_templates (self : MultiTemplateTrackerCV) :
  let log := (find_all self).2 in
  let frame_bgr := cvtColor (sct_grab (sct self)) COLOR_BGRA2BGR in
  let frame_gray :=
    if use_grayscale self
    then Some (cvtColor frame_bgr COLOR_BGR2GRAY) else None in
  let frame_small :=
    if use_pyramid self
    then Some (resize (default frame_bgr frame_gray)
                      (screen_w_small self, screen_h_small self) INTER_NEAREST)
    else None in
  let ev t := ev_match_one (TemplateState.id t) frame_bgr frame_gray frame_small in
  filter is_grab log = [ev_grab (sct self)]
  /\ sct (find_all self).1.1 = S (sct self)
  /\ (length (filter is_gray log) <= 1)%nat
  /\ (length (filter is_resize log) <= 1)%nat
  /\ (exists n, filter is_match_one log = ev <$> take n (templates self))
  /\ forall results, (find_all self).1.2 = py.Ok results ->
       filter is_match_one log = ev <$> templates self /\
       Forall2 (fun t r =>
                  (_match_one self t frame_bgr frame_gray frame_small).1
                  = py.Ok r)
               (templates self) results.
Proof.
  intros log frame_bgr frame_gray frame_small ev. subst log.
  rewrite find_all_unfold.
  destruct (cycle_frames_spec self) as (evf & -> & Hg & Hm & Hy & Hr).
  fold frame_bgr frame_gray frame_small in Hy, Hr |- *. cbn zeta.
  destruct (match_all_spec self frame_bgr frame_gray frame_small
              (templates self)) as [[n Hn] Hall].
  fold ev in Hn, Hall.
  set (step := if executor self then _ else _) in *. cbn [fst snd].
  assert (forall (P : event -> bool) (b : bool), (forall t, P (ev t) = b) ->
            filter P (evf ++ step.2)
            = filter P evf ++ if b then ev <$> take n (templates self) else [])
    as Hfilter.
  { intros P b HP. rewrite filter_app, Hn.
    by rewrite (filter_match_one_events P ev _ b HP). }
  split; [by rewrite (Hfilter is_grab false), Hg|].
  split; [done|].
  split.
  { rewrite (Hfilter is_gray false), Hy, app_nil_r by done.
    destruct (use_grayscale self); cbn; lia. }
  split.
  { rewrite (Hfilter is_resize false), Hr, app_nil_r by done.
    destruct (use_pyramid self); cbn; lia. }
  split; [exists n; by rewrite (Hfilter is_match_one true), Hm|].
  intros results Hres.
  destruct step.1 as [rs|e] eqn:Hstep; [|done].
  destruct (Hall rs eq_refl) as [Hev HF].
  destruct (update_states (templates self) rs).2; [done|].
  injection Hres as <-. split; [|done].
  rewrite filter_app, Hm, Hev.
  by rewrite (filter_match_one_events is_match_one ev _ true).
Qed.

(** A result that is not found is the "Not Found" record. *)
Lemma match_one_miss self t frame_bgr frame_gray frame_small r :
  (_match_one self t frame_bgr frame_gray frame_small).1 = py.Ok r ->
  MatchResult.found r = false -> r = not_found t.
Proof.
  unfold _match_one.
  destruct (if use_grayscale self then _ else _) as [[frame|] tpl]; [|done].
  destruct (tier_roi self t frame tpl) as [[r1|] log1] eqn:E1.
  { intros [= <-]. apply tier_roi_outcome in E1 as [[E1 _] _]. congruence. }
  destruct (tier_pyramid self t frame tpl frame_small)
    as [[[r2|]|e2] log2] eqn:E2; [| |done].
  { intros [= <-]. apply tier_pyramid_outcome in E2 as [[E2 _] _]. congruence. }
  destruct (tier_full self t frame tpl) as [[r3|] log3] eqn:E3.
  - intros [= <-]. apply tier_full_outcome in E3 as [[E3 _] _]. congruence.
  - by intros [= <-].
Qed.

(** *** Per-template state across cycles *)

Lemma bind_Ok {A B} (m : py.result A) (k : A -> py.result B) (b : B) :
  m ≫= k = py.Ok b -> exists a, m = py.Ok a /\ k a = py.Ok b.
Proof. destruct m as [a|e]; [|done]. intros Hk. by exists a. Qed.

Lemma load_template_id df gray i path t :
  load_template df gray i path = py.Ok t -> TemplateState.id t = i.
Proof.
  unfold load_template. destruct (imread path) as [tpl|]; [|done].
  intros Hb. repeat apply bind_Ok in Hb as (? & _ & Hb).
  by injection Hb as <-.
Qed.

Lemma load_templates_ids df gray i paths ts :
  load_templates df gray i paths = py.Ok ts ->
  forall j t, ts !! j = Some t -> TemplateState.id t = (i + j)%nat.
Proof.
  revert i ts. induction paths as [|path paths IH]; intros i ts;
    cbn [load_templates].
  { intros [= <-] j t Hj. by rewrite lookup_nil in Hj. }
  intros Hb. apply bind_Ok in Hb as (t0 & Ht0 & Hb).
  apply bind_Ok in Hb as (ts0 & Hts0 & Hb). injection Hb as <-.
  intros [|j] t; cbn.
  - intros [= <-]. rewrite (load_template_id _ _ _ _ _ Ht0). lia.
  - intros Hj. rewrite (IH _ _ Hts0 j t Hj). lia.
Qed.

Lemma init_ids_ok paths conf margin workers m gray df skip self :
  __init__ paths conf margin workers m gray df skip = py.Ok self ->
  ids_ok (templates self).
Proof.
  unfold __init__. destruct monitor as [sw sh]. intros Hb.
  do 4 apply bind_Ok in Hb as (? & _ & Hb).
  apply bind_Ok in Hb as (ts & Hts & Hb). injection Hb as <-.
  cbn [templates]. intros j t Hj.
  by rewrite (load_templates_ids _ _ _ _ _ Hts j t Hj).
Qed.

Lemma load_templates_length df gray i paths ts :
  load_templates df gray i paths = py.Ok ts -> length ts = length paths.
Proof.
  revert i ts. induction paths as [|path paths IH]; intros i ts;
    cbn [load_templates].
  { by intros [= <-]. }
  intros Hb. apply bind_Ok in Hb as (t0 & Ht0 & Hb).
  apply bind_Ok in Hb as (ts0 & Hts0 & Hb). injection Hb as <-.
  cbn. by rewrite (IH _ _ Hts0).
Qed.

Lemma init_length paths conf margin workers m gray df skip self :
  __init__ paths conf margin workers m gray df skip = py.Ok self ->
  length (templates self) = length paths.
Proof.
  unfold __init__. destruct monitor as [sw sh]. intros Hb.
  do 4 apply bind_Ok in Hb as (? & _ & Hb).
  apply bind_Ok in Hb as (ts & Hts & Hb). injection Hb as <-.
  cbn [templates]. by eapply load_templates_length.
Qed.

(** After a cycle that returned results, the templates are the old ones,
    each updated with its own result. *)
Lemma find_all_templates self results :
  ids_ok (templates self) ->
  (find_all self).1.2 = py.Ok results ->
  templates (find_all self).1.1
  = zip_with update_state (templates self) results /\
  Forall2 (fun t r => MatchResult.id r = TemplateState.id t)
          (templates self) results.
Proof.
  intros Hids. rewrite find_all_unfold.
  destruct (cycle_frames self) as [[[[fb fg] fs] sct'] evf]. cbn zeta.
  destruct (match_all_spec self fb fg fs (templates self)) as [_ Hall].
  set (step := if executor self then _ else _) in *. cbn [fst snd].
  destruct step.1 as [rs|e]; [|done].
  destruct (Hall rs eq_refl) as [_ HF].
  assert (Forall2 (fun t r => MatchResult.id r = TemplateState.id t)
                  (templates self) rs) as Hid.
  { eapply Forall2_impl; [exact HF|]. intros t r. apply match_one_id. }
  pose proof (update_states_zip [] (templates self) rs Hids Hid) as Hupd.
  cbn [app] in Hupd. rewrite Hupd. cbn [fst snd set_cycle templates].
  by intros [= <-].
Qed.

Lemma find_all_ids_ok self results :
  ids_ok (templates self) ->
  (find_all self).1.2 = py.Ok results ->
  ids_ok (templates (find_all self).1.1).
Proof.
  intros Hids Hres.
  destruct (find_all_templates self results Hids Hres) as [-> HF].
  intros i t'. rewrite lookup_zip_with.
  destruct (templates self !! i) as [t|] eqn:Ht; [|done]. cbn.
  destruct (results !! i) as [r|]; [|done]. cbn.
  intros [= <-]. rewrite update_state_id. by apply Hids.
Qed.

(** C5. After a [find_all] cycle that completes, every template has a result
    at its own position, and its [last_pos] is the result's (x, y) when the
    result is found and [None] when it is not.  So after a miss the next
    [_match_one] for that template, on whatever frames, makes no [_best_match]
    call on a ROI: there is no stale position to centre one on. *)
Theorem last_pos_is_result_or_cleared
  (self : MultiTemplateTrackerCV) (results : list MatchResult.t) :
  ids_ok (templates self) ->
  (find_all self).1.2 = py.Ok results ->
  let self' := (find_all self).1.1 in
  length results = length (templates self)
  /\ length (templates self') = length (templates self)
  /\ forall i t, templates self !! i = Some t ->
       exists r t',
         results !! i = Some r /\ templates self' !! i = Some t' /\
         MatchResult.id r = TemplateState.id t /\
         TemplateState.id t' = TemplateState.id t /\
         TemplateState.last_pos t'
           = (if MatchResult.found r
              then Some (MatchResult.x r, MatchResult.y r) else None) /\
         (MatchResult.found r = false ->
          forall frame_bgr frame_gray frame_small,
            ROI ∉ call_site
                    <$> (_match_one self' t' frame_bgr frame_gray frame_small).2).
Proof.
  intros Hids Hres self'. subst self'.
  destruct (find_all_templates self results Hids Hres) as [-> HF].
  pose proof (Forall2_length _ _ _ HF) as Hlen.
  split; [done|]. split.
  { rewrite length_zip_with. lia. }
  intros i t Ht.
  destruct (Forall2_lookup_l _ _ _ _ _ HF Ht) as (r & Hr & Hid).
  exists r, (update_state t r). split; [done|]. split.
  { rewrite lookup_zip_with, Ht, Hr. done. }
  split; [done|]. split; [apply update_state_id|].
  split; [apply update_state_last_pos|].
  intros Hmiss fb fg fs. apply no_last_pos_no_roi.
  by rewrite update_state_last_pos, Hmiss.
Qed.

End tracker_facts.

(** *** The three cycles on the example screen *)

(** First cycle: no position yet, the pyramid finds the pixel at (4, 2). *)
Example first_cycle_pyramid :
  (find_all (H := screen6x4.vision) (screen6x4.after 0)).1.2
  = py.Ok [MatchResult.mk 0 true 4 2 1 1 1.0 "Pyramid"].
Proof. vm_compute. reflexivity. Qed.

(** Second cycle: the ROI around (4, 2) finds it at (5, 2), with that single
    [_best_match] call. *)
Example second_cycle_heuristic :
  (find_all (H := screen6x4.vision) (screen6x4.after 1)).1.2
  = py.Ok [MatchResult.mk 0 true 5 2 1 1 1.0 "Heuristic"]
  /\ (call_site <$>
        match templates (screen6x4.after 1) with
        | t :: _ =>
            (_match_one (H := screen6x4.vision) (screen6x4.after 1) t
               (screen6x4.shows 1) (Some (screen6x4.shows 1))
               (Some (screen6x4.nearest (screen6x4.shows 1) (3, 2)))).2
        | [] => []
        end) = [ROI].
Proof. split; vm_compute; reflexivity. Qed.

(** Third cycle: the pixel is gone. *)
Example third_cycle_not_found :
  (find_all (H := screen6x4.vision) (screen6x4.after 2)).1.2
  = py.Ok [MatchResult.mk 0 false 0 0 1 1 0.0 "Not Found"]
  /\ TemplateState.last_pos <$> templates (screen6x4.after 2) = [Some (5, 2)]
  /\ TemplateState.last_pos <$> templates (screen6x4.after 3) = [None].
Proof. repeat split; vm_compute; reflexivity. Qed.

(** The matches the tiers would try in each of the three cycles, and those
    [_match_one] made: the first cycle has no position and walks the pyramid
    to its refinement; the second stops at the ROI and leaves the coarse
    match unmade; the third, the pixel gone, makes every match left to it
    (the coarse score does not open the refinement, the full scan is skipped)
    and finds nothing. *)
Example three_cycles_attempts :
  (fun n =>
     match templates (screen6x4.after n) with
     | t :: _ =>
         let frame := screen6x4.shows n in
         let small := Some (screen6x4.nearest frame (3, 2)) in
         (call_site
            <$> omap attempt_call
                  (attempts (H := screen6x4.vision) (screen6x4.after n) t
                     frame (TemplateState.tpl_gray t) small),
          call_site
            <$> (_match_one (H := screen6x4.vision) (screen6x4.after n) t
                   frame (Some frame) small).2)
     | [] => ([], [])
     end) <$> [0; 1; 2]%nat
  = [([Coarse; Refine], [Coarse; Refine]);
     ([ROI; Coarse], [ROI]);
     ([ROI; Coarse], [ROI; Coarse])].
Proof. vm_compute. reflexivity. Qed.

Lemma last_pos_is_result_or_cleared_witness :
  let self := screen6x4.after 2 in
  let results := [MatchResult.mk 0 false 0 0 1 1 0.0 "Not Found"] in
  let self' := (find_all (H := screen6x4.vision) self).1.1 in
  length results = length (templates self)
  /\ length (templates self') = length (templates self)
  /\ forall i t, templates self !! i = Some t ->
       exists r t',
         results !! i = Some r /\ templates self' !! i = Some t' /\
         MatchResult.id r = TemplateState.id t /\
         TemplateState.id t' = TemplateState.id t /\
         TemplateState.last_pos t'
           = (if MatchResult.found r
              then Some (MatchResult.x r, MatchResult.y r) else None) /\
         (MatchResult.found r = false ->
          forall frame_bgr frame_gray frame_small,
            ROI ∉ call_site
                    <$> (_match_one (H := screen6x4.vision) self' t'
                           frame_bgr frame_gray frame_small).2).
Proof.
  apply (last_pos_is_result_or_cleared (H := screen6x4.vision)
           (screen6x4.after 2)
           [MatchResult.mk 0 false 0 0 1 1 0.0 "Not Found"]).
  - intros [|i] t Hi; vm_compute in Hi.
    + injection Hi as <-. reflexivity.
    + destruct i; discriminate Hi.
  - vm_compute. reflexivity.
Defined.

End simple_match.

(** ** game_agent/game_state.py *)

Module game_state.

(** Dicts are mutable objects: a dict value is a reference into a heap of
    dicts, so that two names for one dict see each other's updates.  The
    other values stored here are immutable. *)
Definition loc := positive.

Inductive pyval :=
| VInt (n : Z)
| VBool (b : bool)
| VStr (s : string)
| VNone
| VRef (l : loc).

Abbreviation pydict := (gmap string pyval).
Abbreviation heap := (gmap loc pydict).

(** What an operation does to the lock and to the heap, in order. *)
Inductive op :=
| lock_acquire
| lock_release
| op_new (l : loc)
| op_read (l : loc)
| op_write (l : loc).

(** The object: its two dicts ([_lock] appears through the events,
    [_callbacks] is never used). *)
Record GameState := mkGameState {
  _entities : loc;
  _player : loc
}.

(** A new dict object. *)
Definition new_dict (d : pydict) (h : heap) : loc * heap :=
  let l := fresh (dom h) in (l, <[l := d]> h).

(** The dict a reference names. *)
Definition deref (h : heap) (v : pyval) : option pydict :=
  match v with
  | VRef l => h !! l
  | _ => None
  end.

Definition __init__ (h : heap) : GameState * heap :=
  let '(entities, h1) := new_dict ∅ h in
  let '(player, h2) := new_dict {[ "x" := VInt 0; "y" := VInt 0 ]} h1 in
  (mkGameState entities player, h2).

(** [{"x": x, "y": y, "found": found, **extra}]: the keys of [extra] are
    written last.  ([extra] holds the keyword arguments that are not
    parameters, so none of these three.) *)
Definition entity_dict (x y : Z) (found : bool) (extra : pydict) : pydict :=
  extra ∪ {[ "x" := VInt x; "y" := VInt y; "found" := VBool found ]}.

(** [update_entity]: a new dict is built and stored under [name] in the
    table, inside [with self._lock]. *)
Definition update_entity (self : GameState) (name : string) (x y : Z)
    (found : bool) (extra : pydict) (h : heap) : heap * list op :=
  let '(l, h1) := new_dict (entity_dict x y found extra) h in
  let h2 := alter (insert name (VRef l)) (_entities self) h1 in
  (h2, [lock_acquire; op_new l; op_write (_entities self); lock_release]).

(** [self._entities.get(name, None)] *)
Definition stored (self : GameState) (h : heap) (name : string)
  : option pyval :=
  match h !! _entities self with
  | Some table => table !! name
  | None => None
  end.

(** [get_entity]: the stored value itself, or [None]. *)
Definition get_entity (self : GameState) (name : string) (h : heap)
  : pyval * list op :=
  (default VNone (stored self h name),
   [lock_acquire; op_read (_entities self); lock_release]).

(** [get_all_entities]: [dict(self._entities)], a new dict with the same
    keys and the same values. *)
Definition get_all_entities (self : GameState) (h : heap)
  : loc * heap * list op :=
  let table := default ∅ (h !! _entities self) in
  let '(l, h1) := new_dict table h in
  (l, h1, [lock_acquire; op_read (_entities self); op_new l; lock_release]).

(** Truth value of a Python object. *)
Definition truthy (h : heap) (v : pyval) : bool :=
  match v with
  | VInt n => negb (n =? 0)
  | VBool b => b
  | VStr s => negb (bool_decide (s = ""))
  | VNone => false
  | VRef l => negb (bool_decide (default ∅ (h !! l) = ∅))
  end.

(** [v.get("found", False)], truth-tested; [None] when [v] is not a dict. *)
Definition found_flag (h : heap) (v : pyval) : option bool :=
  d ← deref h v; Some (truthy h (default (VBool false) (d !! "found"))).

(** [get_found_entities]: the comprehension builds a new dict from the items
    whose record has a true "found". *)
Definition get_found_entities (self : GameState) (h : heap)
  : py.result loc * heap * list op :=
  let table := default ∅ (h !! _entities self) in
  if forallb (fun kv => bool_decide (is_Some (found_flag h kv.2)))
             (map_to_list table)
  then
    let kept := filter (fun kv => found_flag h kv.2 = Some true) table in
    let '(l, h1) := new_dict kept h in
    (py.Ok l, h1,
     [lock_acquire; op_read (_entities self); op_new l; lock_release])
  else
    (py.Raise py.AttributeError, h,
     [lock_acquire; op_read (_entities self); lock_release]).

(** The arguments of one [update_entity] call. *)
Record update := mkUpdate {
  u_name : string;
  u_x : Z;
  u_y : Z;
  u_found : bool;
  u_extra : pydict
}.

(** Calls of [update_entity], one after the other. *)
Definition updates (self : GameState) (us : list update) (h : heap) : heap :=
  foldl (fun h u => (update_entity self (u_name u) (u_x u) (u_y u)
                       (u_found u) (u_extra u) h).1) h us.

(** What a reader sees through a dict of records: for each key the record
    stored there. *)
Definition view (h : heap) (l : loc) : option (gmap string (option pydict)) :=
  (fun table : pydict => deref h <$> table) <$> h !! l.

(** The record stored under [name] in the table. *)
Definition entity (self : GameState) (h : heap) (name : string)
  : option pydict :=
  match stored self h name with
  | Some v => deref h v
  | None => None
  end.

(** All accesses of a trace happen with the lock held: it is taken first,
    released last, and not touched in between. *)
Definition under_lock (tr : list op) : Prop :=
  exists body, tr = lock_acquire :: body ++ [lock_release] /\
               (lock_acquire ∉ body) /\ (lock_release ∉ body).

(** A dict of records: every value is a reference to a dict that is neither
    the table nor this dict itself. *)
Definition records_at (self : GameState) (h : heap) (l : loc) : Prop :=
  exists table, h !! l = Some table /\
    forall name v, table !! name = Some v ->
      exists l', v = VRef l' /\ is_Some (h !! l') /\
                 l' ≠ _entities self /\ l' ≠ l.

(** The store is well formed: its table is a dict of records. *)
Definition wf (self : GameState) (h : heap) : Prop :=
  records_at self h (_entities self).

(** *** The heap under [update_entity] *)

Lemma new_dict_spec d (h : heap) :
((new_dict d h).1 ∉ dom h) /\
  (new_dict d h).2 = <[(new_dict d h).1 := d]> h.
Proof. unfold new_dict. cbn. split; [apply is_fresh|done]. Qed.

Lemma under_lock_intro body :
  lock_acquire ∉ body -> lock_release ∉ body ->
  under_lock (lock_acquire :: body ++ [lock_release]).
Proof. intros. by exists body. Qed.

(** [update_entity] writes the table and a new dict, nothing else. *)
Lemma update_entity_other self name x y found extra (h : heap) l :
  is_Some (h !! l) -> l ≠ _entities self ->
  (update_entity self name x y found extra h).1 !! l = h !! l.
Proof.
  intros Hl Hne. unfold update_entity.
  destruct (new_dict_spec (entity_dict x y found extra) h) as [Hfresh Hh1].
  destruct (new_dict _ h) as [l0 h1]. cbn in *. subst h1.
  rewrite lookup_alter_ne by done.
  rewrite lookup_insert_ne; [done|].
  intros ->. by apply Hfresh, elem_of_dom.
Qed.

Lemma update_entity_table self name x y found extra (h : heap) table :
  h !! _entities self = Some table ->
  exists l, (l ∉ dom h) /\
    (update_entity self name x y found extra h).1 !! l
      = Some (entity_dict x y found extra) /\
    (update_entity self name x y found extra h).1 !! _entities self
      = Some (<[name := VRef l]> table).
Proof.
  intros Ht. unfold update_entity.
  destruct (new_dict_spec (entity_dict x y found extra) h) as [Hfresh Hh1].
  destruct (new_dict _ h) as [l0 h1]. cbn in *. subst h1.
  assert (l0 ≠ _entities self) as Hne.
  { intros ->. apply Hfresh, elem_of_dom. by eexists. }
  exists l0. split; [done|]. split.
  - rewrite lookup_alter_ne by done. apply lookup_insert_eq.
  - rewrite lookup_alter_eq, lookup_insert_ne, Ht by done. done.
Qed.

Lemma update_entity_dom self name x y found extra (h : heap) l :
  is_Some (h !! l) ->
  is_Some ((update_entity self name x y found extra h).1 !! l).
Proof.
  intros Hl. destruct (decide (l = _entities self)) as [->|Hne].
  - destruct Hl as [table Ht].
    destruct (update_entity_table self name x y found extra h table Ht)
      as (? & _ & _ & ->). by eexists.
  - by rewrite update_entity_other.
Qed.

(** A dict of records other than the table is left alone by [update_entity]:
    it stays a dict of records, and shows the same records. *)
Lemma update_entity_frame self name x y found extra (h : heap) l :
  l ≠ _entities self -> records_at self h l ->
  records_at self (update_entity self name x y found extra h).1 l /\
  view (update_entity self name x y found extra h).1 l = view h l.
Proof.
  intros Hne (table & Ht & Hrec).
  assert ((update_entity self name x y found extra h).1 !! l = Some table)
    as Ht'.
  { rewrite update_entity_other; [done| by eexists | done]. }
  split.
  - exists table. split; [done|]. intros k v Hv.
    destruct (Hrec k v Hv) as (l' & -> & Hl' & Hn1 & Hn2).
    exists l'. split; [done|]. split; [|done].
    by apply update_entity_dom.
  - unfold view. rewrite Ht', Ht. cbn. f_equal.
    apply map_eq. intros k. rewrite !lookup_fmap.
    destruct (table !! k) as [v|] eqn:Hv; [|done]. cbn. f_equal.
    destruct (Hrec k v Hv) as (l' & -> & Hl' & Hn1 & Hn2). cbn.
    by apply update_entity_other.
Qed.

Lemma update_entity_wf self name x y found extra (h : heap) :
  wf self h -> wf self (update_entity self name x y found extra h).1.
Proof.
  intros (table & Ht & Hrec).
  destruct (update_entity_table self name x y found extra h table Ht)
    as (l & Hfresh & Hl & Ht').
  exists (<[name := VRef l]> table). split; [done|].
  intros k v. rewrite lookup_insert. case_decide as Hk.
  - intros [= <-]. exists l. split; [done|]. split; [by eexists|].
    assert (l ≠ _entities self); [|done].
    intros ->. apply Hfresh, elem_of_dom. by eexists.
  - intros Hv. destruct (Hrec k v Hv) as (l' & -> & Hl' & Hn1 & Hn2).
    exists l'. split; [done|]. split; [|done]. by apply update_entity_dom.
Qed.

Lemma updates_frame self us (h : heap) l :
  l ≠ _entities self -> records_at self h l ->
  view (updates self us h) l = view h l.
Proof.
  intros Hne. revert h. unfold updates.
  induction us as [|u us IH]; intros h Hrec; [done|]. cbn [foldl].
  destruct (update_entity_frame self (u_name u) (u_x u) (u_y u) (u_found u)
              (u_extra u) h l Hne Hrec) as [Hrec' Hview].
  by rewrite IH.
Qed.

(** A new dict holding (part of) the table is a dict of records. *)
Lemma snapshot_records self (h : heap) table kept :
  wf self h -> h !! _entities self = Some table -> kept ⊆ table ->
  let l := (new_dict kept h).1 in
  let h1 := (new_dict kept h).2 in
  (l ∉ dom h) /\ l ≠ _entities self /\ h1 !! l = Some kept /\
  h1 !! _entities self = Some table /\
  records_at self h1 l /\ wf self h1.
Proof.
  intros (table' & Ht' & Hrec) Ht Hsub l h1. rewrite Ht in Ht'.
  injection Ht' as <-.
  destruct (new_dict_spec kept h) as [Hfresh Hh1]. fold l h1 in Hfresh, Hh1.
  assert (l ≠ _entities self) as Hne.
  { intros Heq. apply Hfresh. rewrite Heq. apply elem_of_dom. by eexists. }
  assert (forall l', is_Some (h !! l') ->
            l' ≠ l /\ is_Some (h1 !! l')) as Hold.
  { intros l' Hl'. assert (l' ≠ l) as Hn.
    { intros ->. by apply Hfresh, elem_of_dom. }
    split; [done|]. by rewrite Hh1, lookup_insert_ne. }
  split; [done|]. split; [done|].
  split; [by rewrite Hh1, lookup_insert_eq|].
  split; [by rewrite Hh1, lookup_insert_ne|].
  split.
  - exists kept. split; [by rewrite Hh1, lookup_insert_eq|].
    intros k v Hv.
    destruct (Hrec k v (lookup_weaken _ _ _ _ Hv Hsub))
      as (l' & -> & Hl' & Hn1 & Hn2).
    destruct (Hold l' Hl') as [Hn3 Hl1]. by exists l'.
  - exists table. split; [by rewrite Hh1, lookup_insert_ne|].
    intros k v Hv. destruct (Hrec k v Hv) as (l' & -> & Hl' & Hn1 & Hn2).
    destruct (Hold l' Hl') as [Hn3 Hl1]. by exists l'.
Qed.

Lemma entity_after_update self name x y found extra (h : heap) :
  wf self h ->
  let h' := (update_entity self name x y found extra h).1 in
  entity self h' name = Some (entity_dict x y found extra) /\
  forall other, other ≠ name -> entity self h' other = entity self h other.
Proof.
  intros (table & Ht & Hrec) h'.
  destruct (update_entity_table self name x y found extra h table Ht)
    as (l & Hfresh & Hl & Ht').
  fold h' in Hl, Ht'. unfold entity, stored. rewrite Ht', Ht. split.
  - by rewrite lookup_insert_eq.
  - intros other Hne. rewrite lookup_insert_ne by done.
    destruct (table !! other) as [v|] eqn:Hv; [|done].
    destruct (Hrec other v Hv) as (l' & -> & Hl' & Hn1 & Hn2). cbn.
    by apply update_entity_other.
Qed.

Lemma found_flags_defined self (h : heap) table :
  wf self h -> h !! _entities self = Some table ->
  forallb (fun kv => bool_decide (is_Some (found_flag h kv.2)))
          (map_to_list table) = true.
Proof.
  intros (table' & Ht' & Hrec) Ht. rewrite Ht in Ht'. injection Ht' as <-.
  apply forallb_forall. intros [k v] Hin%list_elem_of_In%elem_of_map_to_list.
  apply bool_decide_eq_true.
  destruct (Hrec k v Hin) as (l' & -> & [d Hd] & _). cbn.
  unfold found_flag. cbn. rewrite Hd. by eexists.
Qed.

(** C9. On a well-formed store:
    - [update_entity] runs under the lock and replaces the record of [name]
      by exactly the new one (x, y, found and the extra keys, nothing kept
      from the old record); the records of other names are untouched;
    - [get_all_entities] and [get_found_entities] run under the lock and
      return a dict that did not exist before, hence not the table itself;
      it holds the table's records (those with a true "found" for the second);
    - whatever [update_entity] calls follow, a reader of the returned dict
      keeps seeing the records it saw when the dict was returned. *)
Theorem updates_replace_reads_return_copies (self : GameState) (h : heap) :
  wf self h ->
  (forall name x y found extra,
      let h' := (update_entity self name x y found extra h).1 in
      under_lock (update_entity self name x y found extra h).2 /\
      wf self h' /\
      entity self h' name = Some (entity_dict x y found extra) /\
      forall other, other ≠ name -> entity self h' other = entity self h other)
  /\ (exists snap h1 tr,
        get_all_entities self h = (snap, h1, tr) /\
        under_lock tr /\ (snap ∉ dom h) /\ snap ≠ _entities self /\
        h1 !! snap = h !! _entities self /\
        view h1 (_entities self) = view h (_entities self) /\
        forall us, view (updates self us h1) snap = view h1 snap)
  /\ (exists snap h1 tr table,
        get_found_entities self h = (py.Ok snap, h1, tr) /\
        under_lock tr /\ (snap ∉ dom h) /\ snap ≠ _entities self /\
        h !! _entities self = Some table /\
        h1 !! snap
          = Some (filter (fun kv => found_flag h kv.2 = Some true) table) /\
        view h1 (_entities self) = view h (_entities self) /\
        forall us, view (updates self us h1) snap = view h1 snap).
Proof.
  intros Hwf. pose proof Hwf as (table & Ht & Hrec).
  assert (forall kept, kept ⊆ table ->
            let l := (new_dict kept h).1 in
            view (new_dict kept h).2 (_entities self)
            = view h (_entities self)) as Hsame.
  { intros kept Hsub l.
    destruct (snapshot_records self h table kept Hwf Ht Hsub)
      as (Hfresh & _ & _ & Ht1 & _ & _).
    destruct (new_dict_spec kept h) as [_ Hh1].
    unfold view. rewrite Ht1, Ht. cbn. f_equal.
    apply map_eq. intros k. rewrite !lookup_fmap.
    destruct (table !! k) as [v|] eqn:Hv; [|done]. cbn [fmap option_fmap option_map].
    destruct (Hrec k v Hv) as (l' & -> & Hl' & _).
    f_equal. cbn [deref]. rewrite lookup_insert_ne; [done|].
    intros Heq. apply (is_fresh (dom h)). rewrite Heq. by apply elem_of_dom. }
  split; [|split].
  - intros name x y found extra h'.
    split; [by apply (under_lock_intro [_; _]); set_solver|].
    split; [by apply update_entity_wf|].
    by apply entity_after_update.
  - unfold get_all_entities. rewrite Ht. cbn [default from_option id].
    destruct (snapshot_records self h table table Hwf Ht (reflexivity _))
      as (Hfresh & Hne & Hsnap & Ht1 & Hrec1 & Hwf1).
    specialize (Hsame table (reflexivity _)).
    destruct (new_dict table h) as [snap h1]. cbn [fst snd] in *.
    exists snap, h1. eexists. split; [reflexivity|].
    split; [by apply (under_lock_intro [_; _]); set_solver|].
    split; [done|]. split; [done|]. split; [done|].
    split; [done|].
    intros us. by apply updates_frame.
  - unfold get_found_entities. rewrite Ht. cbn [default from_option id].
    rewrite (found_flags_defined self h table Hwf Ht).
    set (kept := filter _ table).
    assert (kept ⊆ table) as Hsub by apply map_filter_subseteq.
    destruct (snapshot_records self h table kept Hwf Ht Hsub)
      as (Hfresh & Hne & Hsnap & Ht1 & Hrec1 & Hwf1).
    specialize (Hsame kept Hsub).
    destruct (new_dict kept h) as [snap h1]. cbn [fst snd] in *.
    exists snap, h1. eexists. exists table. split; [reflexivity|].
    split; [by apply (under_lock_intro [_; _]); set_solver|].
    split; [done|]. split; [done|]. split; [done|]. split; [done|].
    split; [done|].
    intros us. by apply updates_frame.
Qed.

Lemma init_wf (h : heap) : wf (__init__ h).1 (__init__ h).2.
Proof.
  unfold __init__.
  destruct (new_dict_spec ∅ h) as [Hf1 Hh1].
  destruct (new_dict ∅ h) as [entities h1]. cbn [fst snd] in *.
  destruct (new_dict_spec {[ "x" := VInt 0; "y" := VInt 0 ]} h1) as [Hf2 Hh2].
  destruct (new_dict _ h1) as [player h2]. cbn [fst snd] in *.
  exists ∅. split; [|by intros ?? ?%lookup_empty_Some].
  cbn [_entities]. rewrite Hh2, lookup_insert_ne, Hh1.
  - apply lookup_insert_eq.
  - intros ->. apply Hf2. rewrite Hh1. set_solver.
Qed.

(** A store that has seen one found "slime" at (800, 400). *)
Definition slime_seen : GameState * heap :=
  let '(self, h) := __init__ ∅ in
  (self, (update_entity self "slime" 800 400 true
            {[ "method" := VStr "Heuristic" ]} h).1).

Lemma updates_replace_reads_return_copies_witness :
  wf slime_seen.1 slime_seen.2 /\
  exists snap h1 tr,
    get_all_entities slime_seen.1 slime_seen.2 = (snap, h1, tr) /\
    under_lock tr /\ (snap ∉ dom slime_seen.2) /\
    snap ≠ _entities slime_seen.1 /\
    h1 !! snap = slime_seen.2 !! _entities slime_seen.1 /\
    view h1 (_entities slime_seen.1)
      = view slime_seen.2 (_entities slime_seen.1) /\
    forall us, view (updates slime_seen.1 us h1) snap = view h1 snap.
Proof.
  assert (wf slime_seen.1 slime_seen.2) as Hwf.
  { apply (update_entity_wf (__init__ ∅).1), init_wf. }
  split; [exact Hwf|].
  exact (proj1 (proj2 (updates_replace_reads_return_copies _ _ Hwf))).
Defined.

(** The snapshot taken while the slime was at (800, 400) still shows it there
    after the store has been told it is lost; the store itself shows the new
    record. *)
Example snapshot_keeps_old_record :
  let '(self, h) := slime_seen in
  let '(snap, h1, _) := get_all_entities self h in
  let h2 := (update_entity self "slime" 0 0 false
               {[ "method" := VStr "Not Found" ]} h1).1 in
  (view h2 snap ≫= (.!! "slime"))
    = Some (Some (entity_dict 800 400 true {[ "method" := VStr "Heuristic" ]}))
  /\ entity self h2 "slime"
     = Some (entity_dict 0 0 false {[ "method" := VStr "Not Found" ]}).
Proof. split; vm_compute; reflexivity. Qed.

End game_state.

(** ** game_agent/tracker_service.py *)

Module tracker_service.
Import simple_match.

(** An entry of [self.templates]: [{"name": name, "path": path}]. *)
Record template := mkTemplate {
  name : string;
  path : string
}.

Record TrackerService := mkService {
  running : bool;
  fps : Z;
  confidence : float;
  search_margin : Z;
  downscale_factor : float;
  skip_full_scan : bool;
  templates : list template
}.

(** The keyword arguments of the [update_entity] call beyond x, y, found. *)
Definition published_extra (r : MatchResult.t) : game_state.pydict :=
  {[ "method" := game_state.VStr (MatchResult.method r);
     "width" := game_state.VInt (MatchResult.w r);
     "height" := game_state.VInt (MatchResult.h r) ]}.

(** The [for i, result in enumerate(results)] loop, from index [i]. *)
Fixpoint publish (self : TrackerService) (gs : game_state.GameState)
    (i : nat) (results : list MatchResult.t) (h : game_state.heap)
  : game_state.heap * option py.exn :=
  match results with
  | [] => (h, None)
  | result :: rest =>
      match templates self !! i with
      | None => (h, Some py.IndexError)
      | Some t =>
          publish self gs (S i) rest
            (game_state.update_entity gs (name t)
               (MatchResult.x result) (MatchResult.y result)
               (MatchResult.found result) (published_extra result) h).1
      end
  end.

Section service.
Context `{Vision}.

(** The tracker [_tracking_loop] creates, on the paths of the templates in
    their order, with one worker per path. *)
Definition create_tracker (self : TrackerService)
  : py.result MultiTemplateTrackerCV :=
  let paths := path <$> templates self in
  simple_match.__init__ paths (confidence self) (search_margin self)
    (Z.of_nat (length paths)) TM_CCOEFF_NORMED true
    (downscale_factor self) (skip_full_scan self).

(** One pass of the [while self.running] body, up to the pacing sleep: the
    tracker and the store afterwards, and the exception that ends the loop,
    if any. *)
Definition tracking_cycle (self : TrackerService) (gs : game_state.GameState)
    (tracker : MultiTemplateTrackerCV) (h : game_state.heap)
  : MultiTemplateTrackerCV * game_state.heap * option py.exn :=
  let '(tracker', results, _) := find_all tracker in
  match results with
  | py.Raise e => (tracker', h, Some e)
  | py.Ok results =>
      let '(h', raised) := publish self gs 0 results h in
      (tracker', h', raised)
  end.

(** The trackers the loop can hold: the created one, and its successors
    through cycles. *)
Inductive tracks (self : TrackerService) : MultiTemplateTrackerCV -> Prop :=
| tracks_created tracker :
    create_tracker self = py.Ok tracker -> tracks self tracker
| tracks_cycle tracker results :
    tracks self tracker ->
    (find_all tracker).1.2 = py.Ok results ->
    tracks self (find_all tracker).1.1.

(** *** What the loop keeps true of its tracker *)

Lemma tracks_inv self tracker :
  tracks self tracker ->
  ids_ok (simple_match.templates tracker) /\
  length (simple_match.templates tracker) = length (templates self).
Proof.
  induction 1 as [tracker Hc|tracker results _ [IHi IHl] Hres].
  - split; [by eapply init_ids_ok|].
    rewrite (init_length _ _ _ _ _ _ _ _ _ Hc). by rewrite length_fmap.
  - split; [by eapply find_all_ids_ok|].
    destruct (find_all_templates tracker results IHi Hres) as [-> HF].
    rewrite length_zip_with, <- (Forall2_length _ _ _ HF). lia.
Qed.

(** Publishing leaves the records of the names it does not publish. *)
Lemma publish_other self gs results n :
  forall i h,
    game_state.wf gs h ->
    (forall j t, (j < length results)%nat ->
                 templates self !! (i + j)%nat = Some t -> name t ≠ n) ->
    game_state.wf gs (publish self gs i results h).1 /\
    game_state.entity gs (publish self gs i results h).1 n
    = game_state.entity gs h n.
Proof.
  induction results as [|r rest IH]; intros i h Hwf Hn; [done|].
  cbn [publish].
  destruct (templates self !! i) as [t|] eqn:Ht; [|done].
  assert (name t ≠ n) as Hne.
  { apply (Hn 0%nat); [cbn; lia|]. by rewrite Nat.add_0_r. }
  destruct (IH (S i) (game_state.update_entity gs (name t)
              (MatchResult.x r) (MatchResult.y r) (MatchResult.found r)
              (published_extra r) h).1) as [Hwf' ->].
  - by apply game_state.update_entity_wf.
  - intros j t' Hj Ht'. apply (Hn (S j)); [cbn; lia|].
    by rewrite Nat.add_succ_r.
  - split; [done|].
    by apply game_state.entity_after_update.
Qed.

(** Publishing results for templates that exist: no exception, and a name
    shows the record of the last result published under it. *)
Lemma publish_last self gs results :
  forall i h,
    game_state.wf gs h ->
    (i + length results <= length (templates self))%nat ->
    (publish self gs i results h).2 = None /\
    forall j r t,
      results !! j = Some r -> templates self !! (i + j)%nat = Some t ->
      (forall j' t', (j < j')%nat -> templates self !! (i + j')%nat = Some t' ->
                     name t' ≠ name t) ->
      game_state.entity gs (publish self gs i results h).1 (name t)
      = Some (game_state.entity_dict (MatchResult.x r) (MatchResult.y r)
                (MatchResult.found r) (published_extra r)).
Proof.
  induction results as [|r0 rest IH]; intros i h Hwf Hlen.
  { split; [done|]. intros j r t Hj. by rewrite lookup_nil in Hj. }
  cbn [publish]. cbn in Hlen.
  destruct (lookup_lt_is_Some_2 (templates self) i) as [t0 Ht0]; [lia|].
  rewrite Ht0.
  set (h1 := (game_state.update_entity gs (name t0) _ _ _ _ h).1).
  assert (game_state.wf gs h1) as Hwf1
      by by apply game_state.update_entity_wf.
  destruct (IH (S i) h1 Hwf1) as [Hnone Hlast]; [lia|].
  split; [done|].
  intros [|j] r t Hr Ht Hlater.
  - rewrite Nat.add_0_r, Ht0 in Ht. injection Ht as <-.
    injection Hr as <-.
    destruct (publish_other self gs rest (name t0) (S i) h1 Hwf1) as [_ ->].
    + intros j t' _ Ht'. apply (Hlater (S j)); [lia|].
      by rewrite Nat.add_succ_r.
    + by apply game_state.entity_after_update.
  - apply (Hlast j r t Hr).
    + by rewrite Nat.add_succ_r in Ht.
    + intros j' t' Hj' Ht'. apply (Hlater (S j')); [lia|].
      by rewrite Nat.add_succ_r.
Qed.

(** C10. In a cycle of the service, a template that is not found yields the
    result with x = 0, y = 0 and score 0.0, and the service stores exactly
    these coordinates, with found = False, under the template's name: the
    record replaces whatever was stored before (the last position seen
    included), so reading "x" and "y" without looking at "found" gives (0, 0).
    (When several templates share a name, the record of the last one stays;
    the score is not among the published keys.) *)
Theorem miss_publishes_origin
  (self : TrackerService) (gs : game_state.GameState)
  (tracker : MultiTemplateTrackerCV) (h : game_state.heap)
  (results : list MatchResult.t) (i : nat) (t : template) (r : MatchResult.t) :
  tracks self tracker -> game_state.wf gs h ->
  (find_all tracker).1.2 = py.Ok results ->
  results !! i = Some r -> MatchResult.found r = false ->
  templates self !! i = Some t ->
  (forall j t', (i < j)%nat -> templates self !! j = Some t' ->
                name t' ≠ name t) ->
  let h' := (tracking_cycle self gs tracker h).1.2 in
  MatchResult.x r = 0 /\ MatchResult.y r = 0 /\ MatchResult.score r = 0.0%float
  /\ (tracking_cycle self gs tracker h).2 = None
  /\ game_state.entity gs h' (name t)
     = Some (game_state.entity_dict 0 0 false
               {[ "method" := game_state.VStr "Not Found";
                  "width" := game_state.VInt (MatchResult.w r);
                  "height" := game_state.VInt (MatchResult.h r) ]})
  /\ (exists record,
        game_state.entity gs h' (name t) = Some record /\
        record !! "x" = Some (game_state.VInt 0) /\
        record !! "y" = Some (game_state.VInt 0) /\
        record !! "found" = Some (game_state.VBool false) /\
        record !! "score" = None).
Proof.
  intros Htr Hwf Hres Hr Hmiss Ht Hlater h'.
  destruct (tracks_inv self tracker Htr) as [Hids Hlen].
  pose proof (find_all_results tracker results Hres) as HF.
  destruct (Forall2_lookup_r _ _ _ _ _ HF Hr) as (t0 & _ & fb & fg & fs & Hm).
  pose proof (match_one_miss _ _ _ _ _ _ Hm Hmiss) as ->.
  subst h'. unfold tracking_cycle.
  destruct (find_all tracker) as [[tracker' res] log]. cbn in Hres. subst res.
  destruct (publish_last self gs results 0 h Hwf) as [Hnone Hlast].
  { rewrite <- Hlen, (Forall2_length _ _ _ HF). lia. }
  specialize (Hlast i _ t Hr Ht Hlater).
  destruct (publish self gs 0 results h) as [h1 raised]. cbn in *. subst raised.
  split; [done|]. split; [done|]. split; [done|]. split; [done|].
  split; [done|].
  eexists. split; [exact Hlast|].
  unfold game_state.entity_dict.
  repeat split;
    repeat first [ rewrite lookup_union_r
                     by (by rewrite !lookup_insert_ne, lookup_empty)
                 | rewrite lookup_union_None ];
    by simplify_map_eq.
Qed.

End service.

(** *** The slime is lost

    The service on the example screen, with the store already holding the
    slime at (800, 400): in the third cycle the pixel is gone. *)
Module lost_slime.

Definition service : TrackerService :=
  mkService true 60 0.85 1 0.5 true [mkTemplate "slime" "slime.png"].

Definition created : MultiTemplateTrackerCV :=
  match create_tracker (H := screen6x4.vision) service with
  | py.Ok tracker => tracker
  | py.Raise _ => screen6x4.after 0
  end.

Definition tracker : MultiTemplateTrackerCV :=
  (find_all (H := screen6x4.vision)
     (find_all (H := screen6x4.vision) created).1.1).1.1.

Definition miss : MatchResult.t :=
  MatchResult.mk 0 false 0 0 1 1 0.0 "Not Found".

End lost_slime.

Lemma miss_publishes_origin_witness :
  let gs := game_state.slime_seen.1 in
  let h := game_state.slime_seen.2 in
  let r := lost_slime.miss in
  let h' := (tracking_cycle (H := screen6x4.vision) lost_slime.service gs
               lost_slime.tracker h).1.2 in
  MatchResult.x r = 0 /\ MatchResult.y r = 0 /\ MatchResult.score r = 0.0%float
  /\ (tracking_cycle (H := screen6x4.vision) lost_slime.service gs
        lost_slime.tracker h).2 = None
  /\ game_state.entity gs h' "slime"
     = Some (game_state.entity_dict 0 0 false
               {[ "method" := game_state.VStr "Not Found";
                  "width" := game_state.VInt (MatchResult.w r);
                  "height" := game_state.VInt (MatchResult.h r) ]})
  /\ (exists record,
        game_state.entity gs h' "slime" = Some record /\
        record !! "x" = Some (game_state.VInt 0) /\
        record !! "y" = Some (game_state.VInt 0) /\
        record !! "found" = Some (game_state.VBool false) /\
        record !! "score" = None).
Proof.
  apply (miss_publishes_origin (H := screen6x4.vision) lost_slime.service
           game_state.slime_seen.1 lost_slime.tracker game_state.slime_seen.2
           [lost_slime.miss] 0 (mkTemplate "slime" "slime.png") lost_slime.miss).
  - apply (tracks_cycle (H := screen6x4.vision) _ _
             [MatchResult.mk 0 true 5 2 1 1 1.0 "Heuristic"]).
    + apply (tracks_cycle (H := screen6x4.vision) _ _
               [MatchResult.mk 0 true 4 2 1 1 1.0 "Pyramid"]).
      * apply tracks_created. vm_compute. reflexivity.
      * vm_compute. reflexivity.
    + vm_compute. reflexivity.
  - apply (game_state.update_entity_wf (game_state.__init__ ∅).1),
      game_state.init_wf.
  - vm_compute. reflexivity.
  - reflexivity.
  - reflexivity.
  - reflexivity.
  - intros [|j] t' Hj Ht'; [lia|]. destruct j; discriminate Ht'.
Defined.

(** Before the cycle the store shows the slime at (800, 400); after it, at
    (0, 0) and not found. *)
Example lost_slime_overwritten :
  let gs := game_state.slime_seen.1 in
  let h := game_state.slime_seen.2 in
  let h' := (tracking_cycle (H := screen6x4.vision) lost_slime.service gs
               lost_slime.tracker h).1.2 in
  (game_state.entity gs h "slime" ≫= (.!! "x")) = Some (game_state.VInt 800)
  /\ (game_state.entity gs h' "slime" ≫= (.!! "x")) = Some (game_state.VInt 0)
  /\ (game_state.entity gs h' "slime" ≫= (.!! "y")) = Some (game_state.VInt 0)
  /\ (game_state.entity gs h' "slime" ≫= (.!! "found"))
     = Some (game_state.VBool false).
Proof. repeat split; vm_compute; reflexivity. Qed.

End tracker_service.

(** ** game_agent/script_runner.py *)

Module script_runner.
Import actions.

(** What [script_module.run(game_state, actions)] does in one frame: the
    intent methods it calls on [actions], in order, and whether it then
    returns or raises.  (A policy reads the store and declares intents; it
    makes no device call itself.) *)
Record script_step := mkStep {
  calls : list intent;
  raises : option py.exn
}.

(** A loaded script: its behaviour at each call of [run]. *)
Record script_module := mkScript {
  __name__ : string;
  run : Z -> script_step
}.

(** What the surroundings contribute to one iteration. *)
Record tick := mkTick {
  (** [stop_event.is_set()] at the loop head ([run_script_timed] only) *)
  stop_is_set : bool;
  (** [time.time() - start_time] when the status line is due *)
  elapsed_total : float;
  (** [time.time() - loop_start] after the flush *)
  spent : float;
  (** Ctrl+C arrives during the pacing at the end of the iteration *)
  interrupt : bool
}.

(** What a loop emits. *)
Inductive out :=
| dev (e : dev_event)
| print (line : string)
| print_banner
| print_status
| time_sleep (secs : float).

(** How far a loop got on the ticks it was given. *)
Inductive ended :=
| returned
| raised (e : py.exn)
| running.

(** ["\n\nStopped by user"] *)
Definition stopped_by_user : string :=
  let newline := Ascii.ascii_of_nat 10 in
  String newline (String newline "Stopped by user").

(** The inner [try: script_module.run(...) except Exception as e: print(...)]
    of both loops.  The exception that escapes it, if any, is returned. *)
Definition run_policy (step : script_step) (self : Actions)
  : Actions * list out * option py.exn :=
  let self1 := declare (calls step) self in
  match raises step with
  | None => (self1, [], None)
  | Some e =>
      if py.is_Exception e
      then (self1, [print ("[ERROR] Script error: " +:+ py.str e)], None)
      else (self1, [], Some e)
  end.

(** [sleep_time = frame_time - elapsed; if sleep_time > 0: time.sleep(...)] *)
Definition pace (frame_time : float) (t : tick) : list out :=
  let sleep_time := (frame_time - spent t)%float in
  if (0 <? sleep_time)%float then [time_sleep sleep_time] else [].

(** The status line of [run_script_loop]: [frame_count / elapsed] is not
    guarded there. *)
Definition log_unguarded (fps : Z) (verbose : bool) (frame_count : Z) (t : tick)
  : list out * option py.exn :=
  if verbose && (frame_count mod fps =? 0) then
    match py.int_div_float frame_count (elapsed_total t) with
    | py.Ok _ => ([print_status], None)
    | py.Raise e => ([], Some e)
    end
  else ([], None).

(** The status line of [run_script_timed]:
    [frame_count / elapsed if elapsed > 0 else 0]. *)
Definition log_guarded (fps : Z) (verbose : bool) (frame_count : Z) (t : tick)
  : list out * option py.exn :=
  if verbose && (frame_count mod fps =? 0) then
    if (0 <? elapsed_total t)%float then
      match py.int_div_float frame_count (elapsed_total t) with
      | py.Ok _ => ([print_status], None)
      | py.Raise e => ([], Some e)
      end
    else ([print_status], None)
  else ([], None).

(** The rest of either [while] body after the policy, given its status-line
    step: [actions.flush()], the count, the status line, the pacing.  An
    exception ends the iteration where it is raised. *)
Definition after_policy
    (log : Z -> bool -> Z -> tick -> list out * option py.exn)
    (fps : Z) (frame_time : float) (verbose : bool)
    (frame_count : Z) (t : tick) (self1 : Actions)
  : Actions * list out * option py.exn :=
  let '(self2, evs) := flush self1 in
  let '(out3, failed) := log fps verbose (frame_count + 1) t in
  match failed with
  | Some e => (self2, (dev <$> evs) ++ out3, Some e)
  | None =>
      (self2, (dev <$> evs) ++ out3 ++ pace frame_time t,
       if interrupt t then Some py.KeyboardInterrupt else None)
  end.

(** One iteration of either [while] body: the policy, then the rest unless
    an exception escaped the policy's [try]. *)
Definition iteration
    (log : Z -> bool -> Z -> tick -> list out * option py.exn)
    (script : script_module) (fps : Z) (frame_time : float) (verbose : bool)
    (frame_count : Z) (t : tick) (self : Actions)
  : Actions * list out * option py.exn :=
  let '(self1, out1, escaped) := run_policy (run script frame_count) self in
  match escaped with
  | Some e => (self1, out1, Some e)
  | None =>
      let '(self2, out2, exc) :=
        after_policy log fps frame_time verbose frame_count t self1 in
      (self2, out1 ++ out2, exc)
  end.

(** The [while True] of [run_script_loop], from a frame count on. *)
Fixpoint loop_from (script : script_module) (fps : Z) (frame_time : float)
    (verbose : bool) (frame_count : Z) (ticks : list tick) (self : Actions)
  : Actions * list out * ended :=
  match ticks with
  | [] => (self, [], running)
  | t :: rest =>
      let '(self1, out1, exc) :=
        iteration log_unguarded script fps frame_time verbose frame_count t self in
      match exc with
      | Some e => (self1, out1, raised e)
      | None =>
          let '(self2, out2, r) :=
            loop_from script fps frame_time verbose (frame_count + 1) rest self1 in
          (self2, out1 ++ out2, r)
      end
  end.

(** [run_script_loop]: [except KeyboardInterrupt] turns the interrupt into a
    normal return; any other exception propagates. *)
Definition run_script_loop (script : script_module) (fps : Z) (verbose : bool)
    (ticks : list tick) (self : Actions) : Actions * list out * ended :=
  match py.float_div_int 1.0 fps with
  | py.Raise e => (self, [], raised e)
  | py.Ok frame_time =>
      let '(self1, out1, r) :=
        loop_from script fps frame_time verbose 0 ticks self in
      match r with
      | raised py.KeyboardInterrupt =>
          (self1, print_banner :: out1 ++ [print stopped_by_user], returned)
      | _ => (self1, print_banner :: out1, r)
      end
  end.

(** The [while not stop_event.is_set()] of [run_script_timed]. *)
Fixpoint timed_from (script : script_module) (fps : Z) (frame_time : float)
    (verbose : bool) (frame_count : Z) (ticks : list tick) (self : Actions)
  : Actions * list out * ended :=
  match ticks with
  | [] => (self, [], running)
  | t :: rest =>
      if stop_is_set t then (self, [], returned)
      else
        let '(self1, out1, exc) :=
          iteration log_guarded script fps frame_time verbose frame_count t self in
        match exc with
        | Some e => (self1, out1, raised e)
        | None =>
            let '(self2, out2, r) :=
              timed_from script fps frame_time verbose (frame_count + 1) rest self1 in
            (self2, out1 ++ out2, r)
        end
  end.

(** [run_script_timed]: the [finally] runs [actions.release_all()] however
    the [try] block is left.  ([frame_time] is computed before the [try].) *)
Definition run_script_timed (script : script_module) (fps : Z) (verbose : bool)
    (ticks : list tick) (self : Actions) : Actions * list out * ended :=
  match py.float_div_int 1.0 fps with
  | py.Raise e => (self, [], raised e)
  | py.Ok frame_time =>
      let '(self1, out1, r) :=
        timed_from script fps frame_time verbose 0 ticks self in
      match r with
      | running => (self1, out1, running)
      | _ =>
          let '(self2, evs) := release_all self1 in
          (self2, out1 ++ (dev <$> evs), r)
      end
  end.

(** [TrackerService.stop()] as the runner's output shows it: the service
    clears its flag and joins its thread, then prints its line. *)
Definition tracker_stop : list out := [print "[TrackerService] Stopped"].

(** The [try: run_script_loop(...) finally: actions.release_all();
    tracker.stop(); print("Tracker stopped")] at the end of [main]. *)
Definition main_loop (script : script_module) (fps : Z) (verbose : bool)
    (ticks : list tick) (self : Actions) : Actions * list out * ended :=
  let '(self1, out1, r) := run_script_loop script fps verbose ticks self in
  match r with
  | running => (self1, out1, running)
  | _ =>
      let '(self2, evs) := release_all self1 in
      (self2,
       out1 ++ (dev <$> evs) ++ tracker_stop ++ [print "Tracker stopped"], r)
  end.

(** *** A frame left from inside [flush] *)

(** A frame that an exception leaves from inside [flush]: the policy, then
    [flush] up to its [n]-th device call.  [None]: an exception of the policy
    ends the frame before, or [flush] makes no such call. *)
Definition cut_frame (script : script_module) (frame_count : Z) (n : nat)
    (self : Actions) : option (Actions * list out) :=
  let '(self1, out1, escaped) := run_policy (run script frame_count) self in
  match escaped with
  | Some _ => None
  | None =>
      (fun x : Actions * list dev_event => (x.1, out1 ++ (dev <$> x.2)))
        <$> flush_cut n self1
  end.

(** [run_script_timed] when the frames of [ticks] run in full and the next
    frame (number [length ticks]) is left by [e] from inside [flush]: the
    [finally] runs [release_all] on the bookkeeping as that call found it,
    and [e] propagates.  [None]: there is no such run. *)
Definition run_script_timed_cut (script : script_module) (fps : Z)
    (verbose : bool) (ticks : list tick) (n : nat) (e : py.exn)
    (self : Actions) : option (Actions * list out * ended) :=
  match py.float_div_int 1.0 fps with
  | py.Raise _ => None
  | py.Ok frame_time =>
      let '(self1, out1, r) :=
        timed_from script fps frame_time verbose 0 ticks self in
      match r with
      | running =>
          (fun x : Actions * list out =>
             let '(self3, evs) := release_all x.1 in
             (self3, out1 ++ x.2 ++ (dev <$> evs), raised e))
            <$> cut_frame script (Z.of_nat (length ticks)) n self1
      | _ => None
      end
  end.

(** [except KeyboardInterrupt] *)
Definition is_KeyboardInterrupt (e : py.exn) : bool :=
  match e with
  | py.KeyboardInterrupt => true
  | _ => false
  end.

(** [run_script_loop] in the same situation: Ctrl+C is caught and reported,
    anything else propagates. *)
Definition run_script_loop_cut (script : script_module) (fps : Z)
    (verbose : bool) (ticks : list tick) (n : nat) (e : py.exn)
    (self : Actions) : option (Actions * list out * ended) :=
  match py.float_div_int 1.0 fps with
  | py.Raise _ => None
  | py.Ok frame_time =>
      let '(self1, out1, r) :=
        loop_from script fps frame_time verbose 0 ticks self in
      match r with
      | running =>
          (fun x : Actions * list out =>
             if is_KeyboardInterrupt e
             then (x.1, print_banner :: out1 ++ x.2 ++ [print stopped_by_user],
                   returned)
             else (x.1, print_banner :: out1 ++ x.2, raised e))
            <$> cut_frame script (Z.of_nat (length ticks)) n self1
      | _ => None
      end
  end.

(** The [try] / [finally] of [main] around it. *)
Definition main_loop_cut (script : script_module) (fps : Z)
    (verbose : bool) (ticks : list tick) (n : nat) (e : py.exn)
    (self : Actions) : option (Actions * list out * ended) :=
  (fun x : Actions * list out * ended =>
     let '(self2, evs) := release_all x.1.1 in
     (self2,
      x.1.2 ++ (dev <$> evs) ++ tracker_stop ++ [print "Tracker stopped"],
      x.2))
    <$> run_script_loop_cut script fps verbose ticks n e self.

(** The keyboard and mouse as the device calls leave them. *)
Record device := mkDevice {
  keys_down : gset string;
  button_down : bool
}.

(** The effect of one device call; [press] is a key-down followed by a
    key-up, so it leaves the key up. *)
Definition dev_step (d : device) (e : dev_event) : device :=
  match e with
  | keyDown k => mkDevice ({[k]} ∪ keys_down d) (button_down d)
  | keyUp k | press k => mkDevice (keys_down d ∖ {[k]}) (button_down d)
  | mouseDown => mkDevice (keys_down d) true
  | mouseUp => mkDevice (keys_down d) false
  | moveTo _ _ | sleep _ => d
  end.

Definition out_step (d : device) (o : out) : device :=
  match o with
  | dev e => dev_step d e
  | _ => d
  end.

(** The bookkeeping of [Actions] agrees with the device. *)
Definition mirrors (self : Actions) (d : device) : Prop :=
  _held_keys self = keys_down d /\ _mouse_is_down self = button_down d.

(** Nothing is held, in the bookkeeping and on the device. *)
Definition all_released (self : Actions) (d : device) : Prop :=
  _held_keys self = ∅ /\ _mouse_is_down self = false /\
  keys_down d = ∅ /\ button_down d = false.

(** What the device shows once [release_all] has run after an exception
    left [flush] in the call [c]: a key that [keyDown] had just pressed, or
    the button after [mouseDown], is still down; after any other call
    nothing is. *)
Definition left_down (c : dev_event) (d : device) : Prop :=
  match c with
  | keyDown k => k ∈ keys_down d
  | mouseDown => button_down d = true
  | _ => keys_down d = ∅ /\ button_down d = false
  end.

(** Output put in front of what a loop emits. *)
Definition prepend (o : list out) (x : Actions * list out * ended)
  : Actions * list out * ended :=
  (x.1.1, o ++ x.1.2, x.2).

(** *** The device under [flush] and [release_all] *)

Lemma foldl_keyUp d (l : list string) :
  foldl dev_step d (keyUp <$> l)
  = mkDevice (keys_down d ∖ list_to_set l) (button_down d).
Proof.
  revert d. induction l as [|k l IH]; intros d; cbn.
  - destruct d. cbn. f_equal. set_solver.
  - rewrite IH. cbn. f_equal. set_solver.
Qed.

Lemma foldl_keyDown d (l : list string) :
  foldl dev_step d (keyDown <$> l)
  = mkDevice (list_to_set l ∪ keys_down d) (button_down d).
Proof.
  revert d. induction l as [|k l IH]; intros d; cbn.
  - destruct d. cbn. f_equal. set_solver.
  - rewrite IH. cbn. f_equal. set_solver.
Qed.

Lemma foldl_dev d (evs : list dev_event) :
  foldl out_step d (dev <$> evs) = foldl dev_step d evs.
Proof. revert d. induction evs as [|e evs IH]; intros d; cbn; auto. Qed.

Lemma flush_dash_mirrors held dashes d :
  held = keys_down d ->
  (flush_dash held dashes).1
    = keys_down (foldl dev_step d (flush_dash held dashes).2) /\
  button_down (foldl dev_step d (flush_dash held dashes).2) = button_down d.
Proof.
  intros ->. destruct dashes as [|direction rest]; [done|].
  cbn [flush_dash].
  case_decide; cbn [fst snd app foldl dev_step keys_down button_down];
    (split; [set_solver|done]).
Qed.

Lemma flush_keys_mirrors held desired d :
  held = keys_down d ->
  keys_down (foldl dev_step d (flush_keys held desired)) = desired /\
  button_down (foldl dev_step d (flush_keys held desired)) = button_down d.
Proof.
  intros ->. unfold flush_keys.
  rewrite foldl_app, foldl_keyUp, foldl_keyDown. cbn.
  rewrite !list_to_set_elements_L. split; [|done].
  apply set_eq. intros k. rewrite elem_of_union, !elem_of_difference.
  destruct (decide (k ∈ keys_down d)), (decide (k ∈ desired)); tauto.
Qed.

Lemma flush_mirrors self d :
  mirrors self d -> mirrors (flush self).1 (foldl dev_step d (flush self).2).
Proof.
  intros [Hk Hb]. rewrite flush_state, flush_events, !foldl_app.
  destruct (flush_dash_mirrors _ (_queued_dashes self) d Hk) as [Hk1 Hb1].
  destruct (flush_keys_mirrors _ (_desired_keys self) _ Hk1) as [Hk2 Hb2].
  set (d2 := foldl dev_step (foldl dev_step d _) (flush_keys _ _)) in *.
  assert (foldl dev_step d2 (flush_aim (_mouse_target self)) = d2) as ->.
  { by destruct (_mouse_target self) as [[??]|]. }
  unfold mirrors. cbn [_held_keys _mouse_is_down].
  rewrite Hb, <- Hb1, <- Hb2. clear -Hk2.
  destruct (_want_attack self), (button_down d2) eqn:E; cbn; by rewrite ?E.
Qed.

Lemma release_all_releases self d :
  mirrors self d ->
  all_released (release_all self).1
               (foldl dev_step d (release_all self).2).
Proof.
  intros [Hk Hb]. unfold release_all. cbn [fst snd].
  rewrite foldl_app, foldl_keyUp, list_to_set_elements_L, Hk, Hb.
  unfold all_released. cbn [_held_keys _mouse_is_down].
  split; [done|]. split; [done|].
  destruct (button_down d); cbn; split; try done; set_solver.
Qed.

(** *** The device when [flush] is left part-way *)

Lemma release_all_device self d :
  keys_down (foldl dev_step d (release_all self).2)
  = keys_down d ∖ _held_keys self /\
  button_down (foldl dev_step d (release_all self).2)
  = (if _mouse_is_down self then false else button_down d).
Proof.
  unfold release_all. cbn [fst snd].
  rewrite foldl_app, foldl_keyUp, list_to_set_elements_L.
  by destruct (_mouse_is_down self).
Qed.

(** [release_all] undoes what the bookkeeping lists, and only that. *)
Lemma left_down_released c s d :
  match c with
  | keyDown k => k ∈ keys_down d /\ k ∉ _held_keys s
  | mouseDown => button_down d = true /\ _mouse_is_down s = false
  | _ => keys_down d ⊆ _held_keys s /\
         (button_down d = true -> _mouse_is_down s = true)
  end ->
  left_down c (foldl dev_step d (release_all s).2).
Proof.
  destruct (release_all_device s d) as [Hk Hb]. unfold left_down.
  assert (keys_down d ⊆ _held_keys s /\
          (button_down d = true -> _mouse_is_down s = true) ->
          keys_down (foldl dev_step d (release_all s).2) = ∅ /\
          button_down (foldl dev_step d (release_all s).2) = false) as Hrest.
  { intros [H1 H2]. rewrite Hk, Hb. split; [set_solver|].
    destruct (_mouse_is_down s); [done|].
    destruct (button_down d); [by discriminate H2|done]. }
  destruct c; try exact Hrest.
  - intros [H1 H2]. rewrite Hk. set_solver.
  - intros [H1 H2]. by rewrite Hb, H2.
Qed.

Lemma lookup_take_app {A} (l1 l2 : list A) n x :
  (l1 ++ l2) !! n = Some x ->
  (l1 !! n = Some x /\ take (S n) (l1 ++ l2) = take (S n) l1)
  \/ (exists m, l2 !! m = Some x /\
                take (S n) (l1 ++ l2) = l1 ++ take (S m) l2).
Proof.
  intros [H|[Hle H]]%lookup_app_Some.
  - left. split; [done|]. apply lookup_lt_Some in H.
    by rewrite take_app_le by lia.
  - right. exists (n - length l1)%nat. split; [done|].
    rewrite take_app_ge by lia. do 2 f_equal. lia.
Qed.

(** An exception out of the [n]-th device call of [flush], then
    [release_all]: what stays down is what that call had just pressed. *)
Lemma flush_cut_left_down self d n s evs :
  mirrors self d -> flush_cut n self = Some (s, evs) ->
  exists pre c,
    evs = pre ++ [c] /\
    left_down c (foldl dev_step (foldl dev_step d evs) (release_all s).2).
Proof.
  intros [Hk Hb] Hcut. unfold flush_cut in Hcut.
  apply fmap_Some in Hcut as ([c s'] & Hn & [= -> ->]). cbn [snd].
  exists (take n (flush_trace self)).*1, c.
  split; [by rewrite (take_S_r _ _ _ Hn), fmap_app|].
  apply left_down_released.
  revert Hn. unfold flush_trace.
  destruct (flush_dash_mirrors _ (_queued_dashes self) d Hk) as [Hk1 Hb1].
  destruct (flush_dash (_held_keys self) (_queued_dashes self))
    as [held1 ev_dash] eqn:Edash.
  cbn [fst snd] in Hk1, Hb1.
  destruct (flush_keys_mirrors held1 (_desired_keys self) _ Hk1) as [Hk2 Hb2].
  intros Hn.
  apply lookup_take_app in Hn as [[Hn ->] | (m & Hn & ->)].
  { (* in the dash *)
    clear Hk2 Hb2 Hk1 Hb1.
    destruct (_queued_dashes self) as [|direction rest].
    { injection Edash as <- <-. done. }
    cbn [flush_dash] in Edash. revert Edash.
    generalize (dash_key direction). intros key.
    case_decide as Hin; cbn [app]; intros [= <- <-].
    - destruct n as [|[|[|[|n]]]]; try done;
        injection Hn as <- <-;
        cbn [take fmap list_fmap fst snd foldl dev_step keys_down
             button_down during_flush _held_keys _mouse_is_down];
        (split; [set_solver|congruence]).
    - destruct n as [|[|[|n]]]; try done;
        injection Hn as <- <-;
        cbn [take fmap list_fmap fst snd foldl dev_step keys_down
             button_down during_flush _held_keys _mouse_is_down];
        (split; [set_solver|congruence]). }
  rewrite fmap_app, calls_of_trace, foldl_app. clear Edash.
  set (dA := foldl dev_step d ev_dash) in *. clearbody dA.
  apply lookup_take_app in Hn as [[Hn ->] | (m' & Hn & ->)].
  { (* in the two key loops *)
    clear Hk2 Hb2. rewrite <- fmap_take, calls_of_trace.
    apply list_lookup_fmap_Some in Hn as (c' & [= -> ->] & Hn).
    cbn [during_flush _held_keys _mouse_is_down].
    revert Hn. unfold flush_keys. intros Hn.
    apply lookup_take_app in Hn as [[Hn ->] | (j & Hn & ->)].
    - apply list_lookup_fmap_Some in Hn as (k & -> & Hn).
      rewrite <- fmap_take, foldl_keyUp. cbn [keys_down button_down].
      split; [set_solver|congruence].
    - apply list_lookup_fmap_Some in Hn as (k & -> & Hn).
      rewrite foldl_app, <- fmap_take, foldl_keyUp, foldl_keyDown.
      cbn [keys_down button_down].
      assert (k ∈ take (S j) (elements (_desired_keys self ∖ held1))) as Hin.
      { apply list_elem_of_lookup. exists j. rewrite lookup_take_lt by lia. done. }
      assert (k ∈ _desired_keys self ∖ held1) as Hk'.
      { apply elem_of_elements, list_elem_of_lookup. by exists j. }
      set_solver. }
  (* aiming and the button *)
  rewrite fmap_app, calls_of_trace, foldl_app, <- fmap_take, calls_of_trace.
  set (dB := foldl dev_step dA (flush_keys held1 (_desired_keys self))) in *.
  clearbody dB.
  assert (button_down dB = _mouse_is_down self) as Hb3 by congruence.
  clear Hb2 Hb1 Hk1 Hb Hk.
  apply list_lookup_fmap_Some in Hn as (c' & [= -> ->] & Hn).
  cbn [during_flush _held_keys _mouse_is_down].
  revert Hn. unfold flush_button.
  destruct (_mouse_target self) as [[x y]|], (_want_attack self),
    (_mouse_is_down self); cbn [flush_aim andb negb snd app];
    destruct m' as [|[|m']]; intros [= <-];
    cbn [take foldl dev_step keys_down button_down];
    (split; [set_solver|congruence]).
Qed.

(** *** A policy that raises *)

(** C7. In either loop, a frame whose policy raises an [Exception] prints
    the error line and then runs exactly what follows the policy in a frame:
    [flush] on the intents declared before the exception, then count, status
    line and pacing.  Unless something else ends that frame (a failing status
    line, an interrupt), both loops go on with the next tick, from the flushed
    state and the next frame count. *)
Theorem policy_error_is_logged_and_loop_goes_on
  (script : script_module) (fps : Z) (frame_time : float) (verbose : bool)
  (frame_count : Z) (t : tick) (rest : list tick) (self : Actions)
  (e : py.exn) :
  raises (run script frame_count) = Some e -> py.is_Exception e = true ->
  let line := print ("[ERROR] Script error: " +:+ py.str e) in
  let declared := declare (calls (run script frame_count)) self in
  let frame log := after_policy log fps frame_time verbose frame_count t declared in
  (forall log,
      iteration log script fps frame_time verbose frame_count t self
      = ((frame log).1.1, line :: (frame log).1.2, (frame log).2)
      /\ (frame log).1.1 = (flush declared).1
      /\ exists tail, (frame log).1.2 = (dev <$> (flush declared).2) ++ tail)
  /\ ((frame log_unguarded).2 = None ->
      loop_from script fps frame_time verbose frame_count (t :: rest) self
      = prepend (line :: (frame log_unguarded).1.2)
          (loop_from script fps frame_time verbose (frame_count + 1) rest
             (flush declared).1))
  /\ (stop_is_set t = false -> (frame log_guarded).2 = None ->
      timed_from script fps frame_time verbose frame_count (t :: rest) self
      = prepend (line :: (frame log_guarded).1.2)
          (timed_from script fps frame_time verbose (frame_count + 1) rest
             (flush declared).1)).
Proof.
  intros Hraise Hexc line declared frame.
  assert (forall log,
             iteration log script fps frame_time verbose frame_count t self
             = ((frame log).1.1, line :: (frame log).1.2, (frame log).2)
             /\ (frame log).1.1 = (flush declared).1
             /\ exists tail,
                 (frame log).1.2 = (dev <$> (flush declared).2) ++ tail)
    as Hframe.
  { intros log. unfold iteration, run_policy. rewrite Hraise, Hexc.
    fold declared. subst frame. cbn beta.
    unfold after_policy. destruct (flush declared) as [self2 evs].
    destruct (log fps verbose (frame_count + 1) t) as [out3 [e'|]];
      cbn [fst snd app]; (split; [done|split; [done|by eexists]]). }
  split; [exact Hframe|]. split.
  - intros Hgo. cbn [loop_from].
    destruct (Hframe log_unguarded) as (-> & Hst & _). rewrite Hgo, <- Hst.
    by destruct (loop_from _ _ _ _ _ rest _) as [[??]?].
  - intros Hstop Hgo. cbn [timed_from]. rewrite Hstop.
    destruct (Hframe log_guarded) as (-> & Hst & _). rewrite Hgo, <- Hst.
    by destruct (timed_from _ _ _ _ _ rest _) as [[??]?].
Qed.

(** *** Leaving the loops *)

(** Output that is no device call leaves the device as it is. *)
Definition quiet (o : list out) : Prop := Forall (fun x => forall e, x ≠ dev e) o.

Lemma foldl_quiet d o : quiet o -> foldl out_step d o = d.
Proof.
  induction 1 as [|x o Hx _ IH]; [done|]. cbn. rewrite <- IH at 2.
  f_equal. destruct x; try done. by destruct (Hx e).
Qed.

Lemma quiet_pace ft t : quiet (pace ft t).
Proof. unfold pace. destruct (0 <? _)%float; by repeat constructor. Qed.

Lemma quiet_log_unguarded fps verbose fc t :
  quiet (log_unguarded fps verbose fc t).1.
Proof.
  unfold log_unguarded. destruct (_ && _); [|constructor].
  destruct (py.int_div_float _ _); by repeat constructor.
Qed.

Lemma quiet_log_guarded fps verbose fc t :
  quiet (log_guarded fps verbose fc t).1.
Proof.
  unfold log_guarded. destruct (_ && _); [|constructor].
  destruct (0 <? _)%float; [|by repeat constructor].
  destruct (py.int_div_float _ _); by repeat constructor.
Qed.

Lemma quiet_run_policy step self :
  quiet (run_policy step self).1.2 /\
  (run_policy step self).1.1 = declare (calls step) self.
Proof.
  unfold run_policy. destruct (raises step) as [e|]; [|by split; [constructor|]].
  destruct (py.is_Exception e); split; by repeat constructor.
Qed.

(** An iteration keeps the bookkeeping in step with the device. *)
Lemma iteration_mirrors log script fps ft verbose fc t self d :
  (forall fps verbose fc t, quiet (log fps verbose fc t).1) ->
  mirrors self d ->
  mirrors (iteration log script fps ft verbose fc t self).1.1
          (foldl out_step d (iteration log script fps ft verbose fc t self).1.2).
Proof.
  intros Hlog [Hk Hb]. unfold iteration.
  destruct (quiet_run_policy (run script fc) self) as [Hq Hs].
  destruct (run_policy (run script fc) self) as [[self1 out1] escaped].
  cbn [fst snd] in Hq, Hs. subst self1.
  assert (mirrors (declare (calls (run script fc)) self) d) as Hm.
  { destruct (declare_held (calls (run script fc)) self) as [Hk' Hb'].
    split; congruence. }
  destruct escaped as [e|]; cbn [fst snd]; [by rewrite foldl_quiet|].
  unfold after_policy.
  pose proof (flush_mirrors _ d Hm) as Hf.
  destruct (flush _) as [self2 evs]. cbn [fst snd] in Hf.
  specialize (Hlog fps verbose (fc + 1) t).
  destruct (log fps verbose (fc + 1) t) as [out3 [e|]]; cbn [fst snd] in *.
  - rewrite !foldl_app, (foldl_quiet d out1), foldl_dev by done.
    by rewrite foldl_quiet.
  - rewrite !foldl_app, (foldl_quiet d out1), foldl_dev by done.
    rewrite (foldl_quiet _ out3) by done.
    by rewrite foldl_quiet by apply quiet_pace.
Qed.

Lemma loop_from_mirrors script fps ft verbose ticks :
  forall fc self d,
    mirrors self d ->
    mirrors (loop_from script fps ft verbose fc ticks self).1.1
            (foldl out_step d (loop_from script fps ft verbose fc ticks self).1.2).
Proof.
  induction ticks as [|t rest IH]; intros fc self d Hm; [done|].
  cbn [loop_from].
  pose proof (iteration_mirrors log_unguarded script fps ft verbose fc t self d
                quiet_log_unguarded Hm) as Hi.
  destruct (iteration _ _ _ _ _ _ _ _) as [[self1 out1] [e|]];
    cbn [fst snd] in *; [done|].
  specialize (IH (fc + 1) self1 _ Hi).
  destruct (loop_from _ _ _ _ _ rest _) as [[self2 out2] r].
  cbn [fst snd] in *. by rewrite foldl_app.
Qed.

Lemma timed_from_mirrors script fps ft verbose ticks :
  forall fc self d,
    mirrors self d ->
    mirrors (timed_from script fps ft verbose fc ticks self).1.1
            (foldl out_step d (timed_from script fps ft verbose fc ticks self).1.2).
Proof.
  induction ticks as [|t rest IH]; intros fc self d Hm; [done|].
  cbn [timed_from]. destruct (stop_is_set t); [done|].
  pose proof (iteration_mirrors log_guarded script fps ft verbose fc t self d
                quiet_log_guarded Hm) as Hi.
  destruct (iteration _ _ _ _ _ _ _ _) as [[self1 out1] [e|]];
    cbn [fst snd] in *; [done|].
  specialize (IH (fc + 1) self1 _ Hi).
  destruct (timed_from _ _ _ _ _ rest _) as [[self2 out2] r].
  cbn [fst snd] in *. by rewrite foldl_app.
Qed.

(** A stop request ends the bounded loop, an interrupt the unbounded one. *)
Lemma timed_from_stops script fps ft verbose ticks :
  forall fc self,
    Exists (fun t => stop_is_set t = true) ticks ->
    (timed_from script fps ft verbose fc ticks self).2 ≠ running.
Proof.
  induction ticks as [|t rest IH]; intros fc self Hex.
  { by apply Exists_nil in Hex. }
  cbn [timed_from]. destruct (stop_is_set t) eqn:Hs; [done|].
  apply Exists_cons in Hex as [Hex|Hex]; [congruence|].
  destruct (iteration _ _ _ _ _ _ _ _) as [[self1 out1] [e|]]; [done|].
  specialize (IH (fc + 1) self1 Hex).
  by destruct (timed_from _ _ _ _ _ rest _) as [[??]?].
Qed.

Lemma iteration_interrupted log script fps ft verbose fc t self :
  interrupt t = true ->
  (iteration log script fps ft verbose fc t self).2 ≠ None.
Proof.
  intros Hi. unfold iteration, after_policy.
  destruct (run_policy _ _) as [[self1 out1] [e|]]; [done|].
  destruct (flush _) as [self2 evs].
  destruct (log _ _ _ _) as [out3 [e|]]; [done|]. by rewrite Hi.
Qed.

Lemma loop_from_interrupted script fps ft verbose ticks :
  forall fc self,
    Exists (fun t => interrupt t = true) ticks ->
    (loop_from script fps ft verbose fc ticks self).2 ≠ running.
Proof.
  induction ticks as [|t rest IH]; intros fc self Hex.
  { by apply Exists_nil in Hex. }
  cbn [loop_from].
  pose proof (iteration_interrupted log_unguarded script fps ft verbose fc t self)
    as Hint.
  destruct (iteration _ _ _ _ _ _ _ _) as [[self1 out1] [e|]]; [done|].
  apply Exists_cons in Hex as [Hex|Hex]; [by destruct (Hint Hex)|].
  specialize (IH (fc + 1) self1 Hex).
  by destruct (loop_from _ _ _ _ _ rest _) as [[??]?].
Qed.

Lemma run_script_loop_mirrors script fps verbose ticks self d :
  mirrors self d ->
  mirrors (run_script_loop script fps verbose ticks self).1.1
          (foldl out_step d (run_script_loop script fps verbose ticks self).1.2).
Proof.
  intros Hm. unfold run_script_loop.
  destruct (py.float_div_int 1 fps) as [ft|e]; [|done].
  pose proof (loop_from_mirrors script fps ft verbose ticks 0 self d Hm) as Hl.
  destruct (loop_from _ _ _ _ _ _ _) as [[self1 out1] r]. cbn [fst snd] in *.
  destruct r as [|[]|]; cbn [fst snd foldl out_step]; try done.
  by rewrite foldl_app.
Qed.

Lemma cut_frame_left_down script fc n self d self2 out2 :
  mirrors self d -> cut_frame script fc n self = Some (self2, out2) ->
  exists pre c,
    out2 = pre ++ [dev c] /\
    left_down c (foldl dev_step (foldl out_step d out2) (release_all self2).2).
Proof.
  intros [Hk Hb]. unfold cut_frame.
  destruct (quiet_run_policy (run script fc) self) as [Hq Hs].
  destruct (run_policy (run script fc) self) as [[self1 out1] escaped].
  cbn [fst snd] in Hq, Hs. subst self1.
  destruct escaped as [e|]; [done|].
  intros ([s evs] & Hcut & [= -> ->])%fmap_Some.
  assert (mirrors (declare (calls (run script fc)) self) d) as Hm.
  { destruct (declare_held (calls (run script fc)) self) as [Hk' Hb'].
    split; congruence. }
  destruct (flush_cut_left_down _ d n s evs Hm Hcut) as (pre & c & -> & Hl).
  exists (out1 ++ (dev <$> pre)), c. split.
  { by rewrite fmap_app, app_assoc. }
  by rewrite foldl_app, (foldl_quiet d out1), foldl_dev.
Qed.

(** C8, as the code has it.  The bookkeeping of [Actions] agrees with the
    device when the loop starts.

    [run_script_timed]: when [1.0 / fps] is computed, a stop request ends the
    loop, and however the [try] block is left at the points the loop model
    has (the stop request, an exception that escapes the policy's handler, a
    failing status line, Ctrl+C during the pacing) the [finally] has run
    [release_all]: the state is the one it leaves, the output ends with its
    device calls, and nothing is held, in the bookkeeping and on the device.
    When [1.0 / fps] raises ([fps = 0]) the function is left before its [try]:
    no device call is made and the state is untouched.

    [run_script_loop] releases nothing itself; its caller [main] does so in
    the [finally] around it, followed by [tracker.stop()] and "Tracker
    stopped", also when [run_script_loop] raises.  Ctrl+C ends that loop.

    [release_all] releases what the bookkeeping lists.  When, after the
    frames of [before], an exception [e] leaves [flush] from inside its
    [n]-th device call, the [finally] of either function still runs
    [release_all], but a key that [keyDown] had just pressed, or the button
    after [mouseDown], stays down; after any other call nothing does. *)
Theorem timed_loop_and_main_release_on_exit
  (script : script_module) (fps : Z) (verbose : bool)
  (ticks : list tick) (self : Actions) (d : device)
  (before : list tick) (n : nat) (e : py.exn) :
  mirrors self d ->
  (let x := run_script_timed script fps verbose ticks self in
   match py.float_div_int 1.0 fps with
   | py.Ok _ =>
       (Exists (fun t => stop_is_set t = true) ticks -> x.2 ≠ running) /\
       (x.2 ≠ running ->
        all_released x.1.1 (foldl out_step d x.1.2) /\
        exists self1 out1,
          x.1.1 = (release_all self1).1 /\
          x.1.2 = out1 ++ (dev <$> (release_all self1).2))
   | py.Raise e' => x = (self, [], raised e')
   end)
  /\ (let x := main_loop script fps verbose ticks self in
      (Exists (fun t => interrupt t = true) ticks -> x.2 ≠ running) /\
      (x.2 ≠ running ->
       all_released x.1.1 (foldl out_step d x.1.2) /\
       exists self1 out1,
         x.1.1 = (release_all self1).1 /\
         x.1.2 = out1 ++ (dev <$> (release_all self1).2)
                      ++ [print "[TrackerService] Stopped";
                          print "Tracker stopped"]))
  /\ (forall x,
        run_script_timed_cut script fps verbose before n e self = Some x ->
        x.2 = raised e /\
        exists self1 out1 c,
          x.1.1 = (release_all self1).1 /\
          x.1.2 = out1 ++ dev c :: (dev <$> (release_all self1).2) /\
          left_down c (foldl out_step d x.1.2))
  /\ (forall x,
        main_loop_cut script fps verbose before n e self = Some x ->
        x.2 = (if is_KeyboardInterrupt e then returned else raised e) /\
        exists self1 out1 c,
          x.1.1 = (release_all self1).1 /\
          x.1.2 = out1 ++ dev c ::
                    (if is_KeyboardInterrupt e
                     then [print stopped_by_user] else [])
                    ++ (dev <$> (release_all self1).2)
                    ++ [print "[TrackerService] Stopped";
                        print "Tracker stopped"] /\
          left_down c (foldl out_step d x.1.2)).
Proof.
  intros Hm. split; [|split; [|split]].
  - unfold run_script_timed.
    destruct (py.float_div_int 1 fps) as [frame_time|e']; [|done].
    pose proof (timed_from_mirrors script fps frame_time verbose ticks 0 self d Hm)
      as Hl.
    pose proof (timed_from_stops script fps frame_time verbose ticks 0 self)
      as Hstop.
    destruct (timed_from _ _ _ _ _ _ _) as [[self1 out1] r].
    cbn [fst snd] in *.
    pose proof (release_all_releases self1 _ Hl) as Hrel.
    destruct (release_all self1) as [self2 evs] eqn:Er. cbn [fst snd] in *.
    destruct r as [|e'|]; cbn [fst snd].
    + split; [done|]. intros _.
      rewrite foldl_app, foldl_dev. split; [done|]. by exists self1, out1; rewrite Er.
    + split; [done|]. intros _.
      rewrite foldl_app, foldl_dev. split; [done|]. by exists self1, out1; rewrite Er.
    + split; [done|]. done.
  - unfold main_loop, tracker_stop.
    pose proof (run_script_loop_mirrors script fps verbose ticks self d Hm) as Hl.
    assert (Exists (fun t => interrupt t = true) ticks ->
            (run_script_loop script fps verbose ticks self).2 ≠ running) as Hint.
    { intros Hex. unfold run_script_loop.
      destruct (py.float_div_int 1 fps) as [frame_time|e']; [|done].
      pose proof (loop_from_interrupted script fps frame_time verbose ticks
                    0 self Hex) as Hne.
      destruct (loop_from _ _ _ _ _ _ _) as [[self1 out1] r].
      cbn [snd] in Hne. by destruct r as [|[]|]. }
    destruct (run_script_loop _ _ _ _ _) as [[self1 out1] r].
    cbn [fst snd] in *.
    pose proof (release_all_releases self1 _ Hl) as Hrel.
    destruct (release_all self1) as [self2 evs] eqn:Er. cbn [fst snd] in *.
    destruct r as [|e'|]; cbn [fst snd app].
    + split; [done|]. intros _.
      rewrite !foldl_app, foldl_dev. split; [done|]. by exists self1, out1; rewrite Er.
    + split; [done|]. intros _.
      rewrite !foldl_app, foldl_dev. split; [done|]. by exists self1, out1; rewrite Er.
    + split; [done|]. done.
  - intros x. unfold run_script_timed_cut.
    destruct (py.float_div_int 1 fps) as [frame_time|e']; [|done].
    pose proof (timed_from_mirrors script fps frame_time verbose before 0 self d Hm)
      as Hl.
    destruct (timed_from _ _ _ _ _ _ _) as [[self1 out1] r].
    cbn [fst snd] in Hl. destruct r as [|e'|]; try done.
    intros ([self2 out2] & Hcut & ->)%fmap_Some. cbn [fst snd].
    destruct (cut_frame_left_down _ _ _ _ _ _ _ Hl Hcut) as (pre & c & -> & Hld).
    destruct (release_all self2) as [self3 evs] eqn:Er. cbn [fst snd] in *.
    split; [done|]. exists self2, (out1 ++ pre), c. rewrite Er. cbn [fst snd].
    split; [done|]. split; [by rewrite <- !app_assoc|].
    by rewrite !foldl_app, foldl_dev, <- foldl_app.
  - intros x. unfold main_loop_cut, run_script_loop_cut, tracker_stop.
    destruct (py.float_div_int 1 fps) as [frame_time|e']; [|done].
    pose proof (loop_from_mirrors script fps frame_time verbose before 0 self d Hm)
      as Hl.
    destruct (loop_from _ _ _ _ _ _ _) as [[self1 out1] r].
    cbn [fst snd] in Hl. destruct r as [|e'|]; try done.
    intros (y & ([self2 out2] & Hcut & ->)%fmap_Some & ->)%fmap_Some.
    destruct (cut_frame_left_down _ _ _ _ _ _ _ Hl Hcut) as (pre & c & -> & Hld).
    rewrite foldl_app in Hld.
    destruct (is_KeyboardInterrupt e); cbn [fst snd];
      destruct (release_all self2) as [self3 evs] eqn:Er; cbn [fst snd app] in *;
      (split; [done|]); exists self2, (print_banner :: out1 ++ pre), c;
      rewrite Er; cbn [fst snd app];
      (split; [done|]);
      (split; [by rewrite <- !app_assoc|]);
      cbn [foldl out_step]; rewrite !foldl_app, foldl_dev;
      cbn [foldl out_step]; exact Hld.
Qed.

(** *** Example runs *)

(** A policy that holds "a" and attacks every frame. *)
Definition hold_left : script_module :=
  mkScript "hold_left" (fun _ => mkStep [MoveLeft; AttackAt 800 400] None).

(** A policy that declares "a" and then fails in its first frame. *)
Definition fails_once : script_module :=
  mkScript "fails_once"
    (fun n => mkStep [MoveLeft]
                (if decide (n = 0) then Some (py.Exception "boom") else None)).

Definition plain_tick : tick := mkTick false 1.0 0.001 false.
Definition ctrl_c : tick := mkTick false 1.0 0.001 true.
Definition stop_tick : tick := mkTick true 1.0 0.001 false.

(** A device call that releases something. *)
Definition is_release (o : out) : bool :=
  match o with
  | dev (keyUp _) | dev mouseUp => true
  | _ => false
  end.

(** Ctrl+C in the second frame of [run_script_loop]: the function returns
    normally with "a" and the mouse button still held, in the bookkeeping
    and on the device, and has made no [keyUp] and no [mouseUp] call. *)
Lemma run_script_loop_returns_with_keys_held :
  let x := run_script_loop hold_left 60 false [plain_tick; ctrl_c] actions.__init__ in
  x.2 = returned
  /\ _held_keys x.1.1 = {["a"]}
  /\ _mouse_is_down x.1.1 = true
  /\ filter is_release x.1.2 = []
  /\ keys_down (foldl out_step (mkDevice ∅ false) x.1.2) = {["a"]}
  /\ button_down (foldl out_step (mkDevice ∅ false) x.1.2) = true.
Proof. vm_compute. repeat split; reflexivity. Qed.

(** The stop request is set and Ctrl+C arrives in the same frame. *)
Definition stop_and_ctrl_c : tick := mkTick true 1.0 0.001 true.

(** Two frames of [hold_left], then a frame that ends both loops; and, from
    the start, Ctrl+C inside the first device call of the first flush. *)
Lemma timed_loop_and_main_release_on_exit_witness :
  let d := mkDevice ∅ false in
  let ticks := [plain_tick; plain_tick; stop_and_ctrl_c] in
  let self := actions.__init__ in
  (mirrors self d
   /\ (run_script_timed hold_left 30 false ticks self).2 = returned
   /\ (main_loop hold_left 30 false ticks self).2 = returned
   /\ is_Some (run_script_timed_cut hold_left 30 false [] 0
                 py.KeyboardInterrupt self)
   /\ is_Some (main_loop_cut hold_left 30 false [] 0 py.KeyboardInterrupt self))
  /\ (let x := run_script_timed hold_left 30 false ticks self in
      match py.float_div_int 1.0 30 with
      | py.Ok _ =>
          (Exists (fun t => stop_is_set t = true) ticks -> x.2 ≠ running) /\
          (x.2 ≠ running ->
           all_released x.1.1 (foldl out_step d x.1.2) /\
           exists self1 out1,
             x.1.1 = (release_all self1).1 /\
             x.1.2 = out1 ++ (dev <$> (release_all self1).2))
      | py.Raise e' => x = (self, [], raised e')
      end)
  /\ (let x := main_loop hold_left 30 false ticks self in
      (Exists (fun t => interrupt t = true) ticks -> x.2 ≠ running) /\
      (x.2 ≠ running ->
       all_released x.1.1 (foldl out_step d x.1.2) /\
       exists self1 out1,
         x.1.1 = (release_all self1).1 /\
         x.1.2 = out1 ++ (dev <$> (release_all self1).2)
                      ++ [print "[TrackerService] Stopped";
                          print "Tracker stopped"]))
  /\ (forall x,
        run_script_timed_cut hold_left 30 false [] 0 py.KeyboardInterrupt self
        = Some x ->
        x.2 = raised py.KeyboardInterrupt /\
        exists self1 out1 c,
          x.1.1 = (release_all self1).1 /\
          x.1.2 = out1 ++ dev c :: (dev <$> (release_all self1).2) /\
          left_down c (foldl out_step d x.1.2))
  /\ (forall x,
        main_loop_cut hold_left 30 false [] 0 py.KeyboardInterrupt self
        = Some x ->
        x.2 = (if is_KeyboardInterrupt py.KeyboardInterrupt
               then returned else raised py.KeyboardInterrupt) /\
        exists self1 out1 c,
          x.1.1 = (release_all self1).1 /\
          x.1.2 = out1 ++ dev c ::
                    (if is_KeyboardInterrupt py.KeyboardInterrupt
                     then [print stopped_by_user] else [])
                    ++ (dev <$> (release_all self1).2)
                    ++ [print "[TrackerService] Stopped";
                        print "Tracker stopped"] /\
          left_down c (foldl out_step d x.1.2)).
Proof.
  split.
  - split; [split; reflexivity|].
    split; [vm_compute; reflexivity|].
    split; [vm_compute; reflexivity|].
    split; eexists; vm_compute; reflexivity.
  - apply (timed_loop_and_main_release_on_exit hold_left 30 false
             [plain_tick; plain_tick; stop_and_ctrl_c] actions.__init__
             (mkDevice ∅ false) [] 0 py.KeyboardInterrupt).
    split; reflexivity.
Defined.

(** Ctrl+C inside the [keyDown("a")] of the first flush: [release_all] finds
    nothing listed and makes no device call, the bookkeeping ends empty, and
    "a" is still down when [run_script_timed] and [main] are over. *)
Example interrupt_inside_keyDown_leaves_key_down :
  let d := mkDevice ∅ false in
  (exists self1,
     run_script_timed_cut hold_left 30 false [] 0 py.KeyboardInterrupt
       actions.__init__
     = Some (self1, [dev (keyDown "a")], raised py.KeyboardInterrupt)
     /\ _held_keys self1 = ∅
     /\ keys_down (foldl out_step d [dev (keyDown "a")]) = {["a"]})
  /\ (exists self1,
       main_loop_cut hold_left 30 false [] 0 py.KeyboardInterrupt
         actions.__init__
       = Some (self1,
               [print_banner; dev (keyDown "a"); print stopped_by_user;
                print "[TrackerService] Stopped"; print "Tracker stopped"],
               returned)
       /\ _held_keys self1 = ∅).
Proof.
  split.
  - eexists. split; [vm_compute; reflexivity|]. split; [done|].
    cbn. set_solver.
  - eexists. split; [vm_compute; reflexivity|]. done.
Qed.

(** The same inside [mouseDown()], the third call of that flush: "a" is
    released, the button stays down. *)
Example interrupt_inside_mouseDown_leaves_button_down :
  (fun x : Actions * list out * ended =>
     (x.1.2, button_down (foldl out_step (mkDevice ∅ false) x.1.2)))
    <$> run_script_timed_cut hold_left 30 false [] 2 py.KeyboardInterrupt
          actions.__init__
  = Some ([dev (keyDown "a"); dev (moveTo 800 400); dev mouseDown;
           dev (keyUp "a")], true).
Proof. vm_compute. reflexivity. Qed.

(** [fps = 0]: [run_script_timed] raises before its [try]; a key held when
    it is called is still held. *)
Example timed_zero_fps_releases_nothing :
  let self := (frame [MoveLeft] actions.__init__).1 in
  mirrors self (mkDevice {["a"]} false)
  /\ run_script_timed hold_left 0 false [stop_tick] self
     = (self, [], raised py.ZeroDivisionError)
  /\ _held_keys self = {["a"]}.
Proof.
  split; [split; vm_compute; reflexivity|].
  split; vm_compute; reflexivity.
Qed.

(** The run of [main] in the witness, evaluated: the banner, two frames,
    the third frame until Ctrl+C, then the [finally]. *)
Example main_run_releases :
  (main_loop hold_left 30 false
     [plain_tick; plain_tick; stop_and_ctrl_c] actions.__init__).1.2
  = [print_banner;
     dev (keyDown "a"); dev (moveTo 800 400); dev mouseDown;
     time_sleep (1 / 30 - 0.001)%float;
     dev (moveTo 800 400); time_sleep (1 / 30 - 0.001)%float;
     dev (moveTo 800 400); time_sleep (1 / 30 - 0.001)%float;
     print stopped_by_user;
     dev (keyUp "a"); dev mouseUp;
     print "[TrackerService] Stopped"; print "Tracker stopped"].
Proof. vm_compute. reflexivity. Qed.

(** The bounded run of the witness, evaluated: two frames, then the stop
    request, then the releases of the [finally]. *)
Example timed_run_releases :
  (run_script_timed hold_left 30 false
     [plain_tick; plain_tick; stop_and_ctrl_c] actions.__init__).1.2
  = [dev (keyDown "a"); dev (moveTo 800 400); dev mouseDown;
     time_sleep (1 / 30 - 0.001)%float;
     dev (moveTo 800 400); time_sleep (1 / 30 - 0.001)%float;
     dev (keyUp "a"); dev mouseUp].
Proof. vm_compute. reflexivity. Qed.

Lemma policy_error_is_logged_and_loop_goes_on_witness :
  let line := print "[ERROR] Script error: boom" in
  let declared := declare [MoveLeft] actions.__init__ in
  let frame log := after_policy log 60 (1 / 60)%float true 0 plain_tick declared in
  (forall log,
      iteration log fails_once 60 (1 / 60)%float true 0 plain_tick actions.__init__
      = ((frame log).1.1, line :: (frame log).1.2, (frame log).2)
      /\ (frame log).1.1 = (flush declared).1
      /\ exists tail, (frame log).1.2 = (dev <$> (flush declared).2) ++ tail)
  /\ ((frame log_unguarded).2 = None ->
      loop_from fails_once 60 (1 / 60)%float true 0 [plain_tick; ctrl_c]
                actions.__init__
      = prepend (line :: (frame log_unguarded).1.2)
          (loop_from fails_once 60 (1 / 60)%float true (0 + 1) [ctrl_c]
             (flush declared).1))
  /\ (stop_is_set plain_tick = false -> (frame log_guarded).2 = None ->
      timed_from fails_once 60 (1 / 60)%float true 0 [plain_tick; ctrl_c]
                 actions.__init__
      = prepend (line :: (frame log_guarded).1.2)
          (timed_from fails_once 60 (1 / 60)%float true (0 + 1) [ctrl_c]
             (flush declared).1)).
Proof.
  apply (policy_error_is_logged_and_loop_goes_on fails_once 60 (1 / 60)%float
           true 0 plain_tick [ctrl_c] actions.__init__ (py.Exception "boom"));
    reflexivity.
Defined.

(** The unbounded loop of the witness, evaluated: the error line, the flush
    that presses "a", the pacing; then the second frame until Ctrl+C. *)
Example failing_policy_run :
  run_script_loop fails_once 60 false [plain_tick; ctrl_c] actions.__init__
  = (actions.mkActions {["a"]} false ∅ None false [],
     [print_banner;
      print "[ERROR] Script error: boom"; dev (keyDown "a");
      time_sleep (1 / 60 - 0.001)%float;
      time_sleep (1 / 60 - 0.001)%float;
      print stopped_by_user],
     returned).
Proof. vm_compute. reflexivity. Qed.

End script_runner.

(** * Further properties of the embedded code *)

(** ** actions.py against the device *)

Module actions_device.
Import actions script_runner.

(** What happens to an [Actions] object between start and shutdown: frames
    (the policy's declarations, then [flush]) and [release_all] calls. *)
Inductive op :=
| Frame (calls : list intent)
| ReleaseAll.

Definition run_op (o : op) (self : Actions) : Actions * list dev_event :=
  match o with
  | Frame calls => frame calls self
  | ReleaseAll => release_all self
  end.

Fixpoint run_ops (ops : list op) (self : Actions) : Actions * list dev_event :=
  match ops with
  | [] => (self, [])
  | o :: rest =>
      let '(s1, ev1) := run_op o self in
      let '(s2, ev2) := run_ops rest s1 in
      (s2, ev1 ++ ev2)
  end.

(** A device call that changes the device: a key goes down that was up, up
    that was down, likewise the button; a tap needs the key up. *)
Definition effective (d : device) (e : dev_event) : Prop :=
  match e with
  | keyDown k | press k => k ∉ keys_down d
  | keyUp k => k ∈ keys_down d
  | mouseDown => button_down d = false
  | mouseUp => button_down d = true
  | moveTo _ _ | sleep _ => True
  end.

(** Every call of a trace is effective on the device as the calls before it
    left it. *)
Fixpoint all_effective (d : device) (evs : list dev_event) : Prop :=
  match evs with
  | [] => True
  | e :: rest => effective d e /\ all_effective (dev_step d e) rest
  end.

Definition is_button (e : dev_event) : bool :=
  match e with
  | mouseDown | mouseUp => true
  | _ => false
  end.

Definition is_move (e : dev_event) : bool :=
  match e with
  | moveTo _ _ => true
  | _ => false
  end.

(** A frame asks for the attack / the target of its last [attack_at]. *)
Definition attacks (calls : list intent) : bool :=
  _want_attack (declare calls __init__).

Definition aim_of (calls : list intent) : option (Z * Z) :=
  _mouse_target (declare calls __init__).

(** *** Declarations from a clear state *)

Lemma declare_same_intent calls s1 s2 :
  _desired_keys s1 = _desired_keys s2 -> _mouse_target s1 = _mouse_target s2 ->
  _want_attack s1 = _want_attack s2 -> _queued_dashes s1 = _queued_dashes s2 ->
  _desired_keys (declare calls s1) = _desired_keys (declare calls s2) /\
  _mouse_target (declare calls s1) = _mouse_target (declare calls s2) /\
  _want_attack (declare calls s1) = _want_attack (declare calls s2) /\
  _queued_dashes (declare calls s1) = _queued_dashes (declare calls s2).
Proof.
  revert s1 s2. induction calls as [|c calls IH]; intros s1 s2 Hd Ht Hw Hq.
  { done. }
  change (declare (c :: calls) s1) with (declare calls (call c s1)).
  change (declare (c :: calls) s2) with (declare calls (call c s2)).
  apply IH.
  - by rewrite !call_desired, Hd.
  - destruct c; unfold call, move_left, move_right, fly_up, move_down,
      move_down_fast, add_desired, attack_at, dash_left, dash_right,
      append_dash; cbn [_mouse_target]; done.
  - destruct c; unfold call, move_left, move_right, fly_up, move_down,
      move_down_fast, add_desired, attack_at, dash_left, dash_right,
      append_dash; cbn [_want_attack]; done.
  - by rewrite !call_dashes, Hq.
Qed.

Lemma declare_clear calls self :
  intent_clear self ->
  _desired_keys (declare calls self) = _desired_keys (declare calls __init__) /\
  _mouse_target (declare calls self) = aim_of calls /\
  _want_attack (declare calls self) = attacks calls /\
  _queued_dashes (declare calls self) = _queued_dashes (declare calls __init__).
Proof.
  intros (Hd & Ht & Hw & Hq). by apply declare_same_intent.
Qed.

(** *** The trace of device calls *)

Lemma all_effective_app d ev1 ev2 :
  all_effective d (ev1 ++ ev2) <->
  all_effective d ev1 /\ all_effective (foldl dev_step d ev1) ev2.
Proof.
  revert d. induction ev1 as [|e ev1 IH]; intros d; cbn [app all_effective foldl].
  - tauto.
  - rewrite IH. tauto.
Qed.

Lemma all_effective_keyUp d (l : list string) :
  NoDup l -> (forall k, k ∈ l -> k ∈ keys_down d) ->
  all_effective d (keyUp <$> l).
Proof.
  intros Hnd. revert d. induction Hnd as [|k l Hk Hnd IH]; intros d Hin; [done|].
  cbn [fmap list_fmap all_effective effective]. split; [apply Hin; left|].
  apply IH. intros k' Hk'. cbn [dev_step keys_down].
  apply elem_of_difference. split; [apply Hin; by right|].
  intros ->%elem_of_singleton. done.
Qed.

Lemma all_effective_keyDown d (l : list string) :
  NoDup l -> (forall k, k ∈ l -> k ∉ keys_down d) ->
  all_effective d (keyDown <$> l).
Proof.
  intros Hnd. revert d. induction Hnd as [|k l Hk Hnd IH]; intros d Hin; [done|].
  cbn [fmap list_fmap all_effective effective]. split; [apply Hin; left|].
  apply IH. intros k' Hk'. cbn [dev_step keys_down].
  intros [->%elem_of_singleton|Hd]%elem_of_union; [done|].
  by apply (Hin k'); [right|].
Qed.

Lemma flush_dash_effective held dashes d :
  held = keys_down d -> all_effective d (flush_dash held dashes).2.
Proof.
  intros ->. destruct dashes as [|direction rest]; [done|].
  cbn [flush_dash].
  case_decide; cbn [fst snd app all_effective effective dev_step keys_down];
    set_solver.
Qed.

Lemma flush_keys_effective held desired d :
  held = keys_down d -> all_effective d (flush_keys held desired).
Proof.
  intros ->. unfold flush_keys. apply all_effective_app. split.
  - apply all_effective_keyUp; [apply NoDup_elements|]. set_solver.
  - apply all_effective_keyDown; [apply NoDup_elements|].
    rewrite foldl_keyUp. cbn [keys_down]. set_solver.
Qed.

Lemma flush_effective self d :
  mirrors self d -> all_effective d (flush self).2.
Proof.
  intros [Hk Hb]. rewrite flush_events.
  destruct (flush_dash_mirrors _ (_queued_dashes self) d Hk) as [Hk1 Hb1].
  destruct (flush_keys_mirrors _ (_desired_keys self) _ Hk1) as [Hk2 Hb2].
  apply all_effective_app. split; [by apply flush_dash_effective|].
  apply all_effective_app. split; [by apply flush_keys_effective|].
  set (d2 := foldl dev_step (foldl dev_step d _) (flush_keys _ _)) in *.
  apply all_effective_app. split.
  { by destruct (_mouse_target self) as [[??]|]. }
  assert (foldl dev_step d2 (flush_aim (_mouse_target self)) = d2) as ->.
  { by destruct (_mouse_target self) as [[??]|]. }
  rewrite Hb, <- Hb1, <- Hb2.
  destruct (_want_attack self), (button_down d2) eqn:E; cbn; by rewrite ?E.
Qed.

Lemma release_all_effective self d :
  mirrors self d -> all_effective d (release_all self).2.
Proof.
  intros [Hk Hb]. unfold release_all. cbn [snd].
  apply all_effective_app. split.
  - apply all_effective_keyUp; [apply NoDup_elements|]. set_solver.
  - rewrite foldl_keyUp, Hb. destruct (button_down d) eqn:E; cbn; by rewrite ?E.
Qed.

Lemma declare_mirrors calls self d :
  mirrors self d -> mirrors (declare calls self) d.
Proof.
  intros [Hk Hb]. destruct (declare_held calls self) as [Hk' Hb'].
  split; congruence.
Qed.

Lemma run_op_inv o self d :
  mirrors self d ->
  all_effective d (run_op o self).2 /\
  mirrors (run_op o self).1 (foldl dev_step d (run_op o self).2).
Proof.
  intros Hm. destruct o as [calls|]; cbn [run_op]; unfold frame.
  - split; [apply flush_effective|apply flush_mirrors]; by apply declare_mirrors.
  - split; [by apply release_all_effective|].
    destruct (release_all_releases self d Hm) as (Hk & Hb & Hk' & Hb').
    split; congruence.
Qed.

(** X1. Whatever frames and [release_all] calls follow one another, the
    bookkeeping of [Actions] stays equal to the device (the keys and the button
    it believes held are the ones that are down), and no device call is
    wasted: no key is pressed or tapped that is down, none released that is
    up, and the mouse button likewise. *)
Theorem bookkeeping_tracks_device_no_wasted_call
  (ops : list op) (self : Actions) (d : device) :
  mirrors self d ->
  all_effective d (run_ops ops self).2 /\
  mirrors (run_ops ops self).1 (foldl dev_step d (run_ops ops self).2).
Proof.
  revert self d. induction ops as [|o ops IH]; intros self d Hm; [done|].
  cbn [run_ops]. destruct (run_op_inv o self d Hm) as [He Hm1].
  destruct (run_op o self) as [s1 ev1]. cbn [fst snd] in *.
  destruct (IH s1 _ Hm1) as [He2 Hm2].
  destruct (run_ops ops s1) as [s2 ev2]. cbn [fst snd] in *.
  rewrite foldl_app. split; [|done]. by apply all_effective_app.
Qed.

Lemma bookkeeping_tracks_device_no_wasted_call_witness :
  let ops := [Frame [MoveLeft; AttackAt 800 400]; Frame [MoveLeft; DashLeft];
              ReleaseAll; Frame [FlyUp]; ReleaseAll] in
  let d := mkDevice ∅ false in
  all_effective d (run_ops ops __init__).2 /\
  mirrors (run_ops ops __init__).1 (foldl dev_step d (run_ops ops __init__).2).
Proof.
  intros ops d. apply (bookkeeping_tracks_device_no_wasted_call ops __init__ d).
  split; reflexivity.
Defined.

(** The calls of that run: the held key is released before the double-tap
    and pressed again after it; [release_all] undoes what is held. *)
Example run_ops_trace :
  (run_ops [Frame [MoveLeft; AttackAt 800 400]; Frame [MoveLeft; DashLeft];
            ReleaseAll; Frame [FlyUp]; ReleaseAll] __init__).2
  = [keyDown "a"; moveTo 800 400; mouseDown;
     keyUp "a"; press "a"; sleep 0.03; press "a"; keyDown "a"; mouseUp;
     keyUp "a";
     keyDown "space";
     keyUp "space"].
Proof. vm_compute. reflexivity. Qed.

(** *** The mouse *)

Definition is_attack (c : intent) : bool :=
  match c with
  | AttackAt _ _ => true
  | _ => false
  end.

Lemma is_button_keys (mk : string -> dev_event) (l : list string) :
  (forall x, is_button (mk x) = false) -> filter is_button (mk <$> l) = [].
Proof.
  intros Hmk. induction l as [|x l IH]; [done|].
  cbn [fmap list_fmap]. rewrite filter_cons, IH.
  case_decide as Hb; [|done]. by rewrite Hmk in Hb.
Qed.

Lemma is_move_keys (mk : string -> dev_event) (l : list string) :
  (forall x, is_move (mk x) = false) -> filter is_move (mk <$> l) = [].
Proof.
  intros Hmk. induction l as [|x l IH]; [done|].
  cbn [fmap list_fmap]. rewrite filter_cons, IH.
  case_decide as Hb; [|done]. by rewrite Hmk in Hb.
Qed.

Lemma is_button_flush_dash held dashes :
  filter is_button (flush_dash held dashes).2 = [].
Proof. destruct dashes; [done|]. cbn [flush_dash]. by case_decide. Qed.

Lemma is_move_flush_dash held dashes :
  filter is_move (flush_dash held dashes).2 = [].
Proof. destruct dashes; [done|]. cbn [flush_dash]. by case_decide. Qed.

Lemma flush_button_calls self :
  filter is_button (flush self).2
  = (flush_button (_want_attack self) (_mouse_is_down self)).2.
Proof.
  rewrite flush_events, !filter_app, is_button_flush_dash.
  unfold flush_keys. rewrite filter_app, !is_button_keys by done.
  cbn [app]. destruct (_mouse_target self) as [[??]|];
    by destruct (_want_attack self), (_mouse_is_down self).
Qed.

Lemma flush_move_calls self :
  filter is_move (flush self).2 = flush_aim (_mouse_target self).
Proof.
  rewrite flush_events, !filter_app, is_move_flush_dash.
  unfold flush_keys. rewrite filter_app, !is_move_keys by done.
  cbn [app]. destruct (_mouse_target self) as [[??]|];
    by destruct (_want_attack self), (_mouse_is_down self).
Qed.

(** What one frame does to the mouse button. *)
Lemma frame_button calls self :
  intent_clear self ->
  filter is_button (frame calls self).2 =
    (if attacks calls
     then (if _mouse_is_down self then [] else [mouseDown])
     else (if _mouse_is_down self then [mouseUp] else []))
  /\ _mouse_is_down (frame calls self).1 = attacks calls
  /\ intent_clear (frame calls self).1.
Proof.
  intros Hc. unfold frame.
  destruct (declare_clear calls self Hc) as (_ & _ & Hw & _).
  destruct (declare_held calls self) as [_ Hm].
  split; [|split; [|apply flush_clear]].
  - rewrite flush_button_calls, Hw, Hm.
    by destruct (attacks calls), (_mouse_is_down self).
  - rewrite flush_state, Hw, Hm. cbn [_mouse_is_down].
    by destruct (attacks calls), (_mouse_is_down self).
Qed.

Lemma frames_attack mid omit self :
  intent_clear self -> _mouse_is_down self = true ->
  Forall (fun f => attacks f = true) mid -> attacks omit = false ->
  exists ev_mid ev_omit,
    (frames (mid ++ [omit]) self).2 = ev_mid ++ [ev_omit] /\
    length ev_mid = length mid /\
    Forall (fun ev => filter is_button ev = []) ev_mid /\
    filter is_button ev_omit = [mouseUp].
Proof.
  intros Hc Hh Hmid Hno. revert self Hc Hh.
  induction Hmid as [|f mid Hf _ IH]; intros self Hc Hh.
  - exists [], (frame omit self).2. cbn [app]. rewrite frames_cons.
    destruct (frame_button omit self Hc) as (He & _ & _).
    by rewrite He, Hno, Hh.
  - destruct (frame_button f self Hc) as (He & Hdown & Hc1).
    rewrite Hf in Hdown.
    destruct (IH _ Hc1 Hdown) as (ev_mid & ev_omit & E & L & F & U).
    exists ((frame f self).2 :: ev_mid), ev_omit.
    rewrite <- app_comm_cons, frames_cons. cbn [snd]. rewrite E.
    repeat split; [by cbn; rewrite L| |done].
    constructor; [|done]. by rewrite He, Hf, Hh.
Qed.

(** X2. The attack button over consecutive flushes, with no [release_all] in
    between: a policy that calls [attack_at] in every frame of a run and in
    none of the next frame gets one [mouseDown] in the run's first flush, no
    button call in the later flushes of the run, and one [mouseUp] in the
    flush of the first frame without [attack_at]. *)
Theorem attack_is_one_button_press_one_release
  (self : Actions)
  (first : list intent) (mid : list (list intent)) (omit : list intent) :
  intent_clear self -> _mouse_is_down self = false ->
  Forall (fun f => attacks f = true) (first :: mid) ->
  attacks omit = false ->
  exists ev_first ev_mid ev_omit,
    (frames (first :: mid ++ [omit]) self).2 = ev_first :: ev_mid ++ [ev_omit] /\
    length ev_mid = length mid /\
    filter is_button ev_first = [mouseDown] /\
    Forall (fun ev => filter is_button ev = []) ev_mid /\
    filter is_button ev_omit = [mouseUp].
Proof.
  intros Hc Hup Hrun Hno.
  apply Forall_cons in Hrun as [Hf Hmid].
  destruct (frame_button first self Hc) as (He & Hdown & Hc1).
  rewrite Hf in Hdown.
  destruct (frames_attack mid omit _ Hc1 Hdown Hmid Hno)
    as (ev_mid & ev_omit & E & L & F & U).
  exists (frame first self).2, ev_mid, ev_omit.
  rewrite frames_cons. cbn [snd]. rewrite E.
  repeat split; try done. by rewrite He, Hf, Hup.
Qed.

Lemma attack_is_one_button_press_one_release_witness :
  exists ev_first ev_mid ev_omit,
    (frames ([AttackAt 800 400; MoveLeft]
               :: [[AttackAt 810 400]; [DashRight; AttackAt 820 410]]
               ++ [[MoveLeft]])
            __init__).2
      = ev_first :: ev_mid ++ [ev_omit] /\
    length ev_mid = length [[AttackAt 810 400]; [DashRight; AttackAt 820 410]] /\
    filter is_button ev_first = [mouseDown] /\
    Forall (fun ev => filter is_button ev = []) ev_mid /\
    filter is_button ev_omit = [mouseUp].
Proof.
  apply (attack_is_one_button_press_one_release __init__).
  - done.
  - done.
  - repeat constructor.
  - done.
Defined.

Lemma declare_app pre post self :
  declare (pre ++ post) self = declare post (declare pre self).
Proof. apply foldl_app. Qed.

Lemma declare_no_attack calls self :
  Forall (fun c => is_attack c = false) calls ->
  _mouse_target (declare calls self) = _mouse_target self /\
  _want_attack (declare calls self) = _want_attack self.
Proof.
  intros Hno. revert self. induction Hno as [|c calls Hc _ IH]; intros self.
  { done. }
  change (declare (c :: calls) self) with (declare calls (call c self)).
  destruct (IH (call c self)) as [-> ->]. by destruct c.
Qed.

(** X3. The pointer in one frame: when a policy calls [attack_at] in a frame,
    its flush moves the pointer once, to the target of the last such call,
    after every key call of the flush and before the call on the button; the
    flush of a frame without [attack_at] does not move the pointer. *)
Theorem pointer_moves_once_to_last_target
  (self : Actions) (pre post calls : list intent) (x y : Z) :
  intent_clear self ->
  Forall (fun c => is_attack c = false) post ->
  Forall (fun c => is_attack c = false) calls ->
  (exists keys button,
      (frame (pre ++ AttackAt x y :: post) self).2
      = keys ++ [moveTo x y] ++ button /\
      filter is_move keys = [] /\ filter is_button keys = [] /\
      Forall (fun e => is_button e = true) button)
  /\ filter is_move (frame calls self).2 = [].
Proof.
  intros Hc Hpost Hcalls. split.
  - unfold frame. rewrite flush_events.
    set (st := declare (pre ++ AttackAt x y :: post) self).
    assert (_mouse_target st = Some (x, y)) as Ht.
    { subst st. rewrite declare_app.
      change (declare (AttackAt x y :: post) (declare pre self))
        with (declare post (attack_at x y (declare pre self))).
      by destruct (declare_no_attack post (attack_at x y (declare pre self)) Hpost)
        as [-> _]. }
    rewrite Ht. cbn [flush_aim].
    exists ((flush_dash (_held_keys st) (_queued_dashes st)).2
            ++ flush_keys (flush_dash (_held_keys st) (_queued_dashes st)).1
                          (_desired_keys st)),
           (flush_button (_want_attack st) (_mouse_is_down st)).2.
    split; [by rewrite <- !app_assoc|]. split; [|split].
    + rewrite filter_app, is_move_flush_dash. unfold flush_keys.
      by rewrite filter_app, !is_move_keys.
    + rewrite filter_app, is_button_flush_dash. unfold flush_keys.
      by rewrite filter_app, !is_button_keys.
    + destruct (_want_attack st), (_mouse_is_down st); by repeat constructor.
  - unfold frame. rewrite flush_move_calls.
    destruct (declare_no_attack calls self Hcalls) as [-> _].
    by destruct Hc as (_ & -> & _).
Qed.

Lemma pointer_moves_once_to_last_target_witness :
  (exists keys button,
      (frame ([AttackAt 10 20; MoveLeft] ++ AttackAt 800 400 :: [DashRight; FlyUp])
             __init__).2
      = keys ++ [moveTo 800 400] ++ button /\
      filter is_move keys = [] /\ filter is_button keys = [] /\
      Forall (fun e => is_button e = true) button)
  /\ filter is_move (frame [MoveLeft; DashLeft] __init__).2 = [].
Proof.
  apply (pointer_moves_once_to_last_target __init__).
  - done.
  - repeat constructor.
  - repeat constructor.
Defined.

(** *** A dash on a key the policy also holds *)

(** X4. A frame whose first queued dash is on a key: the calls on that key
    are the release (if it is held), the two taps, and then, if the policy
    also declared the key in the frame, a fresh [keyDown]; the key ends the
    frame held exactly when it was declared.  So moving and dashing in one
    direction keeps the movement key down after the double-tap. *)
Theorem dash_then_declared_key_is_pressed_again
  (self : Actions) (calls : list intent) (direction : string)
  (others : list string) :
  intent_clear self ->
  _queued_dashes (declare calls __init__) = direction :: others ->
  let key := dash_key direction in
  events_on key (frame calls self).2 =
    (if decide (key ∈ _held_keys self) then [keyUp key] else [])
    ++ [press key; press key]
    ++ (if decide (declares key calls) then [keyDown key] else [])
  /\ (key ∈ _held_keys (frame calls self).1 <-> declares key calls).
Proof.
  intros Hc Hq key. unfold frame.
  destruct (declare_clear calls self Hc) as (Hd & _ & _ & Hdq).
  destruct (declare_held calls self) as [Hh _].
  split.
  - rewrite flush_events, Hdq, Hq, Hh, Hd. cbn [flush_dash]. fold key.
    rewrite !events_on_app, events_on_flush_aim, events_on_flush_button,
      !app_nil_r.
    unfold declares.
    destruct (decide (key ∈ _held_keys self)) as [Hin|Hin]; cbn [fst snd].
    + rewrite events_on_flush_keys.
      rewrite (decide_False (P := key ∈ _held_keys self ∖ {[key]}))
        by set_solver.
      unfold events_on. cbn [app]. rewrite !filter_cons, filter_nil.
      cbn [event_key].
      rewrite !(decide_True (P := Some key = Some key)) by done.
      rewrite (decide_False (P := None = Some key)) by done.
      by destruct (decide (key ∈ _desired_keys (declare calls __init__))).
    + rewrite events_on_flush_keys.
      rewrite (decide_False (P := key ∈ _held_keys self)) by done.
      unfold events_on. cbn [app]. rewrite !filter_cons, filter_nil.
      cbn [event_key].
      rewrite !(decide_True (P := Some key = Some key)) by done.
      rewrite (decide_False (P := None = Some key)) by done.
      by destruct (decide (key ∈ _desired_keys (declare calls __init__))).
  - rewrite flush_state. cbn [_held_keys]. by rewrite Hd.
Qed.

Lemma dash_then_declared_key_is_pressed_again_witness :
  let self := (frame [MoveLeft] __init__).1 in
  let calls := [MoveLeft; DashLeft; DashRight] in
  events_on "a" (frame calls self).2 =
    (if decide ("a" ∈ _held_keys self) then [keyUp "a"] else [])
    ++ [press "a"; press "a"]
    ++ (if decide (declares "a" calls) then [keyDown "a"] else [])
  /\ ("a" ∈ _held_keys (frame calls self).1 <-> declares "a" calls).
Proof.
  intros self calls.
  apply (dash_then_declared_key_is_pressed_again self calls "left" ["right"]).
  - done.
  - reflexivity.
Defined.

(** *** [release_all] *)

Definition is_up (e : dev_event) : bool :=
  match e with
  | keyUp _ | mouseUp => true
  | _ => false
  end.

(** X5. [release_all] makes one [keyUp] call for each key in the held set
    and none for another key, one [mouseUp] if the button is down, and no
    other call; it leaves nothing held, so that a second [release_all] makes
    no device call at all.  It does not touch the per-frame intents: the keys
    a policy declared before it are the held ones after the next flush. *)
Theorem release_all_releases_each_once_and_keeps_intents
  (self : Actions) (k : string) :
  events_on k (release_all self).2
    = (if decide (k ∈ _held_keys self) then [keyUp k] else [])
  /\ filter is_button (release_all self).2
    = (if _mouse_is_down self then [mouseUp] else [])
  /\ Forall (fun e => is_up e = true) (release_all self).2
  /\ release_all (release_all self).1 = ((release_all self).1, [])
  /\ _held_keys (flush (release_all self).1).1 = _desired_keys self.
Proof.
  unfold release_all at 1 2 3. cbn [fst snd].
  split; [|split; [|split; [|split]]].
  - rewrite events_on_app, events_on_set by done.
    destruct (_mouse_is_down self); by rewrite app_nil_r.
  - rewrite filter_app, is_button_keys by done.
    by destruct (_mouse_is_down self).
  - apply Forall_app. split.
    + apply Forall_fmap, Forall_forall. done.
    + destruct (_mouse_is_down self); by repeat constructor.
  - unfold release_all. cbn [_held_keys _mouse_is_down _desired_keys
      _mouse_target _want_attack _queued_dashes fst].
    by rewrite elements_empty.
  - by rewrite flush_state.
Qed.

Lemma frame_nil self :
  intent_clear self -> frame [] self = release_all self.
Proof.
  intros (Hd & Ht & Hw & Hq). unfold frame, declare. cbn [foldl].
  unfold flush, release_all, flush_keys. rewrite Hd, Ht, Hw, Hq.
  cbn [flush_dash flush_aim].
  rewrite difference_empty_L.
  assert ((∅ : gset string) ∖ _held_keys self = ∅) as -> by set_solver.
  rewrite elements_empty. cbn [fmap list_fmap]. rewrite !app_nil_r.
  by destruct (_mouse_is_down self).
Qed.

(** X6. A frame in which the policy declares nothing (it returns at once, or
    raises before its first call) acts as [release_all]: the flush releases
    every held key and the button, and presses nothing. *)
Theorem empty_frame_is_release_all (self : Actions) :
  intent_clear self -> frame [] self = release_all self.
Proof.
  intros (Hd & Ht & Hw & Hq). unfold frame, declare. cbn [foldl].
  rewrite (surjective_pairing (flush self)), flush_state, flush_events.
  unfold release_all, flush_keys. rewrite Hd, Ht, Hw, Hq.
  cbn [flush_dash flush_aim fst snd app].
  rewrite difference_empty_L.
  assert ((∅ : gset string) ∖ _held_keys self = ∅) as -> by set_solver.
  rewrite elements_empty. cbn [fmap list_fmap]. rewrite !app_nil_r.
  by destruct (_mouse_is_down self).
Qed.

Lemma empty_frame_is_release_all_witness :
  frame [] (frame [MoveLeft; AttackAt 800 400] __init__).1
  = release_all (frame [MoveLeft; AttackAt 800 400] __init__).1.
Proof.
  apply (empty_frame_is_release_all (frame [MoveLeft; AttackAt 800 400] __init__).1).
  done.
Defined.

End actions_device.

(** ** script_runner.py: whole runs *)

Module runner_facts.
Import actions script_runner.

(** The device calls among what a loop emits. *)
Definition dev_calls (o : list out) : list dev_event :=
  omap (fun x => match x with dev e => Some e | _ => None end) o.

(** What the policy declares in the [n] frames from frame count [fc] on. *)
Fixpoint policy_frames (script : script_module) (fc : Z) (n : nat)
  : list (list intent) :=
  match n with
  | O => []
  | S n => calls (run script fc) :: policy_frames script (fc + 1) n
  end.

(** The policy's call returns, or raises what [except Exception] catches. *)
Definition caught (step : script_step) : bool :=
  match raises step with
  | Some e => py.is_Exception e
  | None => true
  end.

Fixpoint all_caught (script : script_module) (fc : Z) (n : nat) : bool :=
  match n with
  | O => true
  | S n => caught (run script fc) && all_caught script (fc + 1) n
  end.

(** No status line of the frames run on [ticks] raises. *)
Fixpoint status_ok (log : Z -> bool -> Z -> tick -> list out * option py.exn)
    (fps : Z) (verbose : bool) (fc : Z) (ticks : list tick) : bool :=
  match ticks with
  | [] => true
  | t :: rest =>
      match (log fps verbose (fc + 1) t).2 with
      | None => status_ok log fps verbose (fc + 1) rest
      | Some _ => false
      end
  end.

(** Frames that run to their end: no stop request at the loop head, no
    interrupt during the pacing. *)
Definition undisturbed (t : tick) : bool :=
  negb (stop_is_set t) && negb (interrupt t).

Lemma dev_calls_app o1 o2 : dev_calls (o1 ++ o2) = dev_calls o1 ++ dev_calls o2.
Proof. apply omap_app. Qed.

Lemma dev_calls_dev evs : dev_calls (dev <$> evs) = evs.
Proof.
  unfold dev_calls. induction evs as [|e evs IH]; [done|]. cbn. by f_equal.
Qed.

Lemma dev_calls_quiet o : quiet o -> dev_calls o = [].
Proof.
  unfold dev_calls. induction 1 as [|x o Hx _ IH]; [done|].
  destruct x; cbn; try done. by destruct (Hx e).
Qed.

Lemma status_ok_silent log fps fc ticks :
  (forall fps fc t, log fps false fc t = ([], None)) ->
  status_ok log fps false fc ticks = true.
Proof.
  intros Hlog. revert fc. induction ticks as [|t rest IH]; intros fc; [done|].
  cbn [status_ok]. rewrite Hlog. cbn [snd]. apply IH.
Qed.

(** A frame that runs to its end is [frame] on the policy's declarations. *)
Lemma iteration_frame log script fps ft verbose fc t self :
  (forall fps verbose fc t, quiet (log fps verbose fc t).1) ->
  caught (run script fc) = true ->
  (log fps verbose (fc + 1) t).2 = None ->
  let it := iteration log script fps ft verbose fc t self in
  it.1.1 = (frame (calls (run script fc)) self).1 /\
  dev_calls it.1.2 = (frame (calls (run script fc)) self).2 /\
  it.2 = (if interrupt t then Some py.KeyboardInterrupt else None).
Proof.
  intros Hq Hc Hlog. unfold iteration, run_policy, caught, frame in *.
  specialize (Hq fps verbose (fc + 1) t).
  assert (forall o1, quiet o1 ->
    let x := after_policy log fps ft verbose fc t
               (declare (calls (run script fc)) self) in
    x.1.1 = (flush (declare (calls (run script fc)) self)).1 /\
    dev_calls (o1 ++ x.1.2) = (flush (declare (calls (run script fc)) self)).2 /\
    x.2 = (if interrupt t then Some py.KeyboardInterrupt else None)) as Hafter.
  { intros o1 Ho1. unfold after_policy.
    destruct (flush _) as [self2 evs].
    destruct (log fps verbose (fc + 1) t) as [out3 failed].
    cbn [fst snd] in *. subst failed. cbn [fst snd].
    rewrite !dev_calls_app, dev_calls_dev, (dev_calls_quiet o1),
      (dev_calls_quiet out3), (dev_calls_quiet (pace ft t))
      by (done || apply quiet_pace).
    by rewrite app_nil_r. }
  destruct (raises (run script fc)) as [e|].
  - rewrite Hc.
    destruct (Hafter [print ("[ERROR] Script error: " +:+ py.str e)])
      as (H1 & H2 & H3); [by repeat constructor|].
    by destruct (after_policy _ _ _ _ _ _ _) as [[??]?].
  - destruct (Hafter []) as (H1 & H2 & H3); [constructor|].
    by destruct (after_policy _ _ _ _ _ _ _) as [[??]?].
Qed.

Lemma forallb_undisturbed_cons t rest :
  forallb undisturbed (t :: rest) = true ->
  stop_is_set t = false /\ interrupt t = false /\
  forallb undisturbed rest = true.
Proof.
  cbn [forallb]. unfold undisturbed at 1.
  destruct (stop_is_set t), (interrupt t); cbn; intros H; try done.
Qed.

(** The unbounded loop over frames that run to their end. *)
Lemma loop_from_frames script fps ft verbose pre :
  forall fc rest self,
    all_caught script fc (length pre) = true ->
    status_ok log_unguarded fps verbose fc pre = true ->
    forallb undisturbed pre = true ->
    exists o,
      loop_from script fps ft verbose fc (pre ++ rest) self
      = prepend o (loop_from script fps ft verbose (fc + Z.of_nat (length pre))
                     rest (frames (policy_frames script fc (length pre)) self).1)
      /\ dev_calls o
         = concat (frames (policy_frames script fc (length pre)) self).2.
Proof.
  induction pre as [|t pre IH]; intros fc rest self Hc Hs Hu.
  { exists []. cbn [app length policy_frames frames fst snd concat].
    rewrite Z.add_0_r. split; [|done].
    by destruct (loop_from _ _ _ _ _ _ _) as [[??]?]. }
  cbn [length all_caught status_ok] in Hc, Hs.
  apply andb_prop in Hc as [Hc1 Hc2].
  destruct ((log_unguarded fps verbose (fc + 1) t).2) eqn:Hlog; [done|].
  apply forallb_undisturbed_cons in Hu as (_ & Hint & Hu).
  destruct (iteration_frame log_unguarded script fps ft verbose fc t self
              quiet_log_unguarded Hc1 Hlog) as (H1 & H2 & H3).
  rewrite Hint in H3.
  cbn [app loop_from length policy_frames].
  destruct (iteration _ _ _ _ _ _ _ _) as [[self1 out1] exc].
  cbn [fst snd] in H1, H2, H3. subst exc self1.
  destruct (IH (fc + 1) rest (frame (calls (run script fc)) self).1 Hc2 Hs Hu)
    as (o & -> & Ho).
  exists (out1 ++ o). rewrite frames_cons. cbn [fst snd concat].
  replace (fc + Z.of_nat (S (length pre)))
    with (fc + 1 + Z.of_nat (length pre)) by lia.
  split.
  - destruct (loop_from _ _ _ _ _ rest _) as [[??]?]. unfold prepend.
    cbn [fst snd]. by rewrite app_assoc.
  - by rewrite dev_calls_app, H2, Ho.
Qed.

(** The bounded loop likewise. *)
Lemma timed_from_frames script fps ft verbose pre :
  forall fc rest self,
    all_caught script fc (length pre) = true ->
    status_ok log_guarded fps verbose fc pre = true ->
    forallb undisturbed pre = true ->
    exists o,
      timed_from script fps ft verbose fc (pre ++ rest) self
      = prepend o (timed_from script fps ft verbose (fc + Z.of_nat (length pre))
                     rest (frames (policy_frames script fc (length pre)) self).1)
      /\ dev_calls o
         = concat (frames (policy_frames script fc (length pre)) self).2.
Proof.
  induction pre as [|t pre IH]; intros fc rest self Hc Hs Hu.
  { exists []. cbn [app length policy_frames frames fst snd concat].
    rewrite Z.add_0_r. split; [|done].
    by destruct (timed_from _ _ _ _ _ _ _) as [[??]?]. }
  cbn [length all_caught status_ok] in Hc, Hs.
  apply andb_prop in Hc as [Hc1 Hc2].
  destruct ((log_guarded fps verbose (fc + 1) t).2) eqn:Hlog; [done|].
  apply forallb_undisturbed_cons in Hu as (Hstop & Hint & Hu).
  destruct (iteration_frame log_guarded script fps ft verbose fc t self
              quiet_log_guarded Hc1 Hlog) as (H1 & H2 & H3).
  rewrite Hint in H3.
  cbn [app timed_from length policy_frames]. rewrite Hstop.
  destruct (iteration _ _ _ _ _ _ _ _) as [[self1 out1] exc].
  cbn [fst snd] in H1, H2, H3. subst exc self1.
  destruct (IH (fc + 1) rest (frame (calls (run script fc)) self).1 Hc2 Hs Hu)
    as (o & -> & Ho).
  exists (out1 ++ o). rewrite frames_cons. cbn [fst snd concat].
  replace (fc + Z.of_nat (S (length pre)))
    with (fc + 1 + Z.of_nat (length pre)) by lia.
  split.
  - destruct (timed_from _ _ _ _ _ rest _) as [[??]?]. unfold prepend.
    cbn [fst snd]. by rewrite app_assoc.
  - by rewrite dev_calls_app, H2, Ho.
Qed.

Lemma release_all_declared calls self :
  (release_all (declare calls self)).2 = (release_all self).2.
Proof.
  unfold release_all. cbn [snd].
  by destruct (declare_held calls self) as [-> ->].
Qed.

(** X7. A normal run of [run_script_timed]: while no stop request is seen,
    the policy raises nothing but [Exception]s and no status line fails, each
    tick is one frame (the policy's declarations, then [flush]); the first
    stop request ends the loop before that tick's policy call; then
    [release_all] runs and the function returns.  The device calls of the
    whole run are those of the frames followed by those of [release_all]. *)
Theorem timed_run_is_frames_then_release
  (script : script_module) (fps : Z) (verbose : bool) (frame_time : float)
  (pre : list tick) (t_stop : tick) (rest : list tick) (self : Actions) :
  py.float_div_int 1.0 fps = py.Ok frame_time ->
  all_caught script 0 (length pre) = true ->
  status_ok log_guarded fps verbose 0 pre = true ->
  forallb undisturbed pre = true ->
  stop_is_set t_stop = true ->
  let x := run_script_timed script fps verbose (pre ++ t_stop :: rest) self in
  let fr := frames (policy_frames script 0 (length pre)) self in
  x.2 = returned /\
  x.1.1 = (release_all fr.1).1 /\
  dev_calls x.1.2 = concat fr.2 ++ (release_all fr.1).2.
Proof.
  intros Hft Hc Hs Hu Hstop x fr. subst x. unfold run_script_timed.
  rewrite Hft.
  destruct (timed_from_frames script fps frame_time verbose pre 0
              (t_stop :: rest) self Hc Hs Hu) as (o & -> & Ho).
  fold fr in Ho |- *. cbn [timed_from]. rewrite Hstop.
  unfold prepend. cbn [fst snd].
  destruct (release_all fr.1) as [self2 evs]. cbn [fst snd].
  by rewrite app_nil_r, dev_calls_app, dev_calls_dev, Ho.
Qed.

(** The policy of the example runs, stopped after two frames. *)
Lemma timed_run_is_frames_then_release_witness :
  let x := run_script_timed hold_left 30 true
             ([plain_tick; plain_tick] ++ stop_tick :: [plain_tick])
             actions.__init__ in
  let fr := frames (policy_frames hold_left 0 (length [plain_tick; plain_tick]))
                   actions.__init__ in
  x.2 = returned /\
  x.1.1 = (release_all fr.1).1 /\
  dev_calls x.1.2 = concat fr.2 ++ (release_all fr.1).2.
Proof.
  apply (timed_run_is_frames_then_release hold_left 30 true (1 / 30)%float
           [plain_tick; plain_tick] stop_tick [plain_tick] actions.__init__).
  - vm_compute. reflexivity.
  - reflexivity.
  - vm_compute. reflexivity.
  - reflexivity.
  - reflexivity.
Defined.

(** X8. A run of [run_script_loop] ended by Ctrl+C: every tick up to and
    including the one the interrupt arrives in is one frame; the function
    then prints its last line and returns normally.  It makes no device call
    beyond those of the frames, so the state it leaves is the one after the
    last frame's flush: what that frame declared stays held. *)
Theorem loop_run_is_frames_until_interrupt
  (script : script_module) (fps : Z) (verbose : bool) (frame_time : float)
  (pre : list tick) (t_int : tick) (rest : list tick) (self : Actions) :
  py.float_div_int 1.0 fps = py.Ok frame_time ->
  all_caught script 0 (S (length pre)) = true ->
  status_ok log_unguarded fps verbose 0 (pre ++ [t_int]) = true ->
  forallb undisturbed pre = true ->
  interrupt t_int = true ->
  let x := run_script_loop script fps verbose (pre ++ t_int :: rest) self in
  let fr := frames (policy_frames script 0 (S (length pre))) self in
  x.2 = returned /\
  x.1.1 = fr.1 /\
  dev_calls x.1.2 = concat fr.2 /\
  last x.1.2 = Some (print stopped_by_user).
Proof.
  intros Hft Hc Hs Hu Hint x fr. subst x. unfold run_script_loop.
  rewrite Hft.
  assert (exists o self1,
    loop_from script fps frame_time verbose 0 (pre ++ t_int :: rest) self
    = (self1, o, raised py.KeyboardInterrupt)
    /\ self1 = fr.1 /\ dev_calls o = concat fr.2) as (o & self1 & -> & -> & Ho).
  { subst fr. clear Hft. revert Hc Hs. generalize 0 at 1 2 3 4 5 as fc.
    revert self. induction pre as [|t pre IH]; intros self fc Hc Hs.
    - cbn [length all_caught] in Hc. rewrite andb_true_r in Hc.
      cbn [app status_ok] in Hs.
      destruct ((log_unguarded fps verbose (fc + 1) t_int).2) eqn:Hlog; [done|].
      destruct (iteration_frame log_unguarded script fps frame_time verbose fc
                  t_int self quiet_log_unguarded Hc Hlog) as (H1 & H2 & H3).
      rewrite Hint in H3.
      cbn [app loop_from length policy_frames frames].
      destruct (iteration _ _ _ _ _ _ _ _) as [[self1 out1] exc].
      cbn [fst snd] in H1, H2, H3. subst exc self1.
      exists out1, (frame (calls (run script fc)) self).1.
      destruct (frame _ _) as [s1 ev1]. cbn [fst snd concat] in *.
      by rewrite app_nil_r.
    - change (S (length (t :: pre))) with (S (S (length pre))) in *.
      cbn [all_caught] in Hc. apply andb_prop in Hc as [Hc1 Hc2].
      cbn [app status_ok] in Hs.
      destruct ((log_unguarded fps verbose (fc + 1) t).2) eqn:Hlog; [done|].
      apply forallb_undisturbed_cons in Hu as (_ & Hi & Hu).
      destruct (iteration_frame log_unguarded script fps frame_time verbose fc
                  t self quiet_log_unguarded Hc1 Hlog) as (H1 & H2 & H3).
      rewrite Hi in H3.
      cbn [app loop_from].
      destruct (iteration _ _ _ _ _ _ _ _) as [[self1 out1] exc].
      cbn [fst snd] in H1, H2, H3. subst exc self1.
      destruct (IH Hu (frame (calls (run script fc)) self).1 (fc + 1) Hc2 Hs)
        as (o & self2 & -> & -> & Ho).
      exists (out1 ++ o), (frames (policy_frames script (fc + 1) (S (length pre)))
                             (frame (calls (run script fc)) self).1).1.
      split; [done|].
      change (policy_frames script fc (S (S (length pre))))
        with (calls (run script fc)
                :: policy_frames script (fc + 1) (S (length pre))).
      rewrite frames_cons. cbn [fst snd concat].
      by rewrite dev_calls_app, H2, Ho. }
  cbn [fst snd]. split; [done|]. split; [done|]. split.
  - change (print_banner :: o ++ [print stopped_by_user])
      with ([print_banner] ++ o ++ [print stopped_by_user]).
    rewrite !dev_calls_app, Ho. cbn. by rewrite app_nil_r.
  - change (print_banner :: o ++ [print stopped_by_user])
      with ((print_banner :: o) ++ [print stopped_by_user]).
    apply last_snoc.
Qed.

Lemma loop_run_is_frames_until_interrupt_witness :
  let x := run_script_loop hold_left 60 true
             ([plain_tick; plain_tick] ++ ctrl_c :: [plain_tick])
             actions.__init__ in
  let fr := frames (policy_frames hold_left 0
                      (S (length [plain_tick; plain_tick])))
                   actions.__init__ in
  x.2 = returned /\
  x.1.1 = fr.1 /\
  dev_calls x.1.2 = concat fr.2 /\
  last x.1.2 = Some (print stopped_by_user).
Proof.
  apply (loop_run_is_frames_until_interrupt hold_left 60 true (1 / 60)%float
           [plain_tick; plain_tick] ctrl_c [plain_tick] actions.__init__).
  - vm_compute. reflexivity.
  - reflexivity.
  - vm_compute. reflexivity.
  - reflexivity.
  - reflexivity.
Defined.

(** X9. A policy call that raises what [except Exception] does not catch
    (KeyboardInterrupt, SystemExit and the like) ends the run at once: the
    intents declared in that frame are not flushed and stay pending.
    [run_script_loop] returns normally on KeyboardInterrupt and lets any other
    such exception through; [run_script_timed] runs [release_all] and lets the
    exception through. *)
Theorem uncaught_policy_exception_ends_run_without_flush
  (script : script_module) (fps : Z) (verbose : bool) (frame_time : float)
  (pre : list tick) (t : tick) (rest : list tick) (self : Actions)
  (e : py.exn) :
  py.float_div_int 1.0 fps = py.Ok frame_time ->
  all_caught script 0 (length pre) = true ->
  status_ok log_unguarded fps verbose 0 pre = true ->
  status_ok log_guarded fps verbose 0 pre = true ->
  forallb undisturbed pre = true ->
  stop_is_set t = false ->
  raises (run script (Z.of_nat (length pre))) = Some e ->
  py.is_Exception e = false ->
  let fr := frames (policy_frames script 0 (length pre)) self in
  let pending := declare (calls (run script (Z.of_nat (length pre)))) fr.1 in
  (let x := run_script_loop script fps verbose (pre ++ t :: rest) self in
   x.2 = match e with py.KeyboardInterrupt => returned | _ => raised e end /\
   x.1.1 = pending /\
   dev_calls x.1.2 = concat fr.2)
  /\ (let y := run_script_timed script fps verbose (pre ++ t :: rest) self in
      y.2 = raised e /\
      y.1.1 = (release_all pending).1 /\
      dev_calls y.1.2 = concat fr.2 ++ (release_all fr.1).2).
Proof.
  intros Hft Hc Hsu Hsg Hu Hstop Hraise Hexc fr pending.
  assert (forall log,
    iteration log script fps frame_time verbose (0 + Z.of_nat (length pre)) t fr.1
    = (pending, [], Some e)) as Hit.
  { intros log. unfold iteration, run_policy. rewrite Z.add_0_l.
    by rewrite Hraise, Hexc. }
  split.
  - unfold run_script_loop. rewrite Hft.
    destruct (loop_from_frames script fps frame_time verbose pre 0
                (t :: rest) self Hc Hsu Hu) as (o & -> & Ho).
    fold fr in Ho |- *. cbn [loop_from]. rewrite Hit.
    unfold prepend. cbn [fst snd]. rewrite app_nil_r.
    destruct e; try discriminate Hexc; cbn [fst snd].
    + split; [done|]. split; [done|].
      change (print_banner :: o ++ [print stopped_by_user])
        with ([print_banner] ++ o ++ [print stopped_by_user]).
      rewrite !dev_calls_app, Ho. cbn. by rewrite app_nil_r.
    + split; [done|]. split; [done|].
      change (print_banner :: o) with ([print_banner] ++ o).
      by rewrite dev_calls_app, Ho.
  - unfold run_script_timed. rewrite Hft.
    destruct (timed_from_frames script fps frame_time verbose pre 0
                (t :: rest) self Hc Hsg Hu) as (o & -> & Ho).
    fold fr in Ho |- *. cbn [timed_from]. rewrite Hstop, Hit.
    unfold prepend. cbn [fst snd]. rewrite app_nil_r.
    pose proof (release_all_declared
                  (calls (run script (Z.of_nat (length pre)))) fr.1) as Hrel.
    fold pending in Hrel.
    destruct (release_all pending) as [self2 evs]. cbn [fst snd] in *.
    by rewrite dev_calls_app, dev_calls_dev, Ho, Hrel.
Qed.

(** A policy that holds "a" and is interrupted in its second call. *)
Definition interrupted_policy : script_module :=
  mkScript "interrupted_policy"
    (fun n => mkStep [MoveLeft]
                (if decide (n = 1) then Some py.KeyboardInterrupt else None)).

Lemma uncaught_policy_exception_ends_run_without_flush_witness :
  let fr := frames (policy_frames interrupted_policy 0 (length [plain_tick]))
                   actions.__init__ in
  let pending :=
    declare (calls (run interrupted_policy (Z.of_nat (length [plain_tick]))))
            fr.1 in
  (let x := run_script_loop interrupted_policy 60 false
              ([plain_tick] ++ plain_tick :: []) actions.__init__ in
   x.2 = returned /\
   x.1.1 = pending /\
   dev_calls x.1.2 = concat fr.2)
  /\ (let y := run_script_timed interrupted_policy 60 false
                 ([plain_tick] ++ plain_tick :: []) actions.__init__ in
      y.2 = raised py.KeyboardInterrupt /\
      y.1.1 = (release_all pending).1 /\
      dev_calls y.1.2 = concat fr.2 ++ (release_all fr.1).2).
Proof.
  apply (uncaught_policy_exception_ends_run_without_flush interrupted_policy
           60 false (1 / 60)%float [plain_tick] plain_tick []
           actions.__init__ py.KeyboardInterrupt).
  - vm_compute. reflexivity.
  - reflexivity.
  - reflexivity.
  - reflexivity.
  - reflexivity.
  - reflexivity.
  - reflexivity.
  - reflexivity.
Defined.

(** X10. With [fps = 0] both loops raise ZeroDivisionError at
    [frame_time = 1.0 / fps], before the banner and before the first frame.
    In [run_script_timed] that line stands before the [try], so its
    [release_all] does not run; [main] still releases, in its own [finally],
    then stops the tracker and prints "Tracker stopped". *)
Theorem zero_fps_raises_before_first_frame
  (script : script_module) (verbose : bool) (ticks : list tick)
  (self : Actions) :
  run_script_loop script 0 verbose ticks self
    = (self, [], raised py.ZeroDivisionError)
  /\ run_script_timed script 0 verbose ticks self
    = (self, [], raised py.ZeroDivisionError)
  /\ main_loop script 0 verbose ticks self
    = ((release_all self).1,
       (dev <$> (release_all self).2)
       ++ [print "[TrackerService] Stopped"; print "Tracker stopped"],
       raised py.ZeroDivisionError).
Proof.
  unfold main_loop, tracker_stop, run_script_loop, run_script_timed.
  assert (py.float_div_int 1 0 = py.Raise py.ZeroDivisionError) as ->
    by (vm_compute; reflexivity).
  split; [done|]. split; [done|].
  by destruct (release_all self).
Qed.

(** X11. A status line that is due when no time has passed on the clock
    ([elapsed = 0.0]): [run_script_loop] divides by it, so the loop ends with
    ZeroDivisionError after that frame's flush, with whatever the frame
    pressed still held; [run_script_timed] guards the division, prints the
    line and goes on with the next tick. *)
Theorem status_line_at_zero_elapsed
  (script : script_module) (fps : Z) (frame_time : float)
  (frame_count : Z) (count : float) (t : tick) (rest : list tick)
  (self : Actions) :
  caught (run script frame_count) = true ->
  (frame_count + 1) mod fps = 0 ->
  elapsed_total t = 0%float ->
  py.float_of_int (frame_count + 1) = py.Ok count ->
  stop_is_set t = false -> interrupt t = false ->
  let fr := frame (calls (run script frame_count)) self in
  (let x := loop_from script fps frame_time true frame_count (t :: rest) self in
   x.2 = raised py.ZeroDivisionError /\ x.1.1 = fr.1 /\
   dev_calls x.1.2 = fr.2)
  /\ (exists o,
        timed_from script fps frame_time true frame_count (t :: rest) self
        = prepend o (timed_from script fps frame_time true (frame_count + 1)
                       rest fr.1)
        /\ dev_calls o = fr.2 /\ print_status ∈ o).
Proof.
  intros Hc Hmod Hel Hcount Hstop Hint fr.
  assert (log_unguarded fps true (frame_count + 1) t
          = ([], Some py.ZeroDivisionError)) as Hlu.
  { unfold log_unguarded, py.int_div_float. rewrite Hmod, Hel, Hcount. done. }
  assert (log_guarded fps true (frame_count + 1) t = ([print_status], None))
    as Hlg.
  { unfold log_guarded. rewrite Hmod, Hel. done. }
  assert (forall log,
    iteration log script fps frame_time true frame_count t self
    = (let '(out3, failed) := log fps true (frame_count + 1) t in
       let err := match raises (run script frame_count) with
                  | Some e => [print ("[ERROR] Script error: " +:+ py.str e)]
                  | None => []
                  end in
       match failed with
       | Some e => (fr.1, err ++ (dev <$> fr.2) ++ out3, Some e)
       | None => (fr.1, err ++ (dev <$> fr.2) ++ out3 ++ pace frame_time t, None)
       end)) as Hit.
  { intros log. unfold iteration, run_policy, after_policy, caught in *.
    subst fr. unfold frame.
    destruct (raises (run script frame_count)) as [e|]; rewrite ?Hc;
      destruct (flush _) as [self2 evs];
      destruct (log fps true (frame_count + 1) t) as [out3 [e'|]];
      cbn [fst snd app]; rewrite ?Hint; done. }
  split.
  - cbn [loop_from]. rewrite Hit, Hlu. cbn [fst snd].
    split; [done|]. split; [done|].
    rewrite !dev_calls_app, dev_calls_dev, app_nil_r.
    by destruct (raises (run script frame_count)).
  - cbn [timed_from]. rewrite Hstop, Hit, Hlg.
    exists (match raises (run script frame_count) with
            | Some e => [print ("[ERROR] Script error: " +:+ py.str e)]
            | None => []
            end ++ (dev <$> fr.2) ++ [print_status] ++ pace frame_time t).
    split.
    + cbn beta iota zeta.
      by destruct (timed_from _ _ _ _ _ rest _) as [[??]?].
    + split.
      * rewrite !dev_calls_app, dev_calls_dev.
        rewrite (dev_calls_quiet (pace frame_time t)) by apply quiet_pace.
        rewrite (dev_calls_quiet [print_status]) by (by repeat constructor).
        rewrite !app_nil_r.
        by destruct (raises (run script frame_count)).
      * apply elem_of_app. right. apply elem_of_app. right. by left.
Qed.

(** A tick on which the clock has not moved since the start. *)
Definition frozen_tick : tick := mkTick false 0 0 false.

Lemma status_line_at_zero_elapsed_witness :
  let fr := frame (calls (run hold_left 0)) actions.__init__ in
  (let x := loop_from hold_left 1 1 true 0 (frozen_tick :: [plain_tick])
              actions.__init__ in
   x.2 = raised py.ZeroDivisionError /\ x.1.1 = fr.1 /\
   dev_calls x.1.2 = fr.2)
  /\ (exists o,
        timed_from hold_left 1 1 true 0 (frozen_tick :: [plain_tick])
                   actions.__init__
        = prepend o (timed_from hold_left 1 1 true (0 + 1) [plain_tick] fr.1)
        /\ dev_calls o = fr.2 /\ print_status ∈ o).
Proof.
  apply (status_line_at_zero_elapsed hold_left 1 1%float 0 1%float frozen_tick
           [plain_tick] actions.__init__).
  - reflexivity.
  - reflexivity.
  - reflexivity.
  - vm_compute. reflexivity.
  - reflexivity.
  - reflexivity.
Defined.

End runner_facts.

(** ** game_state.py: single records, the player, the export *)

Module game_state_reads.
Import game_state.

(** [{"x": x, "y": y, **extra}] *)
Definition player_dict (x y : Z) (extra : pydict) : pydict :=
  extra ∪ {[ "x" := VInt x; "y" := VInt y ]}.

(** [set_player]: [self._player] is bound to a new dict, inside
    [with self._lock]; the object changes, so it is returned. *)
Definition set_player (self : GameState) (x y : Z) (extra : pydict) (h : heap)
  : GameState * heap * list op :=
  let '(l, h1) := new_dict (player_dict x y extra) h in
  (mkGameState (_entities self) l, h1, [lock_acquire; op_new l; lock_release]).

(** [get_player]: [dict(self._player)] *)
Definition get_player (self : GameState) (h : heap) : loc * heap * list op :=
  let player := default ∅ (h !! _player self) in
  let '(l, h1) := new_dict player h in
  (l, h1, [lock_acquire; op_read (_player self); op_new l; lock_release]).

(** [to_dict]: the two copies, in the order of the dict display, then the
    dict that holds them. *)
Definition to_dict (self : GameState) (h : heap) : loc * heap * list op :=
  let '(lp, h1) := new_dict (default ∅ (h !! _player self)) h in
  let '(le, h2) := new_dict (default ∅ (h1 !! _entities self)) h1 in
  let '(l, h3) := new_dict {[ "player" := VRef lp; "entities" := VRef le ]} h2 in
  (l, h3,
   [lock_acquire; op_read (_player self); op_new lp;
    op_read (_entities self); op_new le; op_new l; lock_release]).

(** *** Dicts other than the table under [update_entity] *)

Lemma updates_other self us (h : heap) l :
  is_Some (h !! l) -> l ≠ _entities self -> updates self us h !! l = h !! l.
Proof.
  intros Hl Hne. revert h Hl. unfold updates.
  induction us as [|u us IH]; intros h Hl; [done|]. cbn [foldl].
  rewrite IH by by apply update_entity_dom.
  by apply update_entity_other.
Qed.

Lemma fresh_not_table self (h : heap) l :
  is_Some (h !! _entities self) -> l ∉ dom h -> l ≠ _entities self.
Proof. intros Ht Hf ->. by apply Hf, elem_of_dom. Qed.

(** X12. [get_entity] after [update_entity] for the same name returns,
    under the lock, a reference to the record that call stored: a dict that
    did not exist before and holds x, y, found and the extra keys.  No later
    [update_entity] changes that dict (a new one is stored each time), so a
    reader may keep using it without the lock.  The answers for other names
    are the ones from before the update; a name the table lacks gives
    [None]. *)
Theorem get_entity_returns_stored_record
  (self : GameState) (h : heap) (name : string) (x y : Z) (found : bool)
  (extra : pydict) :
  wf self h ->
  let h' := (update_entity self name x y found extra h).1 in
  under_lock (get_entity self name h').2
  /\ (exists l,
        (get_entity self name h').1 = VRef l /\ (l ∉ dom h) /\
        h' !! l = Some (entity_dict x y found extra) /\
        forall us, updates self us h' !! l = Some (entity_dict x y found extra))
  /\ (forall other, other ≠ name ->
        (get_entity self other h').1 = (get_entity self other h).1)
  /\ (forall missing, missing ≠ name -> stored self h missing = None ->
        (get_entity self missing h').1 = VNone).
Proof.
  intros (table & Ht & Hrec) h'.
  destruct (update_entity_table self name x y found extra h table Ht)
    as (l & Hfresh & Hl & Ht').
  fold h' in Hl, Ht'.
  assert (forall other, other ≠ name ->
            stored self h' other = stored self h other) as Hother.
  { intros other Hne. unfold stored. rewrite Ht', Ht.
    by rewrite lookup_insert_ne. }
  split; [by apply (under_lock_intro [_]); set_solver|].
  split; [|split].
  - exists l. unfold get_entity, stored. cbn [fst]. rewrite Ht'.
    rewrite lookup_insert_eq. split; [done|]. split; [done|]. split; [done|].
    intros us. rewrite updates_other; [done|by eexists|].
    apply (fresh_not_table self h); [by eexists|done].
  - intros other Hne. unfold get_entity. cbn [fst]. by rewrite Hother.
  - intros missing Hne Hnone. unfold get_entity. cbn [fst].
    by rewrite Hother, Hnone.
Qed.

Lemma get_entity_returns_stored_record_witness :
  let self := slime_seen.1 in
  let h := slime_seen.2 in
  let extra : pydict := {[ "method" := VStr "Not Found" ]} in
  let h' := (update_entity self "slime" 0 0 false extra h).1 in
  under_lock (get_entity self "slime" h').2
  /\ (exists l,
        (get_entity self "slime" h').1 = VRef l /\ (l ∉ dom h) /\
        h' !! l = Some (entity_dict 0 0 false extra) /\
        forall us, updates self us h' !! l = Some (entity_dict 0 0 false extra))
  /\ (forall other, other ≠ "slime" ->
        (get_entity self other h').1 = (get_entity self other h).1)
  /\ (forall missing, missing ≠ "slime" -> stored self h missing = None ->
        (get_entity self missing h').1 = VNone).
Proof.
  intros self h extra.
  apply (get_entity_returns_stored_record self h "slime" 0 0 false extra).
  apply (update_entity_wf (__init__ ∅).1), init_wf.
Defined.

(** *** What [get_found_entities] reports after an update *)

Lemma found_flag_new_record (h : heap) l x y found extra :
  extra !! "found" = None ->
  h !! l = Some (entity_dict x y found extra) ->
  found_flag h (VRef l) = Some found.
Proof.
  intros Hex Hl. unfold found_flag. cbn [deref]. rewrite Hl.
  cbn [mbind option_bind]. unfold entity_dict.
  rewrite lookup_union_r by done.
  rewrite !lookup_insert_ne by done. by rewrite lookup_singleton_eq.
Qed.

(** Whether [get_found_entities] lists a name whose record is known. *)
Lemma found_listing self (h : heap) name x y found extra :
  wf self h -> extra !! "found" = None ->
  entity self h name = Some (entity_dict x y found extra) ->
  exists snap h1 tr,
    get_found_entities self h = (py.Ok snap, h1, tr) /\
    (view h1 snap ≫= (.!! name))
    = (if found then Some (Some (entity_dict x y found extra)) else None).
Proof.
  intros Hwf Hex Hent. pose proof Hwf as (table & Ht & Hrec).
  unfold entity, stored in Hent. rewrite Ht in Hent.
  destruct (table !! name) as [v|] eqn:Hv; [|done].
  destruct (Hrec name v Hv) as (l & -> & _ & _ & _). cbn [deref] in Hent.
  unfold get_found_entities. rewrite Ht. cbn [default from_option id].
  rewrite (found_flags_defined self h _ Hwf Ht).
  set (kept := filter _ table).
  assert (kept ⊆ table) as Hsub by apply map_filter_subseteq.
  destruct (snapshot_records self h _ kept Hwf Ht Hsub)
    as (Hf1 & Hne & Hsnap & Ht1 & Hrec1 & Hwf1).
  destruct (new_dict_spec kept h) as [_ Hh1].
  destruct (new_dict kept h) as [snap h1]. cbn [fst snd] in *.
  assert (h1 !! l = Some (entity_dict x y found extra)) as Hl1.
  { rewrite Hh1, lookup_insert_ne; [done|].
    intros <-. apply Hf1, elem_of_dom. by eexists. }
  exists snap, h1. eexists. split; [reflexivity|].
  unfold view. rewrite Hsnap. cbn. rewrite lookup_fmap.
  pose proof (found_flag_new_record h l x y found extra Hex Hent) as Hflag.
  destruct found.
  - assert (kept !! name = Some (VRef l)) as ->.
    { apply map_lookup_filter_Some. by split. }
    cbn. by rewrite Hl1.
  - assert (kept !! name = None) as ->; [|done].
    apply map_lookup_filter_None. right. intros v.
    rewrite Hv. intros [= <-]. cbn [snd]. by rewrite Hflag.
Qed.

(** X13. [update_entity] followed by [get_found_entities]: the call
    succeeds, and the dict it returns has the updated name exactly when the
    update said [found=True]; it then maps the name to the record just
    stored.  So an entity published as lost is gone from
    [get_found_entities], while [get_entity] still returns its record. *)
Theorem found_entities_follow_last_update
  (self : GameState) (h : heap) (name : string) (x y : Z) (found : bool)
  (extra : pydict) :
  wf self h -> extra !! "found" = None ->
  let h' := (update_entity self name x y found extra h).1 in
  exists snap h1 tr,
    get_found_entities self h' = (py.Ok snap, h1, tr) /\
    (view h1 snap ≫= (.!! name))
    = (if found then Some (Some (entity_dict x y found extra)) else None) /\
    entity self h1 name = Some (entity_dict x y found extra).
Proof.
  intros Hwf Hex h'. pose proof Hwf as (table & Ht & Hrec).
  destruct (update_entity_table self name x y found extra h table Ht)
    as (l & Hfresh & Hl & Ht').
  fold h' in Hl, Ht'.
  assert (wf self h') as Hwf' by by apply update_entity_wf.
  unfold get_found_entities. rewrite Ht'. cbn [default from_option id].
  rewrite (found_flags_defined self h' _ Hwf' Ht').
  set (kept := filter _ (<[name := VRef l]> table)).
  assert (kept ⊆ <[name := VRef l]> table) as Hsub by apply map_filter_subseteq.
  destruct (snapshot_records self h' _ kept Hwf' Ht' Hsub)
    as (Hf1 & Hne & Hsnap & Ht1 & Hrec1 & Hwf1).
  destruct (new_dict_spec kept h') as [_ Hh1].
  destruct (new_dict kept h') as [snap h1]. cbn [fst snd] in *.
  assert (h1 !! l = Some (entity_dict x y found extra)) as Hl1.
  { rewrite Hh1, lookup_insert_ne; [done|].
    intros <-. apply Hf1, elem_of_dom. by eexists. }
  exists snap, h1. eexists. split; [reflexivity|]. split.
  - unfold view. rewrite Hsnap. cbn. rewrite lookup_fmap.
    pose proof (found_flag_new_record h' l x y found extra Hex Hl) as Hflag.
    destruct found.
    + assert (kept !! name = Some (VRef l)) as ->.
      { apply map_lookup_filter_Some. split; [apply lookup_insert_eq|done]. }
      cbn. by rewrite Hl1.
    + assert (kept !! name = None) as ->; [|done].
      apply map_lookup_filter_None. right. intros v.
      rewrite lookup_insert_eq. intros [= <-]. cbn [snd]. by rewrite Hflag.
  - unfold entity, stored. rewrite Ht1, lookup_insert_eq. cbn. done.
Qed.

Lemma found_entities_follow_last_update_witness :
  let self := slime_seen.1 in
  let h := slime_seen.2 in
  let extra : pydict := {[ "method" := VStr "Not Found" ]} in
  let h' := (update_entity self "slime" 0 0 false extra h).1 in
  exists snap h1 tr,
    get_found_entities self h' = (py.Ok snap, h1, tr) /\
    (view h1 snap ≫= (.!! "slime")) = None /\
    entity self h1 "slime" = Some (entity_dict 0 0 false extra).
Proof.
  intros self h extra.
  apply (found_entities_follow_last_update self h "slime" 0 0 false extra).
  - apply (update_entity_wf (__init__ ∅).1), init_wf.
  - reflexivity.
Defined.

(** *** The player and the export *)

(** A new dict leaves the dicts of records as they are. *)
Lemma alloc_frame self (h : heap) l d l0 :
  l ∉ dom h -> records_at self h l0 ->
  l0 ≠ l /\ <[l := d]> h !! l0 = h !! l0 /\
  records_at self (<[l := d]> h) l0 /\
  view (<[l := d]> h) l0 = view h l0.
Proof.
  intros Hfresh (table & Ht & Hrec).
  assert (forall l', is_Some (h !! l') -> l' ≠ l) as Hold.
  { intros l' Hl' ->. by apply Hfresh, elem_of_dom. }
  assert (l0 ≠ l) as Hne by (apply Hold; by eexists).
  assert (<[l := d]> h !! l0 = h !! l0) as Hsame by by rewrite lookup_insert_ne.
  split; [done|]. split; [done|]. split.
  - exists table. split; [by rewrite Hsame|]. intros k v Hv.
    destruct (Hrec k v Hv) as (l' & -> & Hl' & Hn1 & Hn2).
    exists l'. split; [done|]. split; [|done].
    by rewrite lookup_insert_ne by (symmetry; by apply Hold).
  - unfold view. rewrite Hsame, Ht. cbn. f_equal.
    apply map_eq. intros k. rewrite !lookup_fmap.
    destruct (table !! k) as [v|] eqn:Hv; [|done].
    cbn [fmap option_fmap option_map]. f_equal.
    destruct (Hrec k v Hv) as (l' & -> & Hl' & _). cbn [deref].
    by rewrite lookup_insert_ne by (symmetry; by apply Hold).
Qed.

Lemma wf_same_table self self' (h : heap) :
  _entities self' = _entities self -> wf self h -> wf self' h.
Proof. unfold wf, records_at. by intros ->. Qed.

Lemma entity_alloc self self' (h : heap) l d name :
  _entities self' = _entities self -> wf self h -> l ∉ dom h ->
  entity self' (<[l := d]> h) name = entity self h name.
Proof.
  intros He Hwf Hfresh.
  destruct (alloc_frame self h l d _ Hfresh Hwf) as (_ & Hsame & _ & _).
  destruct Hwf as (table & Ht & Hrec).
  unfold entity, stored. rewrite He, Hsame, Ht.
  destruct (table !! name) as [v|] eqn:Hv; [|done].
  destruct (Hrec name v Hv) as (l' & -> & Hl' & _). cbn [deref].
  rewrite lookup_insert_ne; [done|].
  intros <-. by apply Hfresh, elem_of_dom.
Qed.

(** X14. [set_player] then [get_player]: both run under the lock;
    [set_player] binds the player to a new dict with exactly x, y and the
    extra keys (nothing of the previous dict is kept, and that dict is not
    changed) and leaves every entity record as it was; [get_player] returns
    a dict that did not exist before, with the same contents, so writing to
    it cannot change the store. *)
Theorem set_player_then_get_player
  (self : GameState) (h : heap) (x y : Z) (extra : pydict) :
  wf self h -> is_Some (h !! _player self) ->
  let self' := (set_player self x y extra h).1.1 in
  let h' := (set_player self x y extra h).1.2 in
  under_lock (set_player self x y extra h).2
  /\ _entities self' = _entities self
  /\ (_player self' ∉ dom h)
  /\ h' !! _player self' = Some (player_dict x y extra)
  /\ h' !! _player self = h !! _player self
  /\ wf self' h'
  /\ (forall name, entity self' h' name = entity self h name)
  /\ (exists copy h1 tr,
        get_player self' h' = (copy, h1, tr) /\ under_lock tr /\
        (copy ∉ dom h') /\ copy ≠ _player self' /\
        h1 !! copy = Some (player_dict x y extra) /\
        h1 !! _player self' = Some (player_dict x y extra)).
Proof.
  intros Hwf Hplayer. unfold set_player.
  destruct (new_dict_spec (player_dict x y extra) h) as [Hfresh Hh1].
  destruct (new_dict (player_dict x y extra) h) as [l h1].
  cbn [fst snd _entities _player] in *. subst h1.
  destruct (alloc_frame self h l (player_dict x y extra) _ Hfresh Hwf)
    as (_ & _ & Hwf1 & _).
  split; [by apply (under_lock_intro [_]); set_solver|].
  split; [done|]. split; [done|].
  split; [apply lookup_insert_eq|].
  split.
  { rewrite lookup_insert_ne; [done|].
    intros Heq. apply Hfresh. rewrite Heq. by apply elem_of_dom. }
  split; [by apply (wf_same_table self)|].
  split; [intros name; by apply (entity_alloc self)|].
  unfold get_player. cbn [_player]. rewrite lookup_insert_eq.
  cbn [default from_option id].
  destruct (new_dict_spec (player_dict x y extra)
              (<[l := player_dict x y extra]> h)) as [Hf2 Hh2].
  destruct (new_dict (player_dict x y extra) _) as [copy h2].
  cbn [fst snd] in *. subst h2.
  exists copy, (<[copy := player_dict x y extra]>
                  (<[l := player_dict x y extra]> h)).
  eexists. split; [reflexivity|].
  split; [by apply (under_lock_intro [_; _]); set_solver|].
  assert (copy ≠ l) as Hne.
  { intros ->. apply Hf2. rewrite dom_insert. set_solver. }
  split; [done|]. split; [done|].
  split; [apply lookup_insert_eq|].
  rewrite lookup_insert_ne by done. apply lookup_insert_eq.
Qed.

Lemma set_player_then_get_player_witness :
  let self := slime_seen.1 in
  let h := slime_seen.2 in
  let extra : pydict := {[ "hp" := VInt 120 ]} in
  let self' := (set_player self 640 360 extra h).1.1 in
  let h' := (set_player self 640 360 extra h).1.2 in
  under_lock (set_player self 640 360 extra h).2
  /\ _entities self' = _entities self
  /\ (_player self' ∉ dom h)
  /\ h' !! _player self' = Some (player_dict 640 360 extra)
  /\ h' !! _player self = h !! _player self
  /\ wf self' h'
  /\ (forall name, entity self' h' name = entity self h name)
  /\ (exists copy h1 tr,
        get_player self' h' = (copy, h1, tr) /\ under_lock tr /\
        (copy ∉ dom h') /\ copy ≠ _player self' /\
        h1 !! copy = Some (player_dict 640 360 extra) /\
        h1 !! _player self' = Some (player_dict 640 360 extra)).
Proof.
  intros self h extra.
  apply (set_player_then_get_player self h 640 360 extra).
  - apply (update_entity_wf (__init__ ∅).1), init_wf.
  - eexists. vm_compute. reflexivity.
Defined.

(** X15. [to_dict] runs under the lock and returns a new dict with the two
    keys "player" and "entities"; each names a dict that did not exist
    before, holding what the player dict and the table held.  The records
    are the table's own, and whatever [update_entity] calls follow, the
    export keeps showing the player and the records it was made with. *)
Theorem to_dict_is_a_snapshot (self : GameState) (h : heap) :
  wf self h -> is_Some (h !! _player self) ->
  exists l lp le h3 tr,
    to_dict self h = (l, h3, tr) /\ under_lock tr /\
    h3 !! l = Some {[ "player" := VRef lp; "entities" := VRef le ]} /\
    (l ∉ dom h) /\ (lp ∉ dom h) /\ (le ∉ dom h) /\
    l ≠ lp /\ l ≠ le /\ lp ≠ le /\
    h3 !! lp = h !! _player self /\
    h3 !! le = h !! _entities self /\
    view h3 le = view h (_entities self) /\
    forall us,
      updates self us h3 !! l = h3 !! l /\
      updates self us h3 !! lp = h3 !! lp /\
      view (updates self us h3) le = view h3 le.
Proof.
  intros Hwf [player Hp]. pose proof Hwf as (table & Ht & Hrec).
  unfold to_dict. rewrite Hp. cbn [default from_option id].
  destruct (new_dict_spec player h) as [Hf1 Hh1].
  destruct (new_dict player h) as [lp h1]. cbn [fst snd] in *. subst h1.
  destruct (alloc_frame self h lp player _ Hf1 Hwf) as (Hn1 & Ht1 & Hwf1 & Hv1).
  rewrite Ht1, Ht. cbn [default from_option id].
  assert (<[lp := player]> h !! _entities self = Some table) as Ht1'
    by by rewrite Ht1.
  destruct (snapshot_records self _ table table Hwf1 Ht1' (reflexivity _))
    as (Hf2 & Hne2 & Hsnap & _ & Hrec2 & Hwf2).
  destruct (new_dict_spec table (<[lp := player]> h)) as [_ Hh2].
  destruct (new_dict table (<[lp := player]> h)) as [le h2].
  cbn [fst snd] in *.
  assert (view h2 le = view h (_entities self)) as Hv2.
  { unfold view. rewrite Hsnap, Ht. cbn. f_equal.
    apply map_eq. intros k. rewrite !lookup_fmap.
    destruct (table !! k) as [v|] eqn:Hv; [|done].
    cbn [fmap option_fmap option_map]. f_equal.
    destruct (Hrec k v Hv) as (l' & -> & Hl' & _). cbn [deref].
    rewrite Hh2, !lookup_insert_ne; [done| |].
    - intros <-. by apply Hf1, elem_of_dom.
    - intros <-. apply Hf2. rewrite dom_insert.
      apply elem_of_union. right. by apply elem_of_dom. }
  set (outer := ({[ "player" := VRef lp; "entities" := VRef le ]} : pydict)).
  destruct (new_dict_spec outer h2) as [Hf3 Hh3].
  destruct (new_dict outer h2) as [l h3]. cbn [fst snd] in *.
  destruct (alloc_frame self h2 l outer _ Hf3 Hrec2) as (Hn3 & Hle & Hrec3 & Hv3).
  destruct (alloc_frame self h2 l outer _ Hf3 Hwf2) as (Hn4 & _ & Hwf3 & _).
  rewrite <- Hh3 in Hle, Hrec3, Hv3, Hwf3.
  assert (dom h2 = {[le]} ∪ ({[lp]} ∪ dom h)) as Hdom.
  { rewrite Hh2. by rewrite !dom_insert_L. }
  assert (lp ≠ le) as Hpe.
  { intros ->. apply Hf2. rewrite dom_insert. set_solver. }
  assert (h3 !! lp = Some player) as Hlp.
  { rewrite Hh3, lookup_insert_ne by (rewrite Hdom in Hf3; set_solver).
    rewrite Hh2, lookup_insert_ne by done. apply lookup_insert_eq. }
  assert (h3 !! l = Some outer) as Hl by (rewrite Hh3; apply lookup_insert_eq).
  exists l, lp, le, h3. eexists. split; [reflexivity|].
  split; [by apply (under_lock_intro [_; _; _; _; _]); set_solver|].
  split; [done|].
  split; [rewrite Hdom in Hf3; set_solver|].
  split; [done|].
  split; [rewrite dom_insert in Hf2; set_solver|].
  split; [rewrite Hdom in Hf3; set_solver|].
  split; [rewrite Hdom in Hf3; set_solver|].
  split; [done|].
  split; [by rewrite Hlp|].
  split; [by rewrite Hle, Hsnap|].
  split; [by rewrite Hv3|].
  intros us. split; [|split].
  - apply updates_other; [by eexists|]. by apply not_eq_sym.
  - apply updates_other; [by eexists|].
    intros Heq. apply Hf1. rewrite Heq. apply elem_of_dom. by eexists.
  - by apply updates_frame.
Qed.

Lemma to_dict_is_a_snapshot_witness :
  let self := slime_seen.1 in
  let h := slime_seen.2 in
  exists l lp le h3 tr,
    to_dict self h = (l, h3, tr) /\ under_lock tr /\
    h3 !! l = Some {[ "player" := VRef lp; "entities" := VRef le ]} /\
    (l ∉ dom h) /\ (lp ∉ dom h) /\ (le ∉ dom h) /\
    l ≠ lp /\ l ≠ le /\ lp ≠ le /\
    h3 !! lp = h !! _player self /\
    h3 !! le = h !! _entities self /\
    view h3 le = view h (_entities self) /\
    forall us,
      updates self us h3 !! l = h3 !! l /\
      updates self us h3 !! lp = h3 !! lp /\
      view (updates self us h3) le = view h3 le.
Proof.
  intros self h.
  apply (to_dict_is_a_snapshot self h).
  - apply (update_entity_wf (__init__ ∅).1), init_wf.
  - eexists. vm_compute. reflexivity.
Defined.

(** The dict that key [key] of dict [l] refers to. *)
Definition follow (h : heap) (l : loc) (key : string) : option loc :=
  match h !! l with
  | Some d => match d !! key with Some (VRef l') => Some l' | _ => None end
  | None => None
  end.

(** The export of the store that has seen one slime. *)
Example slime_export :
  let '(self, h) := slime_seen in
  let '(l, h3, _) := to_dict self h in
  match follow h3 l "player" with Some lp => h3 !! lp | None => None end
    = Some ({[ "x" := VInt 0; "y" := VInt 0 ]} : pydict)
  /\ match follow h3 l "entities" with
     | Some le =>
         match follow h3 le "slime" with Some r => h3 !! r | None => None end
     | None => None
     end
     = Some (entity_dict 800 400 true {[ "method" := VStr "Heuristic" ]}).
Proof. split; vm_compute; reflexivity. Qed.

End game_state_reads.

(** ** simple_match.py: construction, settings, regions, preview *)

Module tracker_rules.
Import simple_match.

(** An image of [h] rows of [w] pixels. *)
Definition sized (a : ndarray) (w h : Z) : Prop :=
  shape0 a = h /\ Forall (fun row => Z.of_nat (length row) = w) a.

(** The region of a [_best_match] call is at least as large as the template
    size the guards of [_match_one] compare it with: the downscaled size on
    the downscaled frame, the full size elsewhere. *)
Definition fits (t : TemplateState.t) (c : call) : Prop :=
  match call_site c with
  | Coarse =>
      TemplateState.w_small t <= shape1 (call_frame c) /\
      TemplateState.h_small t <= shape0 (call_frame c)
  | _ =>
      TemplateState.w t <= shape1 (call_frame c) /\
      TemplateState.h t <= shape0 (call_frame c)
  end.

Section rules.
Context `{Vision}.

(** The tracker after [n] more [find_all] cycles. *)
Fixpoint cycles (n : nat) (self : MultiTemplateTrackerCV)
  : MultiTemplateTrackerCV :=
  match n with
  | O => self
  | S n => cycles n (find_all self).1.1
  end.

(** [get_preview_frame]: the cached frame when there is one ([__init__] does
    not set the attribute, [find_all] does); a fresh grab otherwise, which is
    not cached.  With the frame, the mss handle afterwards and the events. *)
Definition get_preview_frame (self : MultiTemplateTrackerCV)
  : ndarray * nat * list event :=
  match _last_frame self with
  | Some frame => (frame, sct self, [])
  | None => _grab_frame_bgr self
  end.

(** *** Slices of a sized image *)

Lemma slice_length {A} (l : list A) (a b : Z) :
  0 <= a -> a <= b -> b <= Z.of_nat (length l) ->
  Z.of_nat (length (py.slice l a b)) = b - a.
Proof.
  intros Ha Hab Hb. unfold py.slice, py.slice_bound.
  destruct (Z.ltb_spec a 0); [lia|]. destruct (Z.ltb_spec b 0); [lia|].
  rewrite length_take, length_drop. lia.
Qed.

Lemma slice_Forall {A} (P : A -> Prop) (l : list A) (a b : Z) :
  Forall P l -> Forall P (py.slice l a b).
Proof. intros HF. unfold py.slice. by apply Forall_take, Forall_drop. Qed.

Lemma slice2_shape (a : ndarray) (w h y0 y1 x0 x1 : Z) :
  sized a w h ->
  0 <= y0 -> y0 < y1 -> y1 <= h -> 0 <= x0 -> x0 <= x1 -> x1 <= w ->
  shape0 (slice2 a y0 y1 x0 x1) = y1 - y0 /\
  shape1 (slice2 a y0 y1 x0 x1) = x1 - x0.
Proof.
  intros [Hh Hrows] Hy0 Hy Hy1 Hx0 Hx Hx1. unfold slice2, shape0, shape1 in *.
  pose proof (slice_length a y0 y1) as Hlen.
  pose proof (slice_Forall _ a y0 y1 Hrows) as Hsl.
  rewrite length_fmap. split; [lia|].
  destruct (py.slice a y0 y1) as [|row rows]; cbn [length] in Hlen; [lia|].
  cbn [fmap list_fmap]. apply Forall_cons in Hsl as [Hrow _].
  apply slice_length; lia.
Qed.

(** *** The regions of the three tiers *)

Lemma tier_roi_fits self t frame tpl :
  1 <= TemplateState.w t -> 1 <= TemplateState.h t ->
  sized frame (screen_w self) (screen_h self) ->
  Forall (fits t) (tier_roi self t frame tpl).2.
Proof.
  intros Hw Hh Hs. unfold tier_roi.
  destruct (TemplateState.last_pos t) as [[lx ly]|]; [|constructor].
  destruct (_ && _) eqn:Hg; [|constructor].
  apply andb_prop in Hg as [Hgw%Z.leb_le Hgh%Z.leb_le].
  destruct (_best_match _ _ _) as [[score x] y]. cbn [snd].
  constructor; [|constructor]. unfold fits. cbn [call_site call_frame].
  destruct (slice2_shape frame (screen_w self) (screen_h self)
              (Z.max 0 (ly - search_margin self))
              (Z.max 0 (ly - search_margin self)
               + Z.min (search_margin self * 2 + TemplateState.h t)
                       (screen_h self - Z.max 0 (ly - search_margin self)))
              (Z.max 0 (lx - search_margin self))
              (Z.max 0 (lx - search_margin self)
               + Z.min (search_margin self * 2 + TemplateState.w t)
                       (screen_w self - Z.max 0 (lx - search_margin self))))
    as [-> ->]; try done; lia.
Qed.

Lemma tier_pyramid_fits self t frame tpl frame_small :
  1 <= TemplateState.w t -> 1 <= TemplateState.h t ->
  sized frame (screen_w self) (screen_h self) ->
  Forall (fits t) (tier_pyramid self t frame tpl frame_small).2.
Proof.
  intros Hw Hh Hs. unfold tier_pyramid.
  destruct (use_pyramid self), frame_small as [small|]; try constructor.
  destruct (_ && _) eqn:Hg; [|constructor].
  apply andb_prop in Hg as [Hgw%Z.leb_le Hgh%Z.leb_le].
  destruct (_best_match small _ _) as [[score_small x_small] y_small].
  assert (fits t (mkCall Coarse small (TemplateState.tpl_small t))) as Hc
    by done.
  destruct (confidence self * 0.9 <=? score_small)%float;
    [|by repeat constructor].
  destruct (pyramid_rescale self x_small y_small) as [[[x_full y_full] m]|e];
    [|by repeat constructor].
  destruct (_ && _) eqn:Hg2; [|by repeat constructor].
  apply andb_prop in Hg2 as [Hg2w%Z.leb_le Hg2h%Z.leb_le].
  destruct (_best_match _ tpl _) as [[score x] y]. cbn [snd].
  constructor; [done|]. constructor; [|constructor].
  unfold fits. cbn [call_site call_frame].
  destruct (slice2_shape frame (screen_w self) (screen_h self)
              (Z.max 0 (y_full - m))
              (Z.max 0 (y_full - m)
               + Z.min (TemplateState.h t + m * 2)
                       (screen_h self - Z.max 0 (y_full - m)))
              (Z.max 0 (x_full - m))
              (Z.max 0 (x_full - m)
               + Z.min (TemplateState.w t + m * 2)
                       (screen_w self - Z.max 0 (x_full - m))))
    as [-> ->]; try done; lia.
Qed.

Lemma tier_full_fits self t frame tpl :
  Forall (fits t) (tier_full self t frame tpl).2.
Proof.
  unfold tier_full. destruct (negb _); [|constructor].
  destruct (_ && _) eqn:Hg; [|constructor].
  apply andb_prop in Hg as [Hgw%Z.leb_le Hgh%Z.leb_le].
  destruct (_best_match _ _ _) as [[score x] y]. cbn [snd].
  by repeat constructor.
Qed.

(** The calls of [_match_one] are those of its tiers. *)
Lemma match_one_calls self t fb fg fs (P : call -> Prop) :
  (forall frame tpl, (if use_grayscale self then fg else Some fb) = Some frame ->
     Forall P (tier_roi self t frame tpl).2 /\
     Forall P (tier_pyramid self t frame tpl fs).2 /\
     Forall P (tier_full self t frame tpl).2) ->
  Forall P (_match_one self t fb fg fs).2.
Proof.
  intros Htiers. unfold _match_one.
  assert ((if use_grayscale self
           then (fg, TemplateState.tpl_gray t)
           else (Some fb, TemplateState.tpl t))
          = (if use_grayscale self then fg else Some fb,
             if use_grayscale self
             then TemplateState.tpl_gray t else TemplateState.tpl t)) as ->
    by by destruct (use_grayscale self).
  destruct (if use_grayscale self then fg else Some fb) as [frame|];
    [|constructor].
  destruct (Htiers frame (if use_grayscale self
                          then TemplateState.tpl_gray t
                          else TemplateState.tpl t) eq_refl) as (H1 & H2 & H3).
  destruct (tier_roi _ _ _ _) as [[r1|] log1]; [done|].
  destruct (tier_pyramid _ _ _ _ _) as [[[r2|]|e2] log2]; cbn [fst snd] in *.
  - by apply Forall_app.
  - destruct (tier_full _ _ _ _) as [[r3|] log3]; cbn [fst snd] in *;
      by rewrite !Forall_app.
  - by apply Forall_app.
Qed.

(** X16. The size guards of [_match_one] do their job: when the frame has
    the monitor's dimensions and the template is at least one pixel wide and
    high, every region handed to [_best_match] (the ROI around the last
    position, the downscaled frame, the refinement window, the whole frame)
    is at least as large as the template size the tracker recorded for that
    resolution. *)
Theorem match_regions_hold_the_template
  (self : MultiTemplateTrackerCV) (t : TemplateState.t)
  (frame_bgr : ndarray) (frame_gray frame_small : option ndarray) :
  1 <= TemplateState.w t -> 1 <= TemplateState.h t ->
  sized frame_bgr (screen_w self) (screen_h self) ->
  (forall g, frame_gray = Some g -> sized g (screen_w self) (screen_h self)) ->
  Forall (fits t) (_match_one self t frame_bgr frame_gray frame_small).2.
Proof.
  intros Hw Hh Hb Hg. apply match_one_calls. intros frame tpl Hf.
  assert (sized frame (screen_w self) (screen_h self)) as Hs.
  { destruct (use_grayscale self); [by apply Hg|]. by injection Hf as <-. }
  split; [by apply tier_roi_fits|].
  split; [by apply tier_pyramid_fits|apply tier_full_fits].
Qed.

(** *** Construction *)

(** What [__init__] records for a template loaded from [path]. *)
Definition loaded (df : float) (gray : bool) (path : string)
    (t : TemplateState.t) : Prop :=
  TemplateState.path t = path /\
  imread path = Some (TemplateState.tpl t) /\
  TemplateState.w t = shape1 (TemplateState.tpl t) /\
  TemplateState.h t = shape0 (TemplateState.tpl t) /\
  TemplateState.tpl_gray t = cvtColor (TemplateState.tpl t) COLOR_BGR2GRAY /\
  1 <= TemplateState.w_small t /\ 1 <= TemplateState.h_small t /\
  TemplateState.tpl_small t
  = resize (if gray then TemplateState.tpl_gray t else TemplateState.tpl t)
           (TemplateState.w_small t, TemplateState.h_small t) INTER_AREA /\
  TemplateState.last_pos t = None /\ TemplateState.found t = false.

Lemma load_template_loaded df gray i path t :
  load_template df gray i path = py.Ok t -> loaded df gray path t.
Proof.
  unfold load_template. destruct (imread path) as [tpl|] eqn:Hread; [|done].
  intros Hb. apply bind_Ok in Hb as (fw & _ & Hb).
  apply bind_Ok in Hb as (iw & _ & Hb).
  apply bind_Ok in Hb as (fh & _ & Hb).
  apply bind_Ok in Hb as (ih & _ & Hb).
  injection Hb as <-. unfold loaded.
  cbn [TemplateState.path TemplateState.tpl TemplateState.w TemplateState.h
       TemplateState.tpl_gray TemplateState.w_small TemplateState.h_small
       TemplateState.tpl_small TemplateState.last_pos TemplateState.found].
  repeat split; try done; try lia. by destruct gray.
Qed.

Lemma load_templates_loaded df gray i paths ts :
  load_templates df gray i paths = py.Ok ts ->
  Forall2 (loaded df gray) paths ts.
Proof.
  revert i ts. induction paths as [|path paths IH]; intros i ts;
    cbn [load_templates].
  { intros [= <-]. constructor. }
  intros Hb. apply bind_Ok in Hb as (t0 & Ht0 & Hb).
  apply bind_Ok in Hb as (ts0 & Hts0 & Hb). injection Hb as <-.
  constructor; [by eapply load_template_loaded|by eapply IH].
Qed.

(** X17. A tracker is only constructed when every template file can be
    read: the templates are then the paths in their order, each with the
    image read from its file, the size of that image, a downscaled size of at
    least 1x1, no last position and not found.  No screenshot has been taken
    and no frame is cached; the thread pool exists exactly when [max_workers]
    is positive. *)
Theorem init_loads_every_template
  (paths : list string) (conf : float) (margin workers : Z) (m : tm_method)
  (gray : bool) (df : float) (skip : bool) (self : MultiTemplateTrackerCV) :
  __init__ paths conf margin workers m gray df skip = py.Ok self ->
  Forall2 (loaded df gray) paths (templates self)
  /\ (forall p, p ∈ paths -> is_Some (imread p))
  /\ ids_ok (templates self)
  /\ (screen_w self, screen_h self) = monitor
  /\ sct self = 0%nat /\ _last_frame self = None
  /\ executor self = (0 <? workers).
Proof.
  intros Hinit. pose proof (init_ids_ok _ _ _ _ _ _ _ _ _ Hinit) as Hids.
  unfold __init__ in Hinit. destruct monitor as [sw sh].
  do 4 apply bind_Ok in Hinit as (? & _ & Hinit).
  apply bind_Ok in Hinit as (ts & Hts & Hinit). injection Hinit as <-.
  cbn [templates screen_w screen_h sct _last_frame executor].
  pose proof (load_templates_loaded _ _ _ _ _ Hts) as HF.
  split; [done|]. split; [|done].
  intros p Hp. apply list_elem_of_lookup in Hp as [i Hp].
  destruct (Forall2_lookup_l _ _ _ _ _ HF Hp) as (t & _ & _ & Hread & _).
  by eexists.
Qed.

(** *** Settings *)

Lemma find_all_settings self :
  use_pyramid (find_all self).1.1 = use_pyramid self /\
  skip_full_scan (find_all self).1.1 = skip_full_scan self.
Proof.
  rewrite find_all_unfold.
  by destruct (cycle_frames self) as [[[[fb fg] fs] sct'] evf].
Qed.

Lemma cycles_settings n self :
  use_pyramid (cycles n self) = use_pyramid self /\
  skip_full_scan (cycles n self) = skip_full_scan self.
Proof.
  revert self. induction n as [|n IH]; intros self; [done|].
  cbn [cycles]. destruct (IH (find_all self).1.1) as [-> ->].
  apply find_all_settings.
Qed.

Lemma elem_of_sublist_sites (log : list call) (sites : list site) c :
  sublist (call_site <$> log) sites -> c ∈ log -> call_site c ∈ sites.
Proof.
  intros Hsub Hc. eapply elem_of_sublist; [|exact Hsub].
  by apply list_elem_of_fmap_2.
Qed.

(** Which call sites a [_match_one] can reach. *)
Lemma match_one_sites self t fb fg fs :
  Forall (fun c =>
            match call_site c with
            | ROI => TemplateState.last_pos t ≠ None
            | Coarse | Refine => use_pyramid self = true
            | Full => skip_full_scan self = false
            end) (_match_one self t fb fg fs).2.
Proof.
  apply match_one_calls. intros frame tpl _.
  destruct (tier_roi self t frame tpl) as [o1 log1] eqn:E1.
  destruct (tier_roi_outcome _ _ _ _ _ _ E1) as (_ & S1 & N1).
  destruct (tier_pyramid self t frame tpl fs) as [o2 log2] eqn:E2.
  destruct (tier_pyramid_outcome _ _ _ _ _ _ _ E2) as (_ & S2 & N2).
  destruct (tier_full self t frame tpl) as [o3 log3] eqn:E3.
  destruct (tier_full_outcome _ _ _ _ _ _ E3) as (_ & S3 & N3).
  cbn [snd]. split; [|split]; apply Forall_forall; intros c Hc.
  - pose proof (elem_of_sublist_sites _ _ _ S1 Hc) as Hs.
    apply list_elem_of_singleton in Hs. rewrite Hs. apply N1.
    intros ->. by apply elem_of_nil in Hc.
  - pose proof (elem_of_sublist_sites _ _ _ S2 Hc) as Hs.
    assert (use_pyramid self = true) as Hp.
    { apply N2. intros ->. by apply elem_of_nil in Hc. }
    apply elem_of_cons in Hs as [->| ->%list_elem_of_singleton]; done.
  - pose proof (elem_of_sublist_sites _ _ _ S3 Hc) as Hs.
    apply list_elem_of_singleton in Hs. rewrite Hs. apply N3.
    intros ->. by apply elem_of_nil in Hc.
Qed.

(** X18. The two speed settings are fixed at construction and rule every
    later cycle: the pyramid is used exactly when [downscale_factor < 1.0],
    and the full scan is skipped only when that was asked for and the pyramid
    is on.  So at any cycle, a coarse or refinement match happens only with
    [downscale_factor < 1.0], and a full-frame match only when
    [skip_full_scan] was false or [downscale_factor >= 1.0] (or not a
    number): with the pyramid off, asking to skip the full scan has no
    effect. *)
Theorem settings_rule_every_cycle
  (paths : list string) (conf : float) (margin workers : Z) (m : tm_method)
  (gray : bool) (df : float) (skip : bool) (self : MultiTemplateTrackerCV)
  (n : nat) (t : TemplateState.t)
  (frame_bgr : ndarray) (frame_gray frame_small : option ndarray) :
  __init__ paths conf margin workers m gray df skip = py.Ok self ->
  let now := cycles n self in
  use_pyramid now = (df <? 1.0)%float
  /\ skip_full_scan now = skip && (df <? 1.0)%float
  /\ Forall (fun c =>
               match call_site c with
               | ROI => TemplateState.last_pos t ≠ None
               | Coarse | Refine => (df <? 1.0)%float = true
               | Full => skip = false \/ (df <? 1.0)%float = false
               end) (_match_one now t frame_bgr frame_gray frame_small).2.
Proof.
  intros Hinit now.
  assert (use_pyramid self = (df <? 1.0)%float /\
          skip_full_scan self = skip && (df <? 1.0)%float) as [Hp Hs].
  { unfold __init__ in Hinit. destruct monitor as [sw sh].
    do 5 apply bind_Ok in Hinit as (? & _ & Hinit). by injection Hinit as <-. }
  destruct (cycles_settings n self) as [Hp' Hs']. fold now in Hp', Hs'.
  rewrite Hp in Hp'. rewrite Hs in Hs'.
  split; [done|]. split; [done|].
  eapply Forall_impl; [apply match_one_sites|].
  intros c. cbn beta. rewrite Hp', Hs'.
  destruct (call_site c); try done.
  intros [->| ->]%andb_false_iff; auto.
Qed.

(** *** The preview frame *)

(** X19. [get_preview_frame] after a [find_all] cycle (whether the cycle
    returned results or raised during matching) returns the frame grabbed in
    that cycle, the one every [_match_one] call of the cycle was given, and
    takes no screenshot.  On a tracker that has not run a cycle it takes a
    screenshot of its own. *)
Theorem preview_is_the_frame_of_the_last_cycle
  (paths : list string) (conf : float) (margin workers : Z) (m : tm_method)
  (gray : bool) (df : float) (skip : bool)
  (fresh self : MultiTemplateTrackerCV) :
  __init__ paths conf margin workers m gray df skip = py.Ok fresh ->
  let frame := cvtColor (sct_grab (sct self)) COLOR_BGRA2BGR in
  get_preview_frame (find_all self).1.1 = (frame, S (sct self), [])
  /\ Forall (fun e => match e with
                      | ev_match_one _ fb _ _ => fb = frame
                      | _ => True
                      end) (find_all self).2
  /\ get_preview_frame fresh
     = (cvtColor (sct_grab 0%nat) COLOR_BGRA2BGR, 1%nat,
        [ev_grab 0; ev_cvtColor (sct_grab 0%nat) COLOR_BGRA2BGR]).
Proof.
  intros Hinit frame. split; [|split].
  - rewrite find_all_unfold.
    destruct (cycle_frames_spec self) as (evf & -> & _). done.
  - rewrite find_all_unfold.
    destruct (cycle_frames_spec self) as (evf & Hcf & _ & Hnone & _).
    rewrite Hcf. cbn zeta. cbn [snd]. fold frame.
    set (fg := if use_grayscale self then _ else _).
    set (fs := if use_pyramid self then _ else _).
    destruct (match_all_spec self frame fg fs (templates self)) as [[k Hk] _].
    cbn zeta in Hk. apply Forall_app. split; [|rewrite Hk].
    + apply Forall_forall. intros e He. destruct e; try done.
      assert (ev_match_one id frame_bgr frame_gray frame_small
              ∈ filter is_match_one evf) as Hin
        by (apply list_elem_of_filter; by split).
      rewrite Hnone in Hin. by apply elem_of_nil in Hin.
    + apply Forall_fmap, Forall_forall. intros t _. reflexivity.
  - unfold __init__ in Hinit. destruct monitor as [sw sh].
    do 5 apply bind_Ok in Hinit as (? & _ & Hinit). by injection Hinit as <-.
Qed.

End rules.

(** *** On the example screen *)

(** The one template of the example tracker, as it is after [n] cycles. *)
Definition slime_template (n : nat) : TemplateState.t :=
  match templates (screen6x4.after n) with
  | t :: _ => t
  | [] => TemplateState.mk 0 "" [] [] [] 0 0 0 0 None false
  end.

Lemma match_regions_hold_the_template_witness :
  Forall (fits (slime_template 1))
    (_match_one (H := screen6x4.vision) (screen6x4.after 1) (slime_template 1)
       (screen6x4.shows 1) (Some (screen6x4.shows 1))
       (Some (screen6x4.nearest (screen6x4.shows 1) (3, 2)))).2.
Proof.
  apply (match_regions_hold_the_template (H := screen6x4.vision)
           (screen6x4.after 1) (slime_template 1)).
  - by vm_compute.
  - by vm_compute.
  - split; [vm_compute; reflexivity|]. vm_compute. repeat constructor.
  - intros g [= <-]. split; [vm_compute; reflexivity|].
    vm_compute. repeat constructor.
Defined.

Lemma init_loads_every_template_witness :
  let self := screen6x4.after 0 in
  Forall2 (loaded (H := screen6x4.vision) 0.5 true) ["slime.png"]
          (templates self)
  /\ (forall p, p ∈ ["slime.png"] -> is_Some (imread (Vision := screen6x4.vision) p))
  /\ ids_ok (templates self)
  /\ (screen_w self, screen_h self) = monitor (Vision := screen6x4.vision)
  /\ sct self = 0%nat /\ _last_frame self = None
  /\ executor self = (0 <? 0).
Proof.
  apply (init_loads_every_template (H := screen6x4.vision)
           ["slime.png"] 0.85 1 0 TM_CCOEFF_NORMED true 0.5 true
           (screen6x4.after 0)).
  vm_compute. reflexivity.
Defined.

(** An unreadable file among the paths: no tracker. *)
Example init_unreadable_template :
  __init__ (H := screen6x4.vision) ["slime.png"; "ghost.png"; "bat.png"]
    0.85 1 0 TM_CCOEFF_NORMED true 0.5 true
  = py.Raise (py.FileNotFoundError "Failed to load template: ghost.png").
Proof. vm_compute. reflexivity. Qed.

Lemma settings_rule_every_cycle_witness :
  let now := cycles (H := screen6x4.vision) 2 (screen6x4.after 0) in
  use_pyramid now = (0.5 <? 1.0)%float
  /\ skip_full_scan now = true && (0.5 <? 1.0)%float
  /\ Forall (fun c =>
               match call_site c with
               | ROI => TemplateState.last_pos (slime_template 2) ≠ None
               | Coarse | Refine => (0.5 <? 1.0)%float = true
               | Full => true = false \/ (0.5 <? 1.0)%float = false
               end)
       (_match_one (H := screen6x4.vision) now (slime_template 2)
          (screen6x4.shows 2) (Some (screen6x4.shows 2))
          (Some (screen6x4.nearest (screen6x4.shows 2) (3, 2)))).2.
Proof.
  apply (settings_rule_every_cycle (H := screen6x4.vision)
           ["slime.png"] 0.85 1 0 TM_CCOEFF_NORMED true 0.5 true
           (screen6x4.after 0) 2 (slime_template 2)).
  vm_compute. reflexivity.
Defined.

(** The same template file with [downscale_factor = 1.0] and
    [skip_full_scan=True]: the full scan is what finds the pixel. *)
Example full_scan_despite_skip :
  match __init__ (H := screen6x4.vision) ["slime.png"]
          0.85 1 0 TM_CCOEFF_NORMED true 1.0 true with
  | py.Ok self =>
      (use_pyramid self, skip_full_scan self,
       (find_all (H := screen6x4.vision) self).1.2)
      = (false, false, py.Ok [MatchResult.mk 0 true 4 2 1 1 1.0 "Full Scan"])
  | py.Raise _ => False
  end.
Proof. vm_compute. reflexivity. Qed.

Lemma preview_is_the_frame_of_the_last_cycle_witness :
  let self := screen6x4.after 1 in
  let frame := cvtColor (Vision := screen6x4.vision)
                 (sct_grab (Vision := screen6x4.vision) (sct self))
                 COLOR_BGRA2BGR in
  get_preview_frame (H := screen6x4.vision)
    (find_all (H := screen6x4.vision) self).1.1 = (frame, S (sct self), [])
  /\ Forall (fun e => match e with
                      | ev_match_one _ fb _ _ => fb = frame
                      | _ => True
                      end) (find_all (H := screen6x4.vision) self).2
  /\ get_preview_frame (H := screen6x4.vision) (screen6x4.after 0)
     = (cvtColor (Vision := screen6x4.vision)
          (sct_grab (Vision := screen6x4.vision) 0%nat) COLOR_BGRA2BGR, 1%nat,
        [ev_grab 0;
         ev_cvtColor (sct_grab (Vision := screen6x4.vision) 0%nat)
                     COLOR_BGRA2BGR]).
Proof.
  apply (preview_is_the_frame_of_the_last_cycle (H := screen6x4.vision)
           ["slime.png"] 0.85 1 0 TM_CCOEFF_NORMED true 0.5 true
           (screen6x4.after 0) (screen6x4.after 1)).
  vm_compute. reflexivity.
Defined.

End tracker_rules.

(** ** simple_match.py: the counters of [run_tracking_loop_cv] *)

Module tracking_loop.
Import simple_match.

(** An entry of [stats]: [{"heuristic": 0, "full": 0, "pyramid": 0,
    "found": 0}]. *)
Record counters := mkCounters {
  heuristic : Z;
  full : Z;
  pyramid : Z;
  found : Z
}.

(** How the loop stops other than by [break] or Ctrl+C: an exception of
    [find_all], or the KeyError of [stats[r.id]]. *)
Inductive stop :=
| Raised (e : py.exn)
| KeyError (key : nat).

(** The body of the [for r in results] loop that counts. *)
Definition count_result (stats : list counters) (r : MatchResult.t)
  : list counters + stop :=
  if MatchResult.found r then
    match stats !! MatchResult.id r with
    | None => inr (KeyError (MatchResult.id r))
    | Some s =>
        let s1 := mkCounters (heuristic s) (full s) (pyramid s) (found s + 1) in
        let s2 :=
          if decide (MatchResult.method r = "Heuristic")
          then mkCounters (heuristic s1 + 1) (full s1) (pyramid s1) (found s1)
          else if decide (MatchResult.method r = "Pyramid")
          then mkCounters (heuristic s1) (full s1) (pyramid s1 + 1) (found s1)
          else if decide (MatchResult.method r = "Full Scan")
          then mkCounters (heuristic s1) (full s1 + 1) (pyramid s1) (found s1)
          else s1 in
        inl (<[MatchResult.id r := s2]> stats)
    end
  else inl stats.

Fixpoint count_results (stats : list counters) (results : list MatchResult.t)
  : list counters + stop :=
  match results with
  | [] => inl stats
  | r :: rest =>
      match count_result stats r with
      | inl stats1 => count_results stats1 rest
      | inr e => inr e
      end
  end.

(** A template's found count is the sum of its three tier counts. *)
Definition balanced (s : counters) : Prop :=
  found s = heuristic s + pyramid s + full s.

Section loop.
Context `{Vision}.

(** [stats = {i: {...} for i in range(len(tracker.templates))}] *)
Definition initial_stats (tracker : MultiTemplateTrackerCV) : list counters :=
  replicate (length (templates tracker)) (mkCounters 0 0 0 0).

(** [n] passes of the [while True] body, as far as tracker and counters are
    concerned. *)
Fixpoint tracking_cycles (n : nat) (tracker : MultiTemplateTrackerCV)
    (stats : list counters) : MultiTemplateTrackerCV * list counters + stop :=
  match n with
  | O => inl (tracker, stats)
  | S n =>
      let '(tracker1, results, _) := find_all tracker in
      match results with
      | py.Raise e => inr (Raised e)
      | py.Ok results =>
          match count_results stats results with
          | inl stats1 => tracking_cycles n tracker1 stats1
          | inr e => inr e
          end
      end
  end.

(** A found result carries the tag of one of the three tiers. *)
Lemma match_one_found_tag self t frame_bgr frame_gray frame_small r :
  (_match_one self t frame_bgr frame_gray frame_small).1 = py.Ok r ->
  MatchResult.found r = true ->
  MatchResult.method r = "Heuristic" \/ MatchResult.method r = "Pyramid" \/
  MatchResult.method r = "Full Scan".
Proof.
  unfold _match_one.
  destruct (if use_grayscale self then _ else _) as [[frame|] tpl]; [|done].
  destruct (tier_roi self t frame tpl) as [[r1|] log1] eqn:E1.
  { intros [= <-] _. apply tier_roi_tag in E1 as [E1 _]. by left. }
  pose proof (tier_pyramid_accepts self t frame tpl frame_small r) as Hacc.
  destruct (tier_pyramid self t frame tpl frame_small)
    as [[[r2|]|e2] log2]; [| |done].
  { intros [= <-] _.
    destruct (proj1 Hacc eq_refl) as (? & _ & _ & _ & ? & ? & ? & ? & ? & ?
                                      & ? & ? & ? & Hrest).
    cbn zeta in Hrest. destruct Hrest as (_ & _ & _ & _ & _ & _ & ->).
    right. by left. }
  destruct (tier_full self t frame tpl) as [[r3|] log3] eqn:E3.
  - intros [= <-] _. apply tier_full_tag in E3 as [E3 _]. right. by right.
  - by intros [= <-].
Qed.

Lemma count_result_balanced stats r :
  (MatchResult.id r < length stats)%nat ->
  (MatchResult.found r = true ->
   MatchResult.method r = "Heuristic" \/ MatchResult.method r = "Pyramid" \/
   MatchResult.method r = "Full Scan") ->
  Forall balanced stats ->
  exists stats1,
    count_result stats r = inl stats1 /\
    length stats1 = length stats /\ Forall balanced stats1.
Proof.
  intros Hid Htag Hbal. unfold count_result.
  destruct (MatchResult.found r); [|by exists stats].
  destruct (lookup_lt_is_Some_2 stats _ Hid) as [s Hs]. rewrite Hs.
  eexists. split; [reflexivity|]. split; [by rewrite length_insert|].
  apply Forall_insert; [done|].
  pose proof (Forall_lookup_1 _ _ _ _ Hbal Hs) as Hb. unfold balanced in *.
  destruct (Htag eq_refl) as [Hm|[Hm|Hm]]; rewrite Hm;
    repeat (case_decide; try congruence); cbn; lia.
Qed.

Lemma count_results_balanced stats results :
  Forall (fun r => (MatchResult.id r < length stats)%nat /\
            (MatchResult.found r = true ->
             MatchResult.method r = "Heuristic" \/
             MatchResult.method r = "Pyramid" \/
             MatchResult.method r = "Full Scan")) results ->
  Forall balanced stats ->
  exists stats1,
    count_results stats results = inl stats1 /\
    length stats1 = length stats /\ Forall balanced stats1.
Proof.
  intros Hres. revert stats Hres.
  induction results as [|r rest IH]; intros stats Hres Hbal.
  { by exists stats. }
  apply Forall_cons in Hres as [[Hid Htag] Hrest]. cbn [count_results].
  destruct (count_result_balanced stats r Hid Htag Hbal)
    as (stats1 & -> & Hlen & Hbal1).
  destruct (IH stats1) as (stats2 & -> & Hlen2 & Hbal2); [|done|].
  - rewrite Hlen. exact Hrest.
  - exists stats2. split; [done|]. split; [congruence|done].
Qed.

(** What a cycle that returned results says about them. *)
Lemma cycle_results_countable self results :
  ids_ok (templates self) ->
  (find_all self).1.2 = py.Ok results ->
  Forall (fun r => (MatchResult.id r < length (templates self))%nat /\
            (MatchResult.found r = true ->
             MatchResult.method r = "Heuristic" \/
             MatchResult.method r = "Pyramid" \/
             MatchResult.method r = "Full Scan")) results.
Proof.
  intros Hids Hres.
  pose proof (find_all_results self results Hres) as HF.
  apply Forall_forall. intros r Hr.
  apply list_elem_of_lookup in Hr as [i Hr].
  destruct (Forall2_lookup_r _ _ _ _ _ HF Hr) as (t & Ht & fb & fg & fs & Hm).
  split.
  - rewrite (match_one_id _ _ _ _ _ _ Hm), (Hids i t Ht).
    by eapply lookup_lt_Some.
  - by eapply match_one_found_tag.
Qed.

Lemma tracking_cycles_balanced n :
  forall tracker stats,
    ids_ok (templates tracker) ->
    length stats = length (templates tracker) ->
    Forall balanced stats ->
    match tracking_cycles n tracker stats with
    | inl (tracker', stats') =>
        length stats' = length (templates tracker) /\ Forall balanced stats'
    | inr (Raised _) => True
    | inr (KeyError _) => False
    end.
Proof.
  induction n as [|n IH]; intros tracker stats Hids Hlen Hbal; [done|].
  cbn [tracking_cycles].
  pose proof (cycle_results_countable tracker) as Hres.
  pose proof (find_all_ids_ok tracker) as Hids1.
  pose proof (find_all_templates tracker) as Hts.
  destruct (find_all tracker) as [[tracker1 [results|e]] log];
    cbn [fst snd] in *; [|done].
  specialize (Hres results Hids eq_refl).
  specialize (Hids1 results Hids eq_refl).
  destruct (Hts results Hids eq_refl) as [Hzip HF].
  rewrite <- Hlen in Hres.
  destruct (count_results_balanced stats results Hres Hbal)
    as (stats1 & -> & Hlen1 & Hbal1).
  assert (length (templates tracker1) = length (templates tracker)) as Hl.
  { rewrite Hzip, length_zip_with, <- (Forall2_length _ _ _ HF). lia. }
  specialize (IH tracker1 stats1 Hids1).
  rewrite Hl in IH. apply IH; [congruence|done].
Qed.

(** X25. The counters of [run_tracking_loop_cv]: on a tracker as
    [__init__] returns it, whatever the number of cycles, counting never
    fails with a KeyError ([stats] has an entry for every result id), there
    stays one entry per template, and for every template the found count is
    the sum of its heuristic, pyramid and full-scan counts: every found
    result carries exactly one of the three tier tags. *)
Theorem found_count_is_sum_of_tier_counts
  (paths : list string) (conf : float) (margin workers : Z) (m : tm_method)
  (gray : bool) (df : float) (skip : bool) (tracker : MultiTemplateTrackerCV)
  (n : nat) :
  __init__ paths conf margin workers m gray df skip = py.Ok tracker ->
  match tracking_cycles n tracker (initial_stats tracker) with
  | inl (tracker', stats) =>
      length stats = length paths /\ Forall balanced stats
  | inr (Raised _) => True
  | inr (KeyError _) => False
  end.
Proof.
  intros Hinit.
  pose proof (init_ids_ok _ _ _ _ _ _ _ _ _ Hinit) as Hids.
  pose proof (init_length _ _ _ _ _ _ _ _ _ Hinit) as Hlen.
  pose proof (tracking_cycles_balanced n tracker (initial_stats tracker) Hids)
    as Hinv.
  rewrite <- Hlen. apply Hinv.
  - unfold initial_stats. by rewrite length_replicate.
  - unfold initial_stats. by apply Forall_replicate.
Qed.

End loop.

Lemma found_count_is_sum_of_tier_counts_witness :
  match tracking_cycles (H := screen6x4.vision) 3 (screen6x4.after 0)
          (initial_stats (screen6x4.after 0)) with
  | inl (tracker', stats) =>
      length stats = length ["slime.png"] /\ Forall balanced stats
  | inr (Raised _) => True
  | inr (KeyError _) => False
  end.
Proof.
  apply (found_count_is_sum_of_tier_counts (H := screen6x4.vision)
           ["slime.png"] 0.85 1 0 TM_CCOEFF_NORMED true 0.5 true
           (screen6x4.after 0) 3).
  vm_compute. reflexivity.
Defined.

(** The three cycles on the example screen: found twice, once by the pyramid
    and once by the ROI. *)
Example three_cycles_counted :
  match tracking_cycles (H := screen6x4.vision) 3 (screen6x4.after 0)
          (initial_stats (screen6x4.after 0)) with
  | inl (_, stats) => stats = [mkCounters 1 0 1 2]
  | inr _ => False
  end.
Proof. vm_compute. reflexivity. Qed.

End tracking_loop.

(** ** tracker_service.py: what a cycle publishes, and how main sets it up *)

Module service_facts.
Import simple_match tracker_service.

Section cycle.
Context `{Vision}.

Lemma published_extra_no_found r : published_extra r !! "found" = None.
Proof. unfold published_extra. by simplify_map_eq. Qed.

Lemma publish_wf self gs results :
  forall i h, game_state.wf gs h ->
              game_state.wf gs (publish self gs i results h).1.
Proof.
  induction results as [|r rest IH]; intros i h Hwf; [done|].
  cbn [publish]. destruct (templates self !! i); [|done].
  apply IH. by apply game_state.update_entity_wf.
Qed.

(** X20. A cycle of the service that gets results from [find_all] raises
    nothing and publishes one record per template: afterwards the store shows,
    under the template's name, the x, y and found of the template's own
    result together with its method, width and height (when several
    templates share a name, that of the last one), and [get_found_entities]
    lists the name exactly when that result was found.  Names of no template
    keep their records. *)
Theorem cycle_publishes_every_result
  (self : TrackerService) (gs : game_state.GameState)
  (tracker : MultiTemplateTrackerCV) (h : game_state.heap)
  (results : list MatchResult.t) :
  tracks self tracker -> game_state.wf gs h ->
  (find_all tracker).1.2 = py.Ok results ->
  let h' := (tracking_cycle self gs tracker h).1.2 in
  (tracking_cycle self gs tracker h).2 = None
  /\ length results = length (templates self)
  /\ game_state.wf gs h'
  /\ (forall i t r,
        templates self !! i = Some t -> results !! i = Some r ->
        (forall j t', (i < j)%nat -> templates self !! j = Some t' ->
                      name t' ≠ name t) ->
        let record := game_state.entity_dict (MatchResult.x r) (MatchResult.y r)
                        (MatchResult.found r) (published_extra r) in
        game_state.entity gs h' (name t) = Some record /\
        exists snap h1 tr,
          game_state.get_found_entities gs h' = (py.Ok snap, h1, tr) /\
          (game_state.view h1 snap ≫= (.!! name t))
          = (if MatchResult.found r then Some (Some record) else None))
  /\ (forall n, (forall t, t ∈ templates self -> name t ≠ n) ->
        game_state.entity gs h' n = game_state.entity gs h n).
Proof.
  intros Htr Hwf Hres h'.
  destruct (tracks_inv self tracker Htr) as [Hids Hlen].
  pose proof (find_all_results tracker results Hres) as HF.
  pose proof (Forall2_length _ _ _ HF) as Hlr.
  subst h'. unfold tracking_cycle.
  destruct (find_all tracker) as [[tracker' res] log]. cbn in Hres. subst res.
  destruct (publish_last self gs results 0 h Hwf) as [Hnone Hlast]; [lia|].
  assert (forall n, (forall t, t ∈ templates self -> name t ≠ n) ->
            game_state.wf gs (publish self gs 0 results h).1 /\
            game_state.entity gs (publish self gs 0 results h).1 n
            = game_state.entity gs h n) as Hother.
  { intros n Hn. apply publish_other; [done|].
    intros j t _ Ht. apply Hn. by eapply list_elem_of_lookup_2. }
  assert (game_state.wf gs (publish self gs 0 results h).1) as Hwf'
    by by apply publish_wf.
  destruct (publish self gs 0 results h) as [h1 raised]. cbn [fst snd] in *.
  subst raised.
  split; [done|]. split; [lia|]. split; [done|]. split.
  - intros i t r Ht Hr Hlater.
    pose proof (Hlast i r t Hr Ht Hlater) as Hent.
    split; [done|].
    apply game_state_reads.found_listing; [done| |done].
    apply published_extra_no_found.
  - intros n Hn. by apply Hother.
Qed.

End cycle.

Lemma cycle_publishes_every_result_witness :
  let gs := game_state.slime_seen.1 in
  let h := game_state.slime_seen.2 in
  let self := lost_slime.service in
  let results := [lost_slime.miss] in
  let h' := (tracking_cycle (H := screen6x4.vision) self gs
               lost_slime.tracker h).1.2 in
  (tracking_cycle (H := screen6x4.vision) self gs lost_slime.tracker h).2 = None
  /\ length results = length (templates self)
  /\ game_state.wf gs h'
  /\ (forall i t r,
        templates self !! i = Some t -> results !! i = Some r ->
        (forall j t', (i < j)%nat -> templates self !! j = Some t' ->
                      name t' ≠ name t) ->
        let record := game_state.entity_dict (MatchResult.x r) (MatchResult.y r)
                        (MatchResult.found r) (published_extra r) in
        game_state.entity gs h' (name t) = Some record /\
        exists snap h1 tr,
          game_state.get_found_entities gs h' = (py.Ok snap, h1, tr) /\
          (game_state.view h1 snap ≫= (.!! name t))
          = (if MatchResult.found r then Some (Some record) else None))
  /\ (forall n, (forall t, t ∈ templates self -> name t ≠ n) ->
        game_state.entity gs h' n = game_state.entity gs h n).
Proof.
  apply (cycle_publishes_every_result (H := screen6x4.vision) lost_slime.service
           game_state.slime_seen.1 lost_slime.tracker game_state.slime_seen.2
           [lost_slime.miss]).
  - apply (tracks_cycle (H := screen6x4.vision) _ _
             [MatchResult.mk 0 true 5 2 1 1 1.0 "Heuristic"]).
    + apply (tracks_cycle (H := screen6x4.vision) _ _
               [MatchResult.mk 0 true 4 2 1 1 1.0 "Pyramid"]).
      * apply tracks_created. vm_compute. reflexivity.
      * vm_compute. reflexivity.
    + vm_compute. reflexivity.
  - apply (game_state.update_entity_wf (game_state.__init__ ∅).1),
      game_state.init_wf.
  - vm_compute. reflexivity.
Defined.

(** *** From the command line to the tracker *)

(** What the set-up code uses of [os.path] and [glob]. *)
Class OsPath := {
  (** [os.path.join] *)
  path_join : list string -> string;
  basename : string -> string;
  dirname : string -> string;
  (** [os.path.splitext(p)[0]] *)
  splitext_root : string -> string;
  (** [glob.glob] *)
  glob : string -> list string;
  (** [os.path.dirname(__file__)] of tracker_service.py *)
  module_dir : string
}.

(** An element of [template_paths]: a (name, path) tuple, or a path. *)
Inductive item :=
| Named (name path : string)
| Bare (path : string).

(** The parsed arguments of [main]. *)
Record args := mkArgs {
  arg_script : string;
  arg_confidence : float;
  arg_fps : Z;
  arg_quiet : bool;
  arg_accurate : bool;
  arg_downscale_factor : float
}.

Section setup.
Context `{Vision} `{OsPath}.

(** The body of the [for item in template_paths] loop of
    [TrackerService.__init__]. *)
Definition template_of (it : item) : template :=
  match it with
  | Named name path => mkTemplate name path
  | Bare path =>
      let name := basename (dirname path) in
      let name :=
        if decide (name = "extraction_stuff")
        then splitext_root (basename path) else name in
      mkTemplate name path
  end.

(** [TrackerService.__init__] *)
Definition __init__ (template_paths : list item) (confidence : float)
    (search_margin fps : Z) (downscale_factor : float) (skip_full_scan : bool)
  : TrackerService :=
  mkService false fps confidence search_margin downscale_factor skip_full_scan
            (template_of <$> template_paths).

(** [create_tracker_from_extraction_dir]; [search_margin] and [fps] take the
    defaults of [TrackerService.__init__]. *)
Definition create_tracker_from_extraction_dir (extraction_dir : option string)
    (confidence downscale_factor : float) (skip_full_scan : bool)
  : py.result TrackerService :=
  let extraction_dir :=
    default (path_join [module_dir; "extraction_stuff"]) extraction_dir in
  let pattern := path_join [extraction_dir; "*"; "reference_crop.png"] in
  let paths := glob pattern in
  match paths with
  | [] =>
      py.Raise (py.FileNotFoundError
                  ("No reference_crop.png files found in " +:+ extraction_dir))
  | _ =>
      let template_paths :=
        (fun path => Named (basename (dirname path)) path) <$> paths in
      py.Ok (__init__ template_paths confidence 150 60
                      downscale_factor skip_full_scan)
  end.

(** The settings [main] derives from its flags, and the service it creates
    with them. *)
Definition main_service (a : args) : py.result TrackerService :=
  let downscale := if arg_accurate a then 1.0%float else arg_downscale_factor a in
  let skip_full := if arg_accurate a then false else true in
  create_tracker_from_extraction_dir None (arg_confidence a) downscale skip_full.

(** The reference crops [main] tracks. *)
Definition reference_crops : list string :=
  glob (path_join [path_join [module_dir; "extraction_stuff"];
                   "*"; "reference_crop.png"]).

Lemma init_settings paths conf margin workers m gray df skip self :
  simple_match.__init__ paths conf margin workers m gray df skip = py.Ok self ->
  use_pyramid self = (df <? 1.0)%float /\
  simple_match.skip_full_scan self = skip && (df <? 1.0)%float /\
  executor self = (0 <? workers).
Proof.
  unfold simple_match.__init__. destruct monitor as [sw sh]. intros Hinit.
  do 5 apply bind_Ok in Hinit as (? & _ & Hinit). by injection Hinit as <-.
Qed.

(** X21. When [main] gets its service and the tracking thread its tracker:
    there is at least one reference crop, and one template per crop, named
    after the crop's directory; the tracker matches with a thread pool; and
    at every cycle the pyramid is off and the full scan on under
    [--accurate], while otherwise the pyramid is on exactly when
    [--downscale-factor] is below 1.0 and the full scan is then skipped. *)
Theorem main_flags_reach_the_tracker
  (a : args) (service : TrackerService) (tracker : MultiTemplateTrackerCV)
  (n : nat) :
  main_service a = py.Ok service ->
  create_tracker service = py.Ok tracker ->
  let now := tracker_rules.cycles n tracker in
  reference_crops ≠ []
  /\ templates service
     = (fun p => mkTemplate (basename (dirname p)) p) <$> reference_crops
  /\ running service = false
  /\ length (simple_match.templates tracker) = length reference_crops
  /\ executor tracker = true
  /\ use_pyramid now
     = (if arg_accurate a then false
        else (arg_downscale_factor a <? 1.0)%float)
  /\ simple_match.skip_full_scan now
     = (if arg_accurate a then false
        else (arg_downscale_factor a <? 1.0)%float).
Proof.
  intros Hmain Hcreate now.
  unfold main_service, create_tracker_from_extraction_dir in Hmain.
  cbn [default from_option] in Hmain. fold reference_crops in Hmain.
  assert (reference_crops ≠ []) as Hne.
  { intros Hnil. by rewrite Hnil in Hmain. }
  assert (service
          = __init__ ((fun q => Named (basename (dirname q)) q)
                        <$> reference_crops)
              (arg_confidence a) 150 60
              (if arg_accurate a then 1.0%float else arg_downscale_factor a)
              (if arg_accurate a then false else true)) as ->.
  { destruct reference_crops; [done|]. by injection Hmain as <-. }
  clear Hmain. unfold create_tracker in Hcreate.
  cbn [__init__ templates confidence search_margin downscale_factor
       skip_full_scan] in Hcreate.
  destruct (init_settings _ _ _ _ _ _ _ _ _ Hcreate) as (Hp & Hs & He).
  pose proof (init_length _ _ _ _ _ _ _ _ _ Hcreate) as Hlen.
  destruct (tracker_rules.cycles_settings n tracker) as [Hp' Hs'].
  fold now in Hp', Hs'.
  rewrite !length_fmap in Hlen, He.
  split; [done|]. split.
  { unfold __init__. cbn [templates]. by rewrite <- list_fmap_compose. }
  split; [done|]. split; [done|]. split.
  { rewrite He. apply Z.ltb_lt. destruct reference_crops; [done|]. cbn. lia. }
  rewrite Hp', Hs', Hs, Hp.
  destruct (arg_accurate a); [by split|]. done.
Qed.

End setup.

(** The set-up on the example screen: one crop, found by [glob]. *)
Definition one_crop : OsPath := {|
  path_join parts := String.concat "/" parts;
  basename p := if decide (p = "slime.png") then "slime.png" else "slime";
  dirname p := "extraction_stuff/slime";
  splitext_root p := "slime";
  glob pattern := ["slime.png"];
  module_dir := "game_agent"
|}.

(** The tracker the thread creates under [--accurate] on the example
    screen. *)
Definition accurate_service : TrackerService :=
  mkService false 60 0.85 150 1.0 false [mkTemplate "slime" "slime.png"].

Definition accurate_tracker : MultiTemplateTrackerCV :=
  match create_tracker (H := screen6x4.vision) accurate_service with
  | py.Ok tracker => tracker
  | py.Raise _ => screen6x4.after 0
  end.

Lemma main_flags_reach_the_tracker_witness :
  let now := tracker_rules.cycles (H := screen6x4.vision) 3 accurate_tracker in
  reference_crops (H0 := one_crop) ≠ []
  /\ templates accurate_service
     = (fun p => mkTemplate (basename (OsPath := one_crop)
                               (dirname (OsPath := one_crop) p)) p)
         <$> reference_crops (H0 := one_crop)
  /\ running accurate_service = false
  /\ length (simple_match.templates accurate_tracker)
     = length (reference_crops (H0 := one_crop))
  /\ executor accurate_tracker = true
  /\ use_pyramid now = false
  /\ simple_match.skip_full_scan now = false.
Proof.
  apply (main_flags_reach_the_tracker (H := screen6x4.vision) (H0 := one_crop)
           (mkArgs "dodge_enemy" 0.85 60 false true 0.5)
           accurate_service accurate_tracker 3).
  - reflexivity.
  - vm_compute. reflexivity.
Defined.

End service_facts.

(** ** test_scripts/dodge_enemy.py, from the screen to the keyboard *)

Module dodge_enemy.
Import game_state actions script_runner.

Definition DODGE_DISTANCE : Z := 300.
Definition SCREEN_CENTER_X : Z := 1280.

(** [run(game_state, actions)], given the dict [get_found_entities] returned:
    nothing on an empty dict; otherwise the first item decides the direction
    and the target.  A record without "x" or "y" raises KeyError.  Records
    whose "x" or "y" is not an int are outside this model ([None]); with
    several entries the first one is the one [map_to_list] puts first (the
    store does not keep the insertion order Python iterates in). *)
Definition run (h : heap) (entities : loc) : option script_step :=
  match map_to_list (default ∅ (h !! entities)) with
  | [] => Some (mkStep [] None)
  | (_, entity) :: _ =>
      match deref h entity with
      | Some record =>
          match record !! "x", record !! "y" with
          | Some (VInt x), Some (VInt y) =>
              Some (mkStep [if x <? SCREEN_CENTER_X then MoveRight else MoveLeft;
                            AttackAt x y] None)
          | None, _ => Some (mkStep [] (Some (py.Exception "'x'")))
          | Some _, None => Some (mkStep [] (Some (py.Exception "'y'")))
          | _, _ => None
          end
      | None => None
      end
  end.

(** The store holds no entity but, possibly, [name]. *)
Definition only_entity (self : GameState) (h : heap) (name : string) : Prop :=
  forall other, other ≠ name -> stored self h other = None.

(** What [get_found_entities] returns after an update of the only entity. *)
Lemma found_after_update self (h : heap) name x y found extra :
  wf self h -> only_entity self h name -> extra !! "found" = None ->
  let h' := (update_entity self name x y found extra h).1 in
  exists snap h1 tr l,
    get_found_entities self h' = (py.Ok snap, h1, tr) /\
    h1 !! snap = Some (if found then {[ name := VRef l ]} else ∅) /\
    h1 !! l = Some (entity_dict x y found extra).
Proof.
  intros Hwf Honly Hex h'. pose proof Hwf as (table & Ht & Hrec).
  destruct (update_entity_table self name x y found extra h table Ht)
    as (l & Hfresh & Hl & Ht').
  fold h' in Hl, Ht'.
  assert (wf self h') as Hwf' by by apply update_entity_wf.
  unfold get_found_entities. rewrite Ht'. cbn [default from_option id].
  rewrite (found_flags_defined self h' _ Hwf' Ht').
  set (kept := filter _ (<[name := VRef l]> table)).
  assert (kept ⊆ <[name := VRef l]> table) as Hsub by apply map_filter_subseteq.
  destruct (snapshot_records self h' _ kept Hwf' Ht' Hsub)
    as (Hf1 & Hne & Hsnap & Ht1 & Hrec1 & Hwf1).
  destruct (new_dict_spec kept h') as [_ Hh1].
  destruct (new_dict kept h') as [snap h1]. cbn [fst snd] in *.
  assert (h1 !! l = Some (entity_dict x y found extra)) as Hl1.
  { rewrite Hh1, lookup_insert_ne; [done|].
    intros <-. apply Hf1, elem_of_dom. by eexists. }
  pose proof (game_state_reads.found_flag_new_record h' l x y found extra
                Hex Hl) as Hflag.
  exists snap, h1. eexists. exists l. split; [reflexivity|].
  split; [|done]. rewrite Hsnap. f_equal. apply map_eq. intros k.
  destruct (decide (k = name)) as [->|Hk].
  - destruct found.
    + rewrite lookup_singleton_eq. apply map_lookup_filter_Some.
      split; [apply lookup_insert_eq|done].
    + rewrite lookup_empty. apply map_lookup_filter_None. right. intros v.
      rewrite lookup_insert_eq. intros [= <-]. cbn [snd]. by rewrite Hflag.
  - assert (kept !! k = None) as ->.
    { apply map_lookup_filter_None. left. rewrite lookup_insert_ne by done.
      specialize (Honly k Hk). unfold stored in Honly. by rewrite Ht in Honly. }
    destruct found; [by rewrite lookup_singleton_ne|by rewrite lookup_empty].
Qed.

Section loop.
Context `{simple_match.Vision}.

(** X22. One turn of the whole loop with a single template and
    [dodge_enemy]: the service's cycle publishes the template's result, the
    policy reads [get_found_entities] and declares its intents, the runner
    flushes.  When the result is found, the policy moves away from the
    entity's side of the screen centre and attacks at the result's
    coordinates: after the flush exactly that movement key is held, the
    button is down, and the pointer was moved there.  When it is not found,
    the policy declares nothing and the flush releases every key and the
    button: the (0, 0) of a lost entity is never aimed at. *)
Theorem found_entity_is_attacked_lost_entity_releases
  (service : tracker_service.TrackerService) (gs : GameState)
  (tracker : simple_match.MultiTemplateTrackerCV) (h : heap)
  (t : tracker_service.template) (r : simple_match.MatchResult.t)
  (st : Actions) :
  tracker_service.templates service = [t] ->
  (simple_match.find_all tracker).1.2 = py.Ok [r] ->
  wf gs h -> only_entity gs h (tracker_service.name t) -> intent_clear st ->
  let h' := (tracker_service.tracking_cycle service gs tracker h).1.2 in
  let x := simple_match.MatchResult.x r in
  let y := simple_match.MatchResult.y r in
  exists snap h1 tr step,
    get_found_entities gs h' = (py.Ok snap, h1, tr) /\
    run h1 snap = Some step /\ raises step = None /\
    if simple_match.MatchResult.found r
    then
      calls step = [if x <? SCREEN_CENTER_X then MoveRight else MoveLeft;
                    AttackAt x y] /\
      _held_keys (frame (calls step) st).1
      = {[ if x <? SCREEN_CENTER_X then "d" else "a" ]} /\
      _mouse_is_down (frame (calls step) st).1 = true /\
      filter actions_device.is_move (frame (calls step) st).2 = [moveTo x y]
    else
      calls step = [] /\ frame (calls step) st = release_all st.
Proof.
  intros Hts Hres Hwf Honly Hclear h' x y.
  assert (h' = (update_entity gs (tracker_service.name t) x y
                  (simple_match.MatchResult.found r)
                  (tracker_service.published_extra r) h).1) as ->.
  { subst h'. unfold tracker_service.tracking_cycle.
    destruct (simple_match.find_all tracker) as [[tracker' res] log].
    cbn [fst snd] in Hres. subst res.
    cbn [tracker_service.publish]. by rewrite Hts. }
  destruct (found_after_update gs h (tracker_service.name t) x y
              (simple_match.MatchResult.found r)
              (tracker_service.published_extra r) Hwf Honly
              (service_facts.published_extra_no_found r))
    as (snap & h1 & tr & l & Hget & Hsnap & Hl).
  assert (forall k v, tracker_service.published_extra r !! k = None ->
            ({[ "x" := VInt x; "y" := VInt y;
                "found" := VBool (simple_match.MatchResult.found r) ]}
               : pydict) !! k = Some v ->
            entity_dict x y (simple_match.MatchResult.found r)
              (tracker_service.published_extra r) !! k = Some v) as Hfield.
  { intros k v Hk Hv. unfold entity_dict. by rewrite lookup_union_r. }
  exists snap, h1, tr.
  destruct (simple_match.MatchResult.found r).
  - exists (mkStep [if x <? SCREEN_CENTER_X then MoveRight else MoveLeft;
                    AttackAt x y] None).
    split; [done|]. split.
    { unfold run. rewrite Hsnap. cbn [default from_option id].
      rewrite map_to_list_singleton. cbn [deref]. rewrite Hl.
      rewrite (Hfield "x" (VInt x)), (Hfield "y" (VInt y));
        first [done | unfold tracker_service.published_extra;
                      by simplify_map_eq]. }
    split; [done|]. split; [done|]. cbn [calls].
    unfold frame. rewrite flush_state, actions_device.flush_move_calls.
    destruct Hclear as (Hd & _ & _ & _).
    destruct (x <? SCREEN_CENTER_X);
      unfold declare; cbn [foldl call]; unfold attack_at, move_right, move_left,
        add_desired; cbn [_held_keys _desired_keys _mouse_is_down _mouse_target
                          _want_attack flush_aim];
      rewrite Hd, union_empty_r_L;
      (split; [done|]); (split; [|done]);
      by destruct (_mouse_is_down st).
  - exists (mkStep [] None).
    split; [done|]. split.
    { unfold run. rewrite Hsnap. cbn [default from_option id].
      by rewrite map_to_list_empty. }
    split; [done|]. split; [done|]. cbn [calls]. by apply actions_device.frame_nil.
Qed.

End loop.

(** The slime is lost while "d" and the button are held. *)
Lemma found_entity_is_attacked_lost_entity_releases_witness :
  let gs := slime_seen.1 in
  let h := slime_seen.2 in
  let st := (frame [MoveRight; AttackAt 800 400] actions.__init__).1 in
  let h' := (tracker_service.tracking_cycle (H := simple_match.screen6x4.vision)
               tracker_service.lost_slime.service gs
               tracker_service.lost_slime.tracker h).1.2 in
  exists snap h1 tr step,
    get_found_entities gs h' = (py.Ok snap, h1, tr) /\
    run h1 snap = Some step /\ raises step = None /\
    calls step = [] /\ frame (calls step) st = release_all st.
Proof.
  intros gs h st.
  apply (found_entity_is_attacked_lost_entity_releases
           (H := simple_match.screen6x4.vision)
           tracker_service.lost_slime.service gs
           tracker_service.lost_slime.tracker h
           (tracker_service.mkTemplate "slime" "slime.png")
           tracker_service.lost_slime.miss st).
  - reflexivity.
  - vm_compute. reflexivity.
  - apply (update_entity_wf (game_state.__init__ ∅).1), init_wf.
  - intros other Hne. unfold stored.
    assert (h !! _entities gs = Some {[ "slime" := VRef 3%positive ]}) as ->
      by (vm_compute; reflexivity).
    by rewrite lookup_singleton_ne.
  - apply flush_clear.
Defined.

(** That turn, evaluated: the device calls of the flush after the miss. *)
Example lost_slime_released :
  let '(gs, h) := slime_seen in
  let st := (frame [MoveRight; AttackAt 800 400] actions.__init__).1 in
  let h' := (tracker_service.tracking_cycle (H := simple_match.screen6x4.vision)
               tracker_service.lost_slime.service gs
               tracker_service.lost_slime.tracker h).1.2 in
  match get_found_entities gs h' with
  | (py.Ok snap, h1, _) =>
      match run h1 snap with
      | Some step => (frame (calls step) st).2 = [keyUp "d"; mouseUp]
      | None => False
      end
  | _ => False
  end.
Proof. vm_compute. reflexivity. Qed.

End dodge_enemy.

(** ** combat_learner.py: the fight loop of [learn_to_fight] *)

Module combat_learner.

(** What the reply to a fight recording yields: [won] is
    ["RESULT: WIN" in response_text.upper()], [script] is
    [self._parse_script(response_text)]. *)
Record response := mkResponse {
  won : bool;
  script : option string
}.

(** What the surroundings contribute to one attempt. *)
Record attempt_env := mkEnv {
  (** the exception [load_script_from_path] raises on the saved script *)
  load : option py.exn;
  (** [fight_result.get("video_path")] *)
  video_path : option string;
  (** the upload of the recording and the chat message; an exception of
      either is raised *)
  reply : py.result response
}.

(** An entry of [history], by the keys the loop branches on. *)
Record attempt_record := mkRecord {
  rec_attempt : Z;
  rec_video_path : option string;
  rec_won : bool
}.

(** How [learn_to_fight] ends once the tracker runs: the returned dict by its
    "status", or the exception that escapes. *)
Inductive result :=
| failed (error : string)
| victory (attempts : Z) (winning_script : string)
          (history : list attempt_record)
| max_attempts_reached (attempts : Z) (history : list attempt_record)
| raised (e : py.exn).

(** The [for attempt in range(1, max_attempts + 1)] loop, on the attempts
    still to make. *)
Fixpoint fight_loop (env : Z -> attempt_env) (max_attempts : Z)
    (todo : list Z) (script_code : string) (history : list attempt_record)
  : result :=
  match todo with
  | [] => max_attempts_reached max_attempts history
  | attempt :: rest =>
      match load (env attempt) with
      | Some e => raised e
      | None =>
          match video_path (env attempt) with
          | None =>
              fight_loop env max_attempts rest script_code
                         (history ++ [mkRecord attempt None false])
          | Some v =>
              match reply (env attempt) with
              | py.Raise e => raised e
              | py.Ok r =>
                  let history := history ++ [mkRecord attempt (Some v) (won r)] in
                  if won r then victory attempt script_code history
                  else
                    fight_loop env max_attempts rest
                               (default script_code (script r)) history
              end
          end
      end
  end.

(** Phases 4 and 5: the initial script, then the loop. *)
Definition fight_attempts (env : Z -> attempt_env) (max_attempts : Z)
    (initial : option string) : result :=
  match initial with
  | None => failed "Gemini did not return a valid script"
  | Some script_code =>
      fight_loop env max_attempts (seqZ 1 max_attempts) script_code []
  end.

(** An attempt that ends with neither a win nor an exception. *)
Definition goes_on (e : attempt_env) : Prop :=
  load e = None /\
  (video_path e = None \/
   exists r, reply e = py.Ok r /\ won r = false).

(** An attempt that is recorded and judged a win. *)
Definition wins (e : attempt_env) : Prop :=
  load e = None /\ video_path e ≠ None /\
  exists r, reply e = py.Ok r /\ won r = true.

(** The script an attempt hands to the next one: the one parsed from its
    reply, if there was a recording and a reply with a script. *)
Definition improved (e : attempt_env) : option string :=
  match video_path e, reply e with
  | Some _, py.Ok r => script r
  | _, _ => None
  end.

(** The script run in attempt [k]: the latest improved one, else the
    initial one. *)
Definition script_of (env : Z -> attempt_env) (initial : string) (k : Z)
  : string :=
  foldl (fun s j => default s (improved (env j))) initial (seqZ 1 (k - 1)).

Definition record_of (env : Z -> attempt_env) (k : Z) : attempt_record :=
  mkRecord k (video_path (env k))
    match video_path (env k), reply (env k) with
    | Some _, py.Ok r => won r
    | _, _ => false
    end.

Lemma fight_loop_goes_on env max_attempts pre :
  forall rest script_code history,
    Forall (fun j => goes_on (env j)) pre ->
    fight_loop env max_attempts (pre ++ rest) script_code history
    = fight_loop env max_attempts rest
        (foldl (fun s j => default s (improved (env j))) script_code pre)
        (history ++ (record_of env <$> pre)).
Proof.
  induction pre as [|j pre IH]; intros rest script_code history Hpre.
  { cbn. by rewrite app_nil_r. }
  apply Forall_cons in Hpre as [(Hload & Hgo) Hpre].
  cbn [app fight_loop foldl fmap list_fmap]. rewrite Hload.
  assert (exists v w,
            improved (env j) = (if v is Some _ then
                                  match reply (env j) with
                                  | py.Ok r => script r
                                  | py.Raise _ => None
                                  end
                                else None) /\
            record_of env j = mkRecord j v w /\ video_path (env j) = v /\
            (v = None -> w = false) /\
            (forall r, v ≠ None -> reply (env j) = py.Ok r -> w = won r))
    as (v & w & Himp & Hrec & Hv & Hw1 & Hw2).
  { unfold improved, record_of.
    destruct (video_path (env j)) as [v|]; [|by exists None, false].
    destruct (reply (env j)) as [r|e].
    - exists (Some v), (won r). repeat split; try done. by intros r' _ [= <-].
    - by exists (Some v), false. }
  rewrite Himp, Hrec, Hv. clear Himp Hrec.
  destruct Hgo as [Hnone|(r & Hr & Hw)].
  - rewrite Hv in Hnone. subst v. rewrite (Hw1 eq_refl).
    cbn [default from_option id]. rewrite IH by done.
    by rewrite <- app_assoc.
  - destruct v as [v|].
    + rewrite Hr, Hw. rewrite (Hw2 r) by done. rewrite Hw.
      rewrite IH by done. by rewrite <- app_assoc.
    + rewrite (Hw1 eq_refl). cbn [default from_option id].
      rewrite IH by done. by rewrite <- app_assoc.
Qed.

(** X23. The fight loop ends at the first attempt that is judged a win: if
    the attempts before attempt [k] end with neither a win nor an exception
    and attempt [k] wins, [learn_to_fight] returns "victory" with
    [attempts = k] and one history record per attempt made.  The winning
    script is the one that was run in attempt [k]: the script of the latest
    earlier reply that had a parsable one (a reply without one keeps the
    script, an attempt without a recording asks for none), else the initial
    script; a script in the winning reply itself is not used. *)
Theorem first_win_returns_the_script_it_ran
  (env : Z -> attempt_env) (max_attempts : Z) (initial : string) (k : Z) :
  1 <= k <= max_attempts ->
  (forall j, 1 <= j < k -> goes_on (env j)) ->
  wins (env k) ->
  fight_attempts env max_attempts (Some initial)
  = victory k (script_of env initial k) (record_of env <$> seqZ 1 k).
Proof.
  intros Hk Hbefore (Hload & Hvideo & r & Hr & Hw).
  unfold fight_attempts, script_of.
  replace max_attempts with ((k - 1) + (1 + (max_attempts - k))) at 2 by lia.
  rewrite seqZ_app by lia.
  rewrite fight_loop_goes_on by (apply Forall_seqZ; intros j Hj; apply Hbefore; lia).
  rewrite (seqZ_cons (1 + (k - 1))) by lia.
  replace (1 + (k - 1)) with k by lia.
  cbn [fight_loop app]. rewrite Hload.
  assert (seqZ 1 k = seqZ 1 (k - 1) ++ [k]) as ->.
  { replace k with ((k - 1) + 1) at 1 by lia.
    rewrite (seqZ_app 1 (k - 1) 1) by lia.
    replace (1 + (k - 1)) with k by lia.
    by rewrite (seqZ_cons k 1), (seqZ_nil _ (Z.pred 1)) by lia. }
  rewrite fmap_app. cbn [fmap list_fmap].
  assert (exists v, video_path (env k) = Some v) as [v Hv]
    by (destruct (video_path (env k)); [by eexists|done]).
  assert (record_of env k = mkRecord k (Some v) true) as ->
    by (unfold record_of; by rewrite Hv, Hr, Hw).
  by rewrite Hv, Hr, Hw.
Qed.

(** X24. Without a win and without an exception the loop makes exactly
    [max_attempts] attempts and [learn_to_fight] returns "max_attempts",
    with one history record per attempt, none of them won; an attempt whose
    fight produced no recording counts as an attempt. *)
Theorem attempts_without_win_are_all_used
  (env : Z -> attempt_env) (max_attempts : Z) (initial : string) :
  (forall j, 1 <= j <= max_attempts -> goes_on (env j)) ->
  fight_attempts env max_attempts (Some initial)
  = max_attempts_reached max_attempts (record_of env <$> seqZ 1 max_attempts)
  /\ length (record_of env <$> seqZ 1 max_attempts) = Z.to_nat max_attempts
  /\ Forall (fun rec => rec_won rec = false)
            (record_of env <$> seqZ 1 max_attempts).
Proof.
  intros Hall. unfold fight_attempts. split; [|split].
  - rewrite <- (app_nil_r (seqZ 1 max_attempts)) at 1.
    rewrite fight_loop_goes_on by (apply Forall_seqZ; intros j Hj; apply Hall; lia).
    done.
  - rewrite length_fmap. apply length_seqZ.
  - apply Forall_fmap, Forall_seqZ. intros j Hj. cbn.
    destruct (Hall j) as (_ & [Hv|(r & Hr & Hw)]); [lia| |].
    + by rewrite Hv.
    + rewrite Hr, Hw. by destruct (video_path (env j)).
Qed.

(** Four attempts: the boss does not appear; a lost fight whose reply brings
    a new script; a lost fight whose reply has no script; a won fight. *)
Definition four_attempts (j : Z) : attempt_env :=
  if j =? 1 then mkEnv None None (py.Ok (mkResponse false None))
  else if j =? 2
  then mkEnv None (Some "fight_2.mp4")
             (py.Ok (mkResponse false (Some "def run(game_state, actions): pass")))
  else if j =? 3
  then mkEnv None (Some "fight_3.mp4") (py.Ok (mkResponse false None))
  else mkEnv None (Some "fight_4.mp4")
             (py.Ok (mkResponse true (Some "def run(game_state, actions): ..."))).

Lemma first_win_returns_the_script_it_ran_witness :
  fight_attempts four_attempts 10 (Some "initial")
  = victory 4 (script_of four_attempts "initial" 4)
            (record_of four_attempts <$> seqZ 1 4).
Proof.
  apply (first_win_returns_the_script_it_ran four_attempts 10 "initial" 4).
  - lia.
  - intros j Hj. assert (j = 1 \/ j = 2 \/ j = 3) as [->|[->| ->]] by lia.
    + split; [done|]. by left.
    + split; [done|]. right. by eexists.
    + split; [done|]. right. by eexists.
  - split; [done|]. split; [done|]. by eexists.
Defined.

(** That run, evaluated: the script of the second attempt's reply wins. *)
Example four_attempts_run :
  fight_attempts four_attempts 10 (Some "initial")
  = victory 4 "def run(game_state, actions): pass"
      [mkRecord 1 None false; mkRecord 2 (Some "fight_2.mp4") false;
       mkRecord 3 (Some "fight_3.mp4") false;
       mkRecord 4 (Some "fight_4.mp4") true].
Proof. vm_compute. reflexivity. Qed.

(** The boss never appears. *)
Definition no_boss (j : Z) : attempt_env :=
  mkEnv None None (py.Ok (mkResponse false None)).

Lemma attempts_without_win_are_all_used_witness :
  fight_attempts no_boss 3 (Some "initial")
  = max_attempts_reached 3 (record_of no_boss <$> seqZ 1 3)
  /\ length (record_of no_boss <$> seqZ 1 3) = Z.to_nat 3
  /\ Forall (fun rec => rec_won rec = false) (record_of no_boss <$> seqZ 1 3).
Proof.
  apply (attempts_without_win_are_all_used no_boss 3 "initial").
  intros j _. split; [done|]. by left.
Defined.

End combat_learner.

